(** * Mama Eidah backend: the data-access layer of [main.py] over a document store

    The handlers of [main.py] are embedded as programs of a small state and
    error monad over a model of the MongoDB database they talk to.  The
    model keeps, next to the collections, the chronological log of the
    commands sent to the store, so that statements about what is (not) read,
    written or deleted, and in which order, can be expressed. *)

From Stdlib Require Import Ascii String NArith Floats.
From stdpp Require Import gmap strings list fin_maps.

Open Scope string_scope.
Open Scope list_scope.

(** ** Identifiers: [bson.ObjectId] *)

(** An [ObjectId] is its [binary] value: twelve bytes for every identifier
    the driver generates, and the bytes [bytes.fromhex] finds in the string
    for an identifier made from a string.  The store compares identifiers
    by these bytes. *)
Definition ObjectId : Type := list Byte.byte.

#[global] Instance byte_eq_dec : EqDecision Byte.byte := Byte.byte_eq_dec.

(** [int(c, 16)] for one character. *)
Definition hex_value (c : ascii) : option N :=
  let n := N_of_ascii c in
  if (48 <=? n)%N && (n <=? 57)%N then Some (n - 48)%N
  else if (97 <=? n)%N && (n <=? 102)%N then Some (n - 87)%N
  else if (65 <=? n)%N && (n <=? 70)%N then Some (n - 55)%N
  else None.

(** ["0123456789abcdef"[n]] *)
Definition hex_digit (n : N) : ascii :=
  if (n <? 10)%N then ascii_of_N (48 + n) else ascii_of_N (87 + n).

(** The white space [bytes.fromhex] skips: tab, line feed, vertical tab,
    form feed, carriage return and space. *)
Definition hex_space (c : ascii) : bool :=
  let n := N_of_ascii c in
  ((9 <=? n)%N && (n <=? 13)%N) || (n =? 32)%N.

(** [bytes.fromhex]: pairs of hexadecimal digits, of either case, with any
    white space before, between and after the pairs, but none inside a
    pair; any other character, a character that is not ASCII included, and
    a digit left alone raise [ValueError]. *)
Fixpoint fromhex (s : string) : option (list Byte.byte) :=
  match s with
  | EmptyString => Some []
  | String a r =>
      if hex_space a then fromhex r
      else
        match r with
        | EmptyString => None
        | String b r' =>
            match hex_value a, hex_value b, fromhex r' with
            | Some h, Some l, Some bs =>
                match Byte.of_N (16 * h + l) with
                | Some x => Some (x :: bs)
                | None => None
                end
            | _, _, _ => None
            end
        end
  end.

(** [binascii.hexlify]: two lower-case digits per byte. *)
Fixpoint hexlify (bs : list Byte.byte) : string :=
  match bs with
  | [] => EmptyString
  | x :: r =>
      let n := Byte.to_N x in
      String (hex_digit (n / 16)) (String (hex_digit (n mod 16)) (hexlify r))
  end.

(** [ObjectId(s)] for a [str] argument: a string of 24 characters that
    [bytes.fromhex] accepts; anything else raises [InvalidId].  So 24
    hexadecimal digits give twelve bytes, and a string of 24 characters
    with white space between its pairs of digits gives fewer.  A string
    with a character that is not ASCII is refused whatever its length, by
    the length or by [fromhex], so the length may be taken in bytes. *)
Definition parse_ObjectId (s : string) : option ObjectId :=
  if decide (String.length s = 24) then fromhex s else None.

(** [str(o)] for an [ObjectId]. *)
Definition str_ObjectId (o : ObjectId) : string := hexlify o.

(** ** Values and documents *)

(** [datetime] values, as a count of microseconds. *)
Definition datetime : Type := N.

Inductive value : Type :=
| VNull
| VBool (b : bool)
| VStr (s : string)
| VFloat (f : float)
| VDate (t : datetime)
| VOid (o : ObjectId).

(** A Python [dict] with string keys. *)
Abbreviation dict := (gmap string value).

(** A stored document is a [dict] that always has the key ["_id"]; every
    document of this program is inserted without one, so the driver binds it
    to a generated [ObjectId].  The record keeps that key apart from the
    others. *)
Record document : Type := Document { _id : ObjectId; body : dict }.

(** [doc[k]], seen as [doc.get(k)]. *)
Definition field (k : string) (d : document) : option value :=
  if decide (k = "_id") then Some (VOid (_id d)) else body d !! k.

Definition value_eqb (a b : value) : bool :=
  match a, b with
  | VNull, VNull => true
  | VBool x, VBool y => bool_decide (x = y)
  | VStr x, VStr y => bool_decide (x = y)
  | VFloat x, VFloat y => PrimFloat.eqb x y
  | VDate x, VDate y => bool_decide (x = y)
  | VOid x, VOid y => bool_decide (x = y)
  | _, _ => false
  end.

(** ** Queries *)

(** The two forms of condition [main.py] writes: [{k: v}] and
    [{k: {"$ne": v}}]. *)
Inductive cond : Type :=
| Is (v : value)
| Ne (v : value).

Definition query : Type := list (string * cond).

(** Equality match of a field; a missing field matches [None] only. *)
Definition field_is (k : string) (v : value) (d : document) : bool :=
  match field k d with
  | Some x => value_eqb x v
  | None => value_eqb VNull v
  end.

Definition holds (d : document) (kc : string * cond) : bool :=
  match kc.2 with
  | Is v => field_is kc.1 v d
  | Ne v => negb (field_is kc.1 v d)
  end.

Definition matches (q : query) (d : document) : bool := forallb (holds d) q.

(** ** The store and the commands sent to it *)

Inductive access : Type :=
| FindOne (c : string) (q : query)
| Find (c : string) (q : query)
| InsertOne (c : string) (d : dict)
| UpdateOne (c : string) (q : query) (patch : dict)
| DeleteOne (c : string) (q : query)
| DeleteMany (c : string) (q : query).

Record World : Type := MkWorld {
  store : gmap string (list document);   (* db: collection name -> documents, in natural order *)
  log : list access;                     (* the commands sent so far, oldest first *)
  ticks : nat;                           (* number of clock readings so far *)
  draws : nat                            (* number of identifiers generated so far *)
}.

(** [db[c]]: a collection that was never written to is empty. *)
Definition coll (c : string) (st : gmap string (list document)) : list document :=
  default [] (st !! c).

(** ** Errors and the monad of handlers *)

Inductive error : Type :=
| HTTPException (status_code : nat) (detail : string)
| Uncaught (exc : string).

Inductive res (A : Type) : Type :=
| Ok (a : A)
| Raise (e : error).
Arguments Ok {A} a.
Arguments Raise {A} e.

(** A handler runs on a world and leaves a world, also when it raises:
    nothing is rolled back. *)
Definition M (A : Type) : Type := World → res A * World.

#[global] Instance M_ret : MRet M := λ A a w, (Ok a, w).

#[global] Instance M_bind : MBind M := λ A B k m w,
  match m w with
  | (Ok a, w') => k a w'
  | (Raise e, w') => (Raise e, w')
  end.

Definition raise {A} (e : error) : M A := λ w, (Raise e, w).

(** The failures the handlers raise on purpose. *)
Definition InvalidIdentifier : error := HTTPException 400 "معرّف غير صالح".
Definition DuplicateCode : error := HTTPException 400 "رمز الدخول مستخدم بالفعل".
Definition NotFound (detail : string) : error := HTTPException 404 detail.

(** [for x in xs: f(x)] *)
Fixpoint for_each {A} (xs : list A) (f : A → M unit) : M unit :=
  match xs with
  | [] => mret ()
  | x :: r => f x ;; for_each r f
  end.

(** ** The collection methods of the driver *)

Definition send (a : access) : M unit := λ w,
  (Ok (), MkWorld (store w) (log w ++ [a]) (ticks w) (draws w)).

Definition read (c : string) : M (list document) := λ w,
  (Ok (coll c (store w)), w).

Definition write (c : string) (l : list document) : M unit := λ w,
  (Ok (), MkWorld (<[c := l]> (store w)) (log w) (ticks w) (draws w)).

(** The first document that satisfies [p] is replaced by its image. *)
Fixpoint update_first (p : document → bool) (f : document → document)
    (l : list document) : list document :=
  match l with
  | [] => []
  | d :: r => if p d then f d :: r else d :: update_first p f r
  end.

(** The first document that satisfies [p] is removed. *)
Fixpoint remove_first (p : document → bool) (l : list document) : list document :=
  match l with
  | [] => []
  | d :: r => if p d then r else d :: remove_first p r
  end.

(** [{"$set": patch}]: the keys of the patch are (re)bound, the others kept. *)
Definition apply_set (patch : dict) (d : document) : document :=
  Document (_id d) (patch ∪ body d).

Definition keeps (q : query) (d : document) : bool := negb (matches q d).

(** [db[c].find_one(q)] *)
Definition find_one (c : string) (q : query) : M (option document) :=
  send (FindOne c q) ;;
  l ← read c;
  mret (List.find (matches q) l).

(** [list(db[c].find(q))] *)
Definition find (c : string) (q : query) : M (list document) :=
  send (Find c q) ;;
  l ← read c;
  mret (List.filter (matches q) l).

(** [list(db[c].find(q, {"_id": 1}))]: only the identifier is returned. *)
Definition find_ids (c : string) (q : query) : M (list document) :=
  l ← find c q;
  mret (map (λ d, Document (_id d) ∅) l).

(** [db[c].update_one(q, {"$set": patch}).matched_count] *)
Definition update_one (c : string) (q : query) (patch : dict) : M nat :=
  send (UpdateOne c q patch) ;;
  l ← read c;
  match List.find (matches q) l with
  | Some _ => write c (update_first (matches q) (apply_set patch) l) ;; mret 1
  | None => mret 0
  end.

(** [db[c].delete_one(q).deleted_count] *)
Definition delete_one (c : string) (q : query) : M nat :=
  send (DeleteOne c q) ;;
  l ← read c;
  match List.find (matches q) l with
  | Some _ => write c (remove_first (matches q) l) ;; mret 1
  | None => mret 0
  end.

(** [db[c].delete_many(q).deleted_count] *)
Definition delete_many (c : string) (q : query) : M nat :=
  send (DeleteMany c q) ;;
  l ← read c;
  write c (List.filter (keeps q) l) ;;
  mret (length l - length (List.filter (keeps q) l)).

(** [cursor.sort(keys)]: a stable insertion sort on the listed keys, each
    ascending ([true]) or descending ([false]), in the comparison order of
    BSON values (null, numbers, strings, identifiers, booleans, dates); a
    missing key counts as null. *)
Definition bson_rank (v : value) : N :=
  match v with
  | VNull => 0 | VFloat _ => 1 | VStr _ => 2 | VOid _ => 3 | VBool _ => 4 | VDate _ => 5
  end%N.

Fixpoint bytes_compare (a b : list Byte.byte) : comparison :=
  match a, b with
  | [], [] => Eq
  | [], _ :: _ => Lt
  | _ :: _, [] => Gt
  | x :: r, y :: s =>
      match N.compare (Byte.to_N x) (Byte.to_N y) with
      | Eq => bytes_compare r s
      | c => c
      end
  end.

Definition value_compare (a b : value) : comparison :=
  match a, b with
  | VFloat x, VFloat y =>
      match PrimFloat.compare x y with
      | FLt => Lt | FGt => Gt | _ => Eq
      end
  | VStr x, VStr y => String.compare x y
  | VOid x, VOid y => bytes_compare x y
  | VBool x, VBool y => Bool.compare x y
  | VDate x, VDate y => N.compare x y
  | _, _ => N.compare (bson_rank a) (bson_rank b)
  end.

Fixpoint keys_compare (keys : list (string * bool)) (a b : document) : comparison :=
  match keys with
  | [] => Eq
  | (k, asc) :: r =>
      let c := value_compare (default VNull (field k a)) (default VNull (field k b)) in
      match (if asc then c else CompOpp c) with
      | Eq => keys_compare r a b
      | c' => c'
      end
  end.

Fixpoint insert_sorted (keys : list (string * bool)) (d : document)
    (l : list document) : list document :=
  match l with
  | [] => [d]
  | x :: r =>
      match keys_compare keys d x with
      | Gt => x :: insert_sorted keys d r
      | _ => d :: x :: r
      end
  end.

Definition sort (keys : list (string * bool)) (l : list document) : list document :=
  foldr (insert_sorted keys) [] l.

(** ** The schemas of [schemas.py] *)

Inductive Gender : Type := boy | girl.
Definition Gender_str (g : Gender) : string :=
match g with boy => "boy" | girl => "girl" end.

Inductive Role : Type := teacher | student.
Definition Role_str (r : Role) : string :=
match r with teacher => "teacher" | student => "student" end.

Definition opt_str (o : option string) : value :=
match o with Some s => VStr s | None => VNull end.

Module StudentSchema.
Inductive Grade : Type := g1 | g2 | g3.
Definition Grade_str (g : Grade) : string :=
  match g with g1 => "1" | g2 => "2" | g3 => "3" end.
Record t : Type := Make {
  name : string; gender : Gender; grade : Grade; code : string; avatar : Gender }.
Definition model_dump (s : t) : dict :=
  <["name" := VStr (name s)]> (<["gender" := VStr (Gender_str (gender s))]>
  (<["grade" := VStr (Grade_str (grade s))]> (<["code" := VStr (code s)]>
  (<["avatar" := VStr (Gender_str (avatar s))]> ∅)))).
End StudentSchema.

Module LessonSchema.
Inductive Status : Type := scheduled | completed | cancelled | rescheduled.
Definition Status_str (s : Status) : string :=
  match s with
  | scheduled => "scheduled" | completed => "completed"
  | cancelled => "cancelled" | rescheduled => "rescheduled"
  end.
Record t : Type := Make {
  student_id : string; date : string; start_time : string; topic : string;
  notes : option string; status : Status }.
Definition model_dump (l : t) : dict :=
  <["student_id" := VStr (student_id l)]> (<["date" := VStr (date l)]>
  (<["start_time" := VStr (start_time l)]> (<["topic" := VStr (topic l)]>
  (<["notes" := opt_str (notes l)]> (<["status" := VStr (Status_str (status l))]> ∅))))).
End LessonSchema.

Module HomeworkSchema.
Inductive Status : Type := pending | submitted | graded.
Definition Status_str (s : Status) : string :=
  match s with pending => "pending" | submitted => "submitted" | graded => "graded" end.
Record t : Type := Make {
  student_id : string; lesson_id : option string; title : string;
  description : option string; due_date : option string;
  attachment_url : option string; status : Status }.
Definition model_dump (h : t) : dict :=
  <["student_id" := VStr (student_id h)]> (<["lesson_id" := opt_str (lesson_id h)]>
  (<["title" := VStr (title h)]> (<["description" := opt_str (description h)]>
  (<["due_date" := opt_str (due_date h)]> (<["attachment_url" := opt_str (attachment_url h)]>
  (<["status" := VStr (Status_str (status h))]> ∅)))))).
End HomeworkSchema.

Module SubmissionSchema.
Inductive Status : Type := submitted | graded.
Definition Status_str (s : Status) : string :=
  match s with submitted => "submitted" | graded => "graded" end.
Record t : Type := Make {
  homework_id : string; student_id : string; file_url : option string;
  submitted_at : option string; status : Status; grade : option float;
  feedback : option string }.
Definition model_dump (s : t) : dict :=
  <["homework_id" := VStr (homework_id s)]> (<["student_id" := VStr (student_id s)]>
  (<["file_url" := opt_str (file_url s)]> (<["submitted_at" := opt_str (submitted_at s)]>
  (<["status" := VStr (Status_str (status s))]>
  (<["grade" := match grade s with Some g => VFloat g | None => VNull end]>
  (<["feedback" := opt_str (feedback s)]> ∅)))))).
End SubmissionSchema.

Module MessageSchema.
Record t : Type := Make {
  student_id : string; sender : Role; text : string; read : bool }.
Definition model_dump (m : t) : dict :=
  <["student_id" := VStr (student_id m)]> (<["sender" := VStr (Role_str (sender m))]>
  (<["text" := VStr (text m)]> (<["read" := VBool (read m)]> ∅))).
End MessageSchema.

(** ** Python's [str]: characters and [str.strip()] *)

(** Where the characters of a Python [str] matter, it is the sequence of
    its code points. *)
Definition pystr : Type := list N.

(** The code points of a literal of the source file, which is in UTF-8. *)
Fixpoint utf8 (s : string) : pystr :=
  match s with
  | EmptyString => []
  | String a r =>
      let x := N_of_ascii a in
      if (x <? 128)%N then x :: utf8 r
      else
        match r with
        | EmptyString => []
        | String b r1 =>
            let y := (N_of_ascii b - 128)%N in
            if (x <? 224)%N then ((x - 192) * 64 + y)%N :: utf8 r1
            else
              match r1 with
              | EmptyString => []
              | String c r2 =>
                  let z := (N_of_ascii c - 128)%N in
                  if (x <? 240)%N then ((x - 224) * 4096 + y * 64 + z)%N :: utf8 r2
                  else
                    match r2 with
                    | EmptyString => []
                    | String d r3 =>
                        ((x - 240) * 262144 + y * 4096 + z * 64
                         + (N_of_ascii d - 128))%N :: utf8 r3
                    end
              end
        end
  end.

(** [str.isspace] on one code point. *)
Definition isspace_cp (n : N) : bool :=
  ((9 <=? n) && (n <=? 13) || (28 <=? n) && (n <=? 32) || (n =? 133) || (n =? 160)
   || (n =? 5760) || (8192 <=? n) && (n <=? 8202) || (n =? 8232) || (n =? 8233)
   || (n =? 8239) || (n =? 8287) || (n =? 12288))%N.

Fixpoint text_lstrip (q : pystr) : pystr :=
  match q with
  | [] => []
  | c :: r => if isspace_cp c then text_lstrip r else q
  end.

Fixpoint text_rstrip (q : pystr) : pystr :=
  match q with
  | [] => []
  | c :: r =>
      match text_rstrip r with
      | [] => if isspace_cp c then [] else [c]
      | r' => c :: r'
      end
  end.

(** [q.strip()] *)
Definition text_strip (q : pystr) : pystr := text_rstrip (text_lstrip q).

(** A [str] kept in a document or compared with one is held as its UTF-8
    bytes, so that two strings are equal when their bytes are.  [s.strip()]
    on such a string removes whole characters: the bytes are read one
    character at a time, as [utf8] reads them, and a character goes when
    its code point is white space.  Bytes that end in the middle of a
    character, which no [str] has, are kept. *)

Definition code2 (a b : ascii) : N :=
  ((N_of_ascii a - 192) * 64 + (N_of_ascii b - 128))%N.
Definition code3 (a b c : ascii) : N :=
  ((N_of_ascii a - 224) * 4096 + (N_of_ascii b - 128) * 64 + (N_of_ascii c - 128))%N.
Definition code4 (a b c d : ascii) : N :=
  ((N_of_ascii a - 240) * 262144 + (N_of_ascii b - 128) * 4096
   + (N_of_ascii c - 128) * 64 + (N_of_ascii d - 128))%N.

Fixpoint lstrip (s : string) : string :=
  match s with
  | EmptyString => s
  | String a r =>
      if (N_of_ascii a <? 128)%N then
        if isspace_cp (N_of_ascii a) then lstrip r else s
      else
        match r with
        | EmptyString => s
        | String b r1 =>
            if (N_of_ascii a <? 224)%N then
              if isspace_cp (code2 a b) then lstrip r1 else s
            else
              match r1 with
              | EmptyString => s
              | String c r2 =>
                  if (N_of_ascii a <? 240)%N then
                    if isspace_cp (code3 a b c) then lstrip r2 else s
                  else
                    match r2 with
                    | EmptyString => s
                    | String d r3 =>
                        if isspace_cp (code4 a b c d) then lstrip r3 else s
                    end
              end
        end
  end.

(** The character with bytes [c] and what [rstrip] left of the rest. *)
Definition rstrip_char (space : bool) (c rest : string) : string :=
  match rest with
  | EmptyString => if space then EmptyString else c
  | _ => String.append c rest
  end.

Fixpoint rstrip (s : string) : string :=
  match s with
  | EmptyString => s
  | String a r =>
      if (N_of_ascii a <? 128)%N then
        rstrip_char (isspace_cp (N_of_ascii a)) (String a EmptyString) (rstrip r)
      else
        match r with
        | EmptyString => s
        | String b r1 =>
            if (N_of_ascii a <? 224)%N then
              rstrip_char (isspace_cp (code2 a b))
                (String a (String b EmptyString)) (rstrip r1)
            else
              match r1 with
              | EmptyString => s
              | String c r2 =>
                  if (N_of_ascii a <? 240)%N then
                    rstrip_char (isspace_cp (code3 a b c))
                      (String a (String b (String c EmptyString))) (rstrip r2)
                  else
                    match r2 with
                    | EmptyString => s
                    | String d r3 =>
                        rstrip_char (isspace_cp (code4 a b c d))
                          (String a (String b (String c (String d EmptyString))))
                          (rstrip r3)
                    end
              end
        end
  end.

Definition strip (s : string) : string := rstrip (lstrip s).

(** The first character of [s]: its code point, its bytes and the rest of
    [s]; [None] when [s] is empty or ends inside the character. *)
Definition uncons (s : string) : option (N * string * string) :=
  match s with
  | EmptyString => None
  | String a r =>
      if (N_of_ascii a <? 128)%N then Some (N_of_ascii a, String a EmptyString, r)
      else
        match r with
        | EmptyString => None
        | String b r1 =>
            if (N_of_ascii a <? 224)%N then
              Some (code2 a b, String a (String b EmptyString), r1)
            else
              match r1 with
              | EmptyString => None
              | String c r2 =>
                  if (N_of_ascii a <? 240)%N then
                    Some (code3 a b c, String a (String b (String c EmptyString)), r2)
                  else
                    match r2 with
                    | EmptyString => None
                    | String d r3 =>
                        Some (code4 a b c d,
                              String a (String b (String c (String d EmptyString))), r3)
                    end
              end
        end
  end.

(** Every character of [s] has all its bytes. *)
Fixpoint whole (s : string) : bool :=
  match s with
  | EmptyString => true
  | String a r =>
      if (N_of_ascii a <? 128)%N then whole r
      else
        match r with
        | EmptyString => false
        | String b r1 =>
            if (N_of_ascii a <? 224)%N then whole r1
            else
              match r1 with
              | EmptyString => false
              | String c r2 =>
                  if (N_of_ascii a <? 240)%N then whole r2
                  else
                    match r2 with
                    | EmptyString => false
                    | String d r3 => whole r3
                    end
              end
        end
  end.

(** ** The handlers of [main.py] *)

Section Handlers.

(** The environment of the process: the configured teacher code, the
    textual form of dates, the successive readings of the clock and the
    successive identifiers the driver generates. *)
Variable TEACHER_CODE_env : option string.
Variable isoformat : datetime → string.
Variable utcnow : nat → datetime.
Variable new_ObjectId : nat → ObjectId.

(** [os.getenv("TEACHER_CODE", "9999")] *)
Definition TEACHER_CODE : string := default "9999" TEACHER_CODE_env.

(** [datetime.now(timezone.utc)] *)
Definition now : M datetime := λ w,
  (Ok (utcnow (ticks w)), MkWorld (store w) (log w) (S (ticks w)) (draws w)).

(** [ObjectId()] *)
Definition generate : M ObjectId := λ w,
  (Ok (new_ObjectId (draws w)), MkWorld (store w) (log w) (ticks w) (S (draws w))).

(** [db[c].insert_one(d).inserted_id]: the driver generates the identifier;
    the store refuses an identifier the collection already has. *)
Definition insert_one (c : string) (d : dict) : M ObjectId :=
  o ← generate;
  send (InsertOne c d) ;;
  l ← read c;
  if existsb (λ x, bool_decide (_id x = o)) l
  then raise (Uncaught "DuplicateKeyError")
  else write c (l ++ [Document o d]) ;; mret o.

(** [ObjectId(x)]: a [str] is parsed, an [ObjectId] copied, [None] asks
    for a new identifier, any other type is a [TypeError]. *)
Definition ObjectId_of (x : value) : M ObjectId :=
  match x with
  | VStr s =>
      match parse_ObjectId s with
      | Some o => mret o
      | None => raise (Uncaught "InvalidId")
      end
  | VOid o => mret o
  | VNull => generate
  | _ => raise (Uncaught "TypeError")
  end.

(** [oid]: every exception of [ObjectId(id_str)] becomes the 400 error. *)
Definition oid (id_str : value) : M ObjectId := λ w,
  match ObjectId_of id_str w with
  | (Ok o, w') => (Ok o, w')
  | (Raise _, w') => (Raise InvalidIdentifier, w')
  end.

(** [serialize]: [None] is returned as it is; ["_id"] is renamed to ["id"]
    in string form and every date replaced by its ISO text. *)
Definition iso (v : value) : value :=
  match v with VDate t => VStr (isoformat t) | _ => v end.

Definition serialize (doc : option document) : option dict :=
  match doc with
  | None => None
  | Some d =>
      Some (iso <$> <["id" := VStr (str_ObjectId (_id d))]> (delete "_id" (body d)))
  end.

(** Modelled from the spec: [create_document] of [database.py], which is
    not among the sources.  The adapter's insert stamps [created_at] with
    the current UTC time and returns the generated identifier, which the
    callers parse back with [ObjectId(...)] to fetch the stored document. *)
Definition create_document (collection_name : string) (data : dict) : M string :=
  t ← now;
  inserted_id ← insert_one collection_name (<["created_at" := VDate t]> data);
  mret (str_ObjectId inserted_id).

(** [doc[k]] on the result of [find_one]. *)
Definition subscript (doc : option document) (k : string) : M value :=
  match doc with
  | None => raise (Uncaught "TypeError")
  | Some d =>
      match field k d with
      | Some v => mret v
      | None => raise (Uncaught "KeyError")
      end
  end.

(** *** Auth *)

Record LoginResponse : Type := MkLoginResponse {
  role : Role; login_student : option dict }.

Definition login (req_code : string) : M LoginResponse :=
  let code := strip req_code in
  if decide (code = TEACHER_CODE) then mret (MkLoginResponse teacher None)
  else
    found ← find_one "student" [("code", Is (VStr code))];
    match found with
    | Some _ => mret (MkLoginResponse student (serialize found))
    | None => raise (NotFound "لم يتم العثور على المستخدم")
    end.

(** *** Students *)

Definition list_students : M (list (option dict)) :=
  students ← find "student" [];
  mret (map (λ s, serialize (Some s)) (sort [("created_at", false)] students)).

Definition add_student (st : StudentSchema.t) : M (option dict) :=
  dup ← find_one "student" [("code", Is (VStr (StudentSchema.code st)))];
  match dup with
  | Some _ => raise DuplicateCode
  | None =>
      inserted_id ← create_document "student" (StudentSchema.model_dump st);
      i ← ObjectId_of (VStr inserted_id);
      saved ← find_one "student" [("_id", Is (VOid i))];
      mret (serialize saved)
  end.

Definition update_student (student_id : string) (data : StudentSchema.t)
    : M (option dict) :=
  i ← oid (VStr student_id);
  dup ← find_one "student"
          [("code", Is (VStr (StudentSchema.code data))); ("_id", Ne (VOid i))];
  match dup with
  | Some _ => raise DuplicateCode
  | None =>
      i ← oid (VStr student_id);
      t ← now;
      matched_count ← update_one "student" [("_id", Is (VOid i))]
                        (<["updated_at" := VDate t]> (StudentSchema.model_dump data));
      if decide (matched_count = 0) then raise (NotFound "الطالب غير موجود")
      else
        i ← oid (VStr student_id);
        saved ← find_one "student" [("_id", Is (VOid i))];
        mret (serialize saved)
  end.

Definition ok : dict := {["ok" := VBool true]}.

Definition delete_student (student_id : string) : M dict :=
  i ← oid (VStr student_id);
  delete_many "lesson" [("student_id", Is (VStr student_id))] ;;
  hws ← find_ids "homework" [("student_id", Is (VStr student_id))];
  for_each hws (λ hw,
    delete_many "submission" [("homework_id", Is (VStr (str_ObjectId (_id hw))))] ;;
    mret ()) ;;
  delete_many "homework" [("student_id", Is (VStr student_id))] ;;
  delete_many "message" [("student_id", Is (VStr student_id))] ;;
  deleted_count ← delete_one "student" [("_id", Is (VOid i))];
  if decide (deleted_count = 0) then raise (NotFound "الطالب غير موجود")
  else mret ok.

(** *** Lessons *)

(** [if s:] on an optional string: [None] and [""] are false. *)
Definition truthy (s : option string) : option string :=
  match s with
  | Some EmptyString | None => None
  | Some x => Some x
  end.

(** [{k: s} if s else {}] *)
Definition by_key (k : string) (s : option string) : query :=
  match truthy s with
  | Some x => [(k, Is (VStr x))]
  | None => []
  end.

Definition list_lessons (student_id : option string) : M (list (option dict)) :=
  lessons ← find "lesson" (by_key "student_id" student_id);
  mret (map (λ l, serialize (Some l)) (sort [("date", true); ("start_time", true)] lessons)).

Definition add_lesson (lesson : LessonSchema.t) : M (option dict) :=
  inserted_id ← create_document "lesson" (LessonSchema.model_dump lesson);
  i ← ObjectId_of (VStr inserted_id);
  saved ← find_one "lesson" [("_id", Is (VOid i))];
  mret (serialize saved).

Definition update_lesson (lesson_id : string) (data : LessonSchema.t)
    : M (option dict) :=
  i ← oid (VStr lesson_id);
  t ← now;
  matched_count ← update_one "lesson" [("_id", Is (VOid i))]
                    (<["updated_at" := VDate t]> (LessonSchema.model_dump data));
  if decide (matched_count = 0) then raise (NotFound "الدرس غير موجود")
  else
    i ← oid (VStr lesson_id);
    saved ← find_one "lesson" [("_id", Is (VOid i))];
    mret (serialize saved).

Definition delete_lesson (lesson_id : string) : M dict :=
  i ← oid (VStr lesson_id);
  deleted_count ← delete_one "lesson" [("_id", Is (VOid i))];
  if decide (deleted_count = 0) then raise (NotFound "الدرس غير موجود")
  else mret ok.

(** *** Homework *)

Definition list_homework (student_id : option string) : M (list (option dict)) :=
  items ← find "homework" (by_key "student_id" student_id);
  mret (map (λ x, serialize (Some x)) (sort [("due_date", true)] items)).

Definition add_homework (hw : HomeworkSchema.t) : M (option dict) :=
  inserted_id ← create_document "homework" (HomeworkSchema.model_dump hw);
  i ← ObjectId_of (VStr inserted_id);
  saved ← find_one "homework" [("_id", Is (VOid i))];
  mret (serialize saved).

Definition update_homework (hw_id : string) (data : HomeworkSchema.t)
    : M (option dict) :=
  i ← oid (VStr hw_id);
  t ← now;
  matched_count ← update_one "homework" [("_id", Is (VOid i))]
                    (<["updated_at" := VDate t]> (HomeworkSchema.model_dump data));
  if decide (matched_count = 0) then raise (NotFound "الواجب غير موجود")
  else
    i ← oid (VStr hw_id);
    saved ← find_one "homework" [("_id", Is (VOid i))];
    mret (serialize saved).

Definition delete_homework (hw_id : string) : M dict :=
  delete_many "submission" [("homework_id", Is (VStr hw_id))] ;;
  i ← oid (VStr hw_id);
  deleted_count ← delete_one "homework" [("_id", Is (VOid i))];
  if decide (deleted_count = 0) then raise (NotFound "الواجب غير موجود")
  else mret ok.

(** *** Submissions *)

Definition list_submissions (student_id homework_id : option string)
    : M (list (option dict)) :=
  items ← find "submission"
            (by_key "student_id" student_id ++ by_key "homework_id" homework_id);
  mret (map (λ x, serialize (Some x)) (sort [("created_at", false)] items)).

Definition submit_homework (hw_id student_id : string) (file_url : option string)
    : M (option dict) :=
  i ← oid (VStr hw_id);
  hw ← find_one "homework" [("_id", Is (VOid i))];
  match hw with
  | None => raise (NotFound "الواجب غير موجود")
  | Some _ =>
      t ← now;
      let data := SubmissionSchema.Make hw_id student_id file_url
                    (Some (isoformat t)) SubmissionSchema.submitted None None in
      inserted_id ← create_document "submission" (SubmissionSchema.model_dump data);
      i ← oid (VStr hw_id);
      t' ← now;
      update_one "homework" [("_id", Is (VOid i))]
        (<["status" := VStr "submitted"]> (<["updated_at" := VDate t']> ∅)) ;;
      j ← ObjectId_of (VStr inserted_id);
      saved ← find_one "submission" [("_id", Is (VOid j))];
      mret (serialize saved)
  end.

Definition grade_submission (sub_id : string) (grade : float)
    (feedback : option string) : M (option dict) :=
  i ← oid (VStr sub_id);
  t ← now;
  matched_count ← update_one "submission" [("_id", Is (VOid i))]
                    (<["grade" := VFloat grade]> (<["feedback" := opt_str feedback]>
                    (<["status" := VStr "graded"]> (<["updated_at" := VDate t]> ∅))));
  if decide (matched_count = 0) then raise (NotFound "التسليم غير موجود")
  else
    i ← oid (VStr sub_id);
    sub ← find_one "submission" [("_id", Is (VOid i))];
    ref ← subscript sub "homework_id";
    h ← oid ref;
    t' ← now;
    update_one "homework" [("_id", Is (VOid h))]
      (<["status" := VStr "graded"]> (<["updated_at" := VDate t']> ∅)) ;;
    mret (serialize sub).

(** *** Messages *)

Definition list_messages (student_id : string) : M (list (option dict)) :=
  msgs ← find "message" [("student_id", Is (VStr student_id))];
  mret (map (λ m, serialize (Some m)) (sort [("created_at", true)] msgs)).

Definition send_message (student_id : string) (sender : Role) (text : string)
    : M (option dict) :=
  inserted_id ← create_document "message"
                  (MessageSchema.model_dump (MessageSchema.Make student_id sender text false));
  i ← ObjectId_of (VStr inserted_id);
  saved ← find_one "message" [("_id", Is (VOid i))];
  mret (serialize saved).

Definition mark_read (msg_id : string) : M dict :=
  i ← oid (VStr msg_id);
  t ← now;
  matched_count ← update_one "message" [("_id", Is (VOid i))]
                    (<["read" := VBool true]> (<["updated_at" := VDate t]> ∅));
  if decide (matched_count = 0) then raise (NotFound "الرسالة غير موجودة")
  else mret ok.


(** ** The rule-based chat helper *)

Fixpoint starts_with (k q : pystr) : bool :=
  match k, q with
  | [], _ => true
  | _ :: _, [] => false
  | a :: k', b :: q' => (a =? b)%N && starts_with k' q'
  end.

(** [k in q] *)
Fixpoint contains (k q : pystr) : bool :=
  starts_with k q || match q with [] => false | _ :: r => contains k r end.

Record AIResponse : Type := MkAIResponse { reply : pystr; tip : pystr }.

Definition tips : list pystr :=
  [utf8 "تذكّر أن تقرأ السؤال بهدوء وتحدد المطلوب أولاً.";
   utf8 "حاول أن تكتب خطوات الحل واحدة تلو الأخرى.";
   utf8 "أحسنت! يمكنك المحاولة مرة أخرى إذا أخطأت، التعلم ممتع."].

Definition math_words : list pystr := map utf8 ["جمع"; "طرح"; "ضرب"; "قسمة"; "حساب"].
Definition reading_words : list pystr := map utf8 ["قراءة"; "إملاء"; "قصة"; "نص"].
Definition science_words : list pystr := map utf8 ["علوم"; "نبات"; "حيوان"; "جسم"].

Definition math_answer : pystr :=
  utf8 "في الرياضيات: استخدم أمثلة بسيطة، وجرب الحل على أعداد صغيرة أولاً.".
Definition reading_answer : pystr :=
  utf8 "للفهم: اقرأ الجملة ببطء، وابحث عن الكلمات المفتاحية، ثم أجب بجملة كاملة.".
Definition science_answer : pystr :=
  utf8 "في العلوم: فكّر ماذا يحدث أولاً ثم ماذا يحدث بعد ذلك. استخدم صورًا أو رسوماً تساعدك.".
Definition default_answer : pystr :=
  utf8 "أنا هنا لمساعدتك! أخبرني بالمطلوب وسأعطيك تلميحًا بسيطًا.".
Definition reply_prefix : pystr := utf8 "مساعدة ماما عيدة: ".

(** [ai_chat], given the question and the seconds of the local clock. *)
Definition ai_chat (question : pystr) (second : nat) : res AIResponse :=
  let q := text_strip question in
  let answer :=
    if existsb (λ k, contains k q) math_words then math_answer
    else if existsb (λ k, contains k q) reading_words then reading_answer
    else if existsb (λ k, contains k q) science_words then science_answer
    else default_answer in
  match tips !! (second mod length tips) with
  | Some t => Ok (MkAIResponse (reply_prefix ++ answer) t)
  | None => Raise (Uncaught "IndexError")
  end.

(** ** Vocabulary of the statements *)

(** The documents of collection [c] in world [w]. *)
Definition docs (c : string) (w : World) : list document := coll c (store w).

(** [d[k] == s] for a string [s]: the way a document refers to a student
    or to a homework, and the way a student holds a code. *)
Definition refers (k s : string) (d : document) : Prop := field k d = Some (VStr s).

(** Some document of the list has identifier [o]. *)
Definition has_id (o : ObjectId) (l : list document) : Prop :=
  ∃ d, d ∈ l ∧ _id d = o.

(** The commands a handler sent: what it appended to the log. *)
Definition sent (w w' : World) (cmds : list access) : Prop := log w' = log w ++ cmds.

(** No two student documents hold the same code. *)
Definition unique_codes (l : list document) : Prop := NoDup (field "code" <$> l).

(** No two documents have the same identifier. *)
Definition unique_ids (l : list document) : Prop := NoDup (_id <$> l).

(** Every submission names its homework by a string that parses as an
    identifier. *)
Definition submissions_wf (l : list document) : Prop :=
  ∀ d, d ∈ l → ∃ h, refers "homework_id" h d ∧ is_Some (parse_ObjectId h).

(** The student documents have distinct codes and distinct identifiers. *)
Definition students_ok (l : list document) : Prop := unique_codes l ∧ unique_ids l.

(** What the handlers maintain on the store. *)
Definition store_inv (w : World) : Prop :=
  submissions_wf (docs "submission" w) ∧ students_ok (docs "student" w).

(** The handler does not write to the store. *)
Definition keeps_store {A} (m : M A) : Prop := ∀ w, store (m w).2 = store w.

(** The handler leaves in collection [c] only documents that were there. *)
Definition shrinks {A} (c : string) (m : M A) : Prop :=
  ∀ w, docs c (m w).2 `sublist_of` docs c w.

(** Started on a collection [c] that satisfies [P], the handler leaves one
    that satisfies [Q], whether it returns or raises. *)
Definition triple {A} (c : string) (P Q : list document → Prop) (m : M A) : Prop :=
  ∀ w, P (docs c w) → Q (docs c (m w).2).

(** The requests of the API, the world each leaves, and the worlds the
    server can be in, starting with an empty database. *)
Inductive request : Type :=
| Login (code : string)
| ListStudents
| AddStudent (st : StudentSchema.t)
| UpdateStudent (student_id : string) (data : StudentSchema.t)
| DeleteStudent (student_id : string)
| ListLessons (student_id : option string)
| AddLesson (lesson : LessonSchema.t)
| UpdateLesson (lesson_id : string) (data : LessonSchema.t)
| DeleteLesson (lesson_id : string)
| ListHomework (student_id : option string)
| AddHomework (hw : HomeworkSchema.t)
| UpdateHomework (hw_id : string) (data : HomeworkSchema.t)
| DeleteHomework (hw_id : string)
| ListSubmissions (student_id homework_id : option string)
| SubmitHomework (hw_id student_id : string) (file_url : option string)
| GradeSubmission (sub_id : string) (grade : float) (feedback : option string)
| ListMessages (student_id : string)
| SendMessage (student_id : string) (sender : Role) (text : string)
| MarkRead (msg_id : string).

Definition serve (r : request) (w : World) : World :=
  match r with
  | Login code => (login code w).2
  | ListStudents => (list_students w).2
  | AddStudent st => (add_student st w).2
  | UpdateStudent i data => (update_student i data w).2
  | DeleteStudent i => (delete_student i w).2
  | ListLessons s => (list_lessons s w).2
  | AddLesson l => (add_lesson l w).2
  | UpdateLesson i data => (update_lesson i data w).2
  | DeleteLesson i => (delete_lesson i w).2
  | ListHomework s => (list_homework s w).2
  | AddHomework h => (add_homework h w).2
  | UpdateHomework i data => (update_homework i data w).2
  | DeleteHomework i => (delete_homework i w).2
  | ListSubmissions s h => (list_submissions s h w).2
  | SubmitHomework h s url => (submit_homework h s url w).2
  | GradeSubmission i g fb => (grade_submission i g fb w).2
  | ListMessages s => (list_messages s w).2
  | SendMessage s sender text => (send_message s sender text w).2
  | MarkRead i => (mark_read i w).2
  end.

(** The requests whose handlers insert or update students, and submissions. *)
Definition writes_students (r : request) : bool :=
  match r with AddStudent _ | UpdateStudent _ _ => true | _ => false end.
Definition writes_submissions (r : request) : bool :=
  match r with SubmitHomework _ _ _ | GradeSubmission _ _ _ => true | _ => false end.

Inductive reachable : World → Prop :=
| reachable_start : reachable (MkWorld ∅ [] 0 0)
| reachable_serve (r : request) (w : World) :
    reachable w → reachable (serve r w).

(** The world after a sequence of requests. *)
Definition serve_all (rs : list request) (w : World) : World :=
  fold_left (λ w r, serve r w) rs w.

(** The submission names none of the homeworks with the listed identifiers. *)
Definition names_none_of (ids : list ObjectId) (s : document) : bool :=
  forallb (λ i, keeps [("homework_id", Is (VStr (str_ObjectId i)))] s) ids.

(** The document [submit_homework] stores: the dump of the submission it
    builds, stamped by [create_document]. *)
Definition submission_of (n : ObjectId) (hw_id student_id : string)
    (file_url : option string) (submitted_at : string) (created_at : datetime)
    : document :=
  Document n (<["created_at" := VDate created_at]>
    (SubmissionSchema.model_dump
       (SubmissionSchema.Make hw_id student_id file_url (Some submitted_at)
          SubmissionSchema.submitted None None))).

(** The collection a command is sent to. *)
Definition collection_of (a : access) : string :=
  match a with
  | FindOne c _ | Find c _ | InsertOne c _ | UpdateOne c _ _
  | DeleteOne c _ | DeleteMany c _ => c
  end.

(** The worlds a command leaves. *)
Definition logged (a : access) (w : World) : World :=
  MkWorld (store w) (log w ++ [a]) (ticks w) (draws w).
Definition written (c : string) (l : list document) (w : World) : World :=
  MkWorld (<[c := l]> (store w)) (log w) (ticks w) (draws w).
Definition ticked (w : World) : World :=
  MkWorld (store w) (log w) (S (ticks w)) (draws w).
Definition drawn (w : World) : World :=
  MkWorld (store w) (log w) (ticks w) (S (draws w)).


(** What an optional filter of the list handlers asks of a document: nothing
    when it is absent or empty, otherwise that [d[k]] is the given string. *)
Definition wanted (k : string) (o : option string) (d : document) : Prop :=
  match o with
  | None => True
  | Some s => s = "" ∨ refers k s d
  end.

(** ** A sample environment and store *)

Definition sample_oid (b : Byte.byte) : ObjectId := repeat Byte.x00 11 ++ [b].

Definition sample_isoformat (t : datetime) : string := "2024-05-01T10:00:00+00:00".
Definition sample_clock (k : nat) : datetime := N.of_nat k.
Definition sample_ids (k : nat) : ObjectId :=
  repeat Byte.xff 11 ++ [default Byte.x00 (Byte.of_N (N.of_nat k))].

(** Two students, and for each a lesson, a homework, a submission of that
    homework and a message. *)
Definition ali_id : string := "000000000000000000000001".
Definition sara_id : string := "000000000000000000000002".
Definition hw_ali_id : string := "000000000000000000000021".
Definition hw_sara_id : string := "000000000000000000000022".
Definition sub_ali_id : string := "000000000000000000000031".

Definition stamped (t : datetime) (d : dict) : dict := <["created_at" := VDate t]> d.

Definition ali : document :=
  Document (sample_oid Byte.x01)
    (stamped 1%N (StudentSchema.model_dump
       (StudentSchema.Make "Ali" boy StudentSchema.g1 "1234" boy))).
Definition sara : document :=
  Document (sample_oid Byte.x02)
    (stamped 2%N (StudentSchema.model_dump
       (StudentSchema.Make "Sara" girl StudentSchema.g2 "5678" girl))).
Definition lesson_ali : document :=
  Document (sample_oid Byte.x11)
    (stamped 3%N (LessonSchema.model_dump
       (LessonSchema.Make ali_id "2024-05-01" "10:00" "reading" None
          LessonSchema.scheduled))).
Definition lesson_sara : document :=
  Document (sample_oid Byte.x12)
    (stamped 4%N (LessonSchema.model_dump
       (LessonSchema.Make sara_id "2024-05-02" "11:00" "sums" None
          LessonSchema.scheduled))).
Definition hw_ali : document :=
  Document (sample_oid Byte.x21)
    (stamped 5%N (HomeworkSchema.model_dump
       (HomeworkSchema.Make ali_id None "page 4" None None None
          HomeworkSchema.submitted))).
Definition hw_sara : document :=
  Document (sample_oid Byte.x22)
    (stamped 6%N (HomeworkSchema.model_dump
       (HomeworkSchema.Make sara_id None "page 5" None None None
          HomeworkSchema.submitted))).
Definition sub_ali : document :=
  submission_of (sample_oid Byte.x31) hw_ali_id ali_id None "2024-05-01T12:00:00+00:00" 7%N.
Definition sub_sara : document :=
  submission_of (sample_oid Byte.x32) hw_sara_id sara_id None "2024-05-02T12:00:00+00:00" 8%N.
Definition msg_ali : document :=
  Document (sample_oid Byte.x41)
    (stamped 9%N (MessageSchema.model_dump
       (MessageSchema.Make ali_id teacher "well done" false))).

Definition sample_store : gmap string (list document) :=
  <["student" := [ali; sara]]> (<["lesson" := [lesson_ali; lesson_sara]]>
  (<["homework" := [hw_ali; hw_sara]]> (<["submission" := [sub_ali; sub_sara]]>
  (<["message" := [msg_ali]]> ∅)))).

Definition sample_world : World := MkWorld sample_store [] 0 0.

(** Inputs for the sample store. *)
Definition omar (code : string) : StudentSchema.t :=
  StudentSchema.Make "Omar" boy StudentSchema.g3 code boy.
Definition absent_id : string := "000000000000000000000009".

(** Requests to an empty database, whose identifiers [sample_ids] draws in
    order from [first_id]; [FIRST_ID] is another spelling of [first_id]. *)
Definition empty_world : World := MkWorld ∅ [] 0 0.
Definition first_id : string := "ffffffffffffffffffffff00".
Definition school_requests : list request :=
  [AddStudent (StudentSchema.Make "Omar" boy StudentSchema.g3 "1" boy);
   AddStudent (StudentSchema.Make "Huda" girl StudentSchema.g2 "2" girl);
   AddStudent (StudentSchema.Make "Noor" girl StudentSchema.g1 "1" girl);
   AddHomework (HomeworkSchema.Make first_id None "page 7" None None None
                  HomeworkSchema.pending);
   SubmitHomework "ffffffffffffffffffffff02" first_id None;
   SubmitHomework "FFFFFFFFFFFFFFFFFFFFFF02" first_id (Some "https://files.example/b.pdf");
   UpdateStudent "ffffffffffffffffffffff01"
     (StudentSchema.Make "Huda" girl StudentSchema.g3 "1" girl)].
Definition lesson_ali_id : string := "000000000000000000000011".
Definition msg_ali_id : string := "000000000000000000000041".
Definition lesson_input : LessonSchema.t :=
  LessonSchema.Make "nobody" "2024-05-04" "10:00" "sums" None LessonSchema.completed.
Definition homework_input : HomeworkSchema.t :=
  HomeworkSchema.Make "nobody" (Some "no lesson") "page 6" None None None
    HomeworkSchema.graded.
Definition sample_store_without (c : string) (d : document) : World :=
  MkWorld (<[c := List.filter (λ x, negb (bool_decide (_id x = _id d))) (coll c sample_store)]>
             sample_store) [] 0 0.

(** A student whose identifier has a letter among its digits, and a lesson
    that refers to her by the string form of the identifier. *)
Definition lina : document :=
  Document (sample_oid Byte.x0a)
    (stamped 10%N (StudentSchema.model_dump
       (StudentSchema.Make "Lina" girl StudentSchema.g1 "2468" girl))).
Definition lesson_lina : document :=
  Document (sample_oid Byte.x13)
    (stamped 11%N (LessonSchema.model_dump
       (LessonSchema.Make "00000000000000000000000a" "2024-05-03" "09:00" "plants" None
          LessonSchema.scheduled))).
Definition lina_world : World :=
  MkWorld (<["student" := [lina]]> (<["lesson" := [lesson_lina]]> ∅)) [] 0 0.

(** Boolean forms of the hypotheses, to decide them on a given store. *)
Definition has_id_b (o : ObjectId) (l : list document) : bool :=
  existsb (λ x, bool_decide (_id x = o)) l.

Definition submission_wf_b (d : document) : bool :=
  match field "homework_id" d with
  | Some (VStr h) => match parse_ObjectId h with Some _ => true | None => false end
  | _ => false
  end.

(** ** The identifier codec *)

Lemma byte_hex_roundtrip (x : Byte.byte) :
  hex_space (hex_digit (Byte.to_N x / 16)) = false ∧
  hex_value (hex_digit (Byte.to_N x / 16)) = Some (Byte.to_N x / 16)%N ∧
  hex_value (hex_digit (Byte.to_N x mod 16)) = Some (Byte.to_N x mod 16)%N ∧
  Byte.of_N (16 * (Byte.to_N x / 16) + Byte.to_N x mod 16) = Some x.
Proof. destruct x; vm_compute; auto. Qed.

Lemma fromhex_hexlify (bs : list Byte.byte) : fromhex (hexlify bs) = Some bs.
Proof.
  induction bs as [|x r IH]; [reflexivity|].
  destruct (byte_hex_roundtrip x) as (Hs & Hh & Hl & Hb).
  cbn [hexlify fromhex]. rewrite Hs, Hh, Hl, IH, Hb. reflexivity.
Qed.

Lemma length_hexlify (bs : list Byte.byte) :
  String.length (hexlify bs) = 2 * length bs.
Proof. induction bs as [|x r IH]; cbn [hexlify String.length length]; lia. Qed.

(** Parsing the string form of a twelve-byte identifier gives it back. *)
Lemma parse_str_ObjectId (o : ObjectId) :
  length o = 12 → parse_ObjectId (str_ObjectId o) = Some o.
Proof.
  intros H. unfold parse_ObjectId, str_ObjectId.
  rewrite length_hexlify, H. simpl. apply fromhex_hexlify.
Qed.


Lemma oid_valid (s : string) (o : ObjectId) (w : World) :
  parse_ObjectId s = Some o → oid (VStr s) w = (Ok o, w).
Proof. intros H. unfold oid, ObjectId_of. rewrite H. reflexivity. Qed.

Lemma oid_invalid (s : string) (w : World) :
  parse_ObjectId s = None → oid (VStr s) w = (Raise InvalidIdentifier, w).
Proof. intros H. unfold oid, ObjectId_of. rewrite H. reflexivity. Qed.

(** ** Matching *)

Lemma value_eqb_str (v : value) (s : string) :
  value_eqb v (VStr s) = true ↔ v = VStr s.
Proof.
  destruct v; simpl; try (split; [discriminate | discriminate]).
  rewrite bool_decide_eq_true. split; congruence.
Qed.

Lemma matches_refers (k s : string) (d : document) :
  matches [(k, Is (VStr s))] d = true ↔ refers k s d.
Proof.
  unfold matches, refers, holds, field_is. simpl. rewrite andb_true_r.
  destruct (field k d) as [v|]; simpl.
  - rewrite value_eqb_str. split; congruence.
  - split; discriminate.
Qed.

Lemma matches_id (o : ObjectId) (d : document) :
  matches [("_id", Is (VOid o))] d = true ↔ _id d = o.
Proof.
  unfold matches, holds, field_is, field. simpl. rewrite andb_true_r.
  apply bool_decide_eq_true.
Qed.

Lemma keeps_refers (k s : string) (d : document) :
  keeps [(k, Is (VStr s))] d = true ↔ ¬ refers k s d.
Proof.
  unfold keeps. rewrite negb_true_iff, <- not_true_iff_false, matches_refers. done.
Qed.

Lemma find_is_Some (p : document → bool) (l : list document) :
  (∃ d, d ∈ l ∧ p d = true) → ∃ d, List.find p l = Some d ∧ d ∈ l ∧ p d = true.
Proof.
  intros (d & Hin & Hp). destruct (List.find p l) as [e|] eqn:E.
  - exists e. apply find_some in E as [HI He]. by rewrite list_elem_of_In.
  - apply list_elem_of_In in Hin. pose proof (find_none _ _ E _ Hin). congruence.
Qed.

Lemma find_is_None (p : document → bool) (l : list document) :
  (∀ d, d ∈ l → p d = false) → List.find p l = None.
Proof.
  intros H. destruct (List.find p l) as [e|] eqn:E; [|done].
  apply find_some in E as [HI He]. apply list_elem_of_In in HI.
  rewrite (H _ HI) in He. discriminate.
Qed.

Lemma find_by_id_Some (o : ObjectId) (l : list document) :
  has_id o l →
  ∃ d, List.find (matches [("_id", Is (VOid o))]) l = Some d ∧ d ∈ l ∧ _id d = o.
Proof.
  intros (d & Hin & Hd).
  destruct (find_is_Some (matches [("_id", Is (VOid o))]) l) as (e & E & Hin' & He).
  - exists d. by rewrite matches_id.
  - exists e. by rewrite <- matches_id.
Qed.

Lemma find_by_id_None (o : ObjectId) (l : list document) :
  ¬ has_id o l → List.find (matches [("_id", Is (VOid o))]) l = None.
Proof.
  intros H. apply find_is_None. intros d Hin.
  apply not_true_is_false. rewrite matches_id. intros E. apply H. by exists d.
Qed.

(** ** The collections of a store *)

Lemma coll_insert_eq (c : string) (l : list document) (st : gmap string (list document)) :
  coll c (<[c := l]> st) = l.
Proof. unfold coll. by rewrite lookup_insert_eq. Qed.

Lemma coll_insert_ne (c c' : string) (l : list document) (st : gmap string (list document)) :
  c ≠ c' → coll c' (<[c := l]> st) = coll c' st.
Proof. intros H. unfold coll. by rewrite lookup_insert_ne. Qed.

(** ** Running the driver's methods *)

Lemma docs_logged c a w : docs c (logged a w) = docs c w.
Proof. reflexivity. Qed.
Lemma docs_ticked c w : docs c (ticked w) = docs c w.
Proof. reflexivity. Qed.
Lemma docs_drawn c w : docs c (drawn w) = docs c w.
Proof. reflexivity. Qed.
Lemma docs_written_eq c l w : docs c (written c l w) = l.
Proof. apply coll_insert_eq. Qed.
Lemma docs_written_ne c c' l w : c ≠ c' → docs c' (written c l w) = docs c' w.
Proof. apply coll_insert_ne. Qed.
Lemma log_logged a w : log (logged a w) = log w ++ [a].
Proof. reflexivity. Qed.
Lemma log_written c l w : log (written c l w) = log w.
Proof. reflexivity. Qed.
Lemma log_ticked w : log (ticked w) = log w.
Proof. reflexivity. Qed.
Lemma log_drawn w : log (drawn w) = log w.
Proof. reflexivity. Qed.
Lemma ticks_logged a w : ticks (logged a w) = ticks w.
Proof. reflexivity. Qed.
Lemma ticks_written c l w : ticks (written c l w) = ticks w.
Proof. reflexivity. Qed.
Lemma ticks_ticked w : ticks (ticked w) = S (ticks w).
Proof. reflexivity. Qed.
Lemma ticks_drawn w : ticks (drawn w) = ticks w.
Proof. reflexivity. Qed.
Lemma draws_logged a w : draws (logged a w) = draws w.
Proof. reflexivity. Qed.
Lemma draws_written c l w : draws (written c l w) = draws w.
Proof. reflexivity. Qed.
Lemma draws_ticked w : draws (ticked w) = draws w.
Proof. reflexivity. Qed.
Lemma draws_drawn w : draws (drawn w) = S (draws w).
Proof. reflexivity. Qed.

Create Rewrite HintDb world.
#[local] Hint Rewrite docs_logged docs_ticked docs_drawn docs_written_eq
  log_logged log_written log_ticked log_drawn
  ticks_logged ticks_written ticks_ticked ticks_drawn
  draws_logged draws_written draws_ticked draws_drawn : world.
#[local] Hint Rewrite docs_written_ne using done : world.

Lemma bind_ret {A B} (a : A) (k : A → M B) w : (mret a ≫= k) w = k a w.
Proof. reflexivity. Qed.

Lemma bind_raise {A B} (e : error) (k : A → M B) w :
  (raise e ≫= k) w = (Raise e, w).
Proof. reflexivity. Qed.

Lemma bind_assoc {A B C} (m : M A) (k : A → M B) (h : B → M C) w :
  ((m ≫= k) ≫= h) w = (m ≫= λ a, k a ≫= h) w.
Proof. unfold mbind, M_bind. destruct (m w) as [[a|e] w']; reflexivity. Qed.

Lemma bind_oid_valid {B} s o (k : ObjectId → M B) w :
  parse_ObjectId s = Some o → (oid (VStr s) ≫= k) w = k o w.
Proof. intros H. unfold mbind, M_bind. by rewrite (oid_valid _ _ _ H). Qed.

Lemma bind_oid_invalid {B} s (k : ObjectId → M B) w :
  parse_ObjectId s = None → (oid (VStr s) ≫= k) w = (Raise InvalidIdentifier, w).
Proof. intros H. unfold mbind, M_bind. by rewrite (oid_invalid _ _ H). Qed.

Lemma bind_now {B} (k : datetime → M B) w :
  (now ≫= k) w = k (utcnow (ticks w)) (ticked w).
Proof. reflexivity. Qed.

Lemma bind_find_one {B} c q (k : option document → M B) w :
  (find_one c q ≫= k) w = k (List.find (matches q) (docs c w)) (logged (FindOne c q) w).
Proof. reflexivity. Qed.

Lemma bind_find {B} c q (k : list document → M B) w :
  (find c q ≫= k) w = k (List.filter (matches q) (docs c w)) (logged (Find c q) w).
Proof. reflexivity. Qed.

Lemma bind_find_ids {B} c q (k : list document → M B) w :
  (find_ids c q ≫= k) w =
  k (map (λ d, Document (_id d) ∅) (List.filter (matches q) (docs c w)))
    (logged (Find c q) w).
Proof. reflexivity. Qed.

Lemma bind_delete_many {B} c q (k : nat → M B) w :
  (delete_many c q ≫= k) w =
  k (length (docs c w) - length (List.filter (keeps q) (docs c w)))
    (written c (List.filter (keeps q) (docs c w)) (logged (DeleteMany c q) w)).
Proof. reflexivity. Qed.

Lemma bind_ok {A B} (m : M A) (k : A → M B) w a w' :
  m w = (Ok a, w') → (m ≫= k) w = k a w'.
Proof. intros H. unfold mbind, M_bind. by rewrite H. Qed.

Lemma delete_one_found c q d w :
  List.find (matches q) (docs c w) = Some d →
  delete_one c q w =
  (Ok 1, written c (remove_first (matches q) (docs c w)) (logged (DeleteOne c q) w)).
Proof.
  intros H. unfold delete_one, mbind, M_bind, send, read. cbn beta iota.
  change (coll c _) with (docs c w). rewrite H. reflexivity.
Qed.

Lemma delete_one_missing c q w :
  List.find (matches q) (docs c w) = None →
  delete_one c q w = (Ok 0, logged (DeleteOne c q) w).
Proof.
  intros H. unfold delete_one, mbind, M_bind, send, read. cbn beta iota.
  change (coll c _) with (docs c w). rewrite H. reflexivity.
Qed.

Lemma update_one_found c q p d w :
  List.find (matches q) (docs c w) = Some d →
  update_one c q p w =
  (Ok 1, written c (update_first (matches q) (apply_set p) (docs c w))
           (logged (UpdateOne c q p) w)).
Proof.
  intros H. unfold update_one, mbind, M_bind, send, read. cbn beta iota.
  change (coll c _) with (docs c w). rewrite H. reflexivity.
Qed.

Lemma update_one_missing c q p w :
  List.find (matches q) (docs c w) = None →
  update_one c q p w = (Ok 0, logged (UpdateOne c q p) w).
Proof.
  intros H. unfold update_one, mbind, M_bind, send, read. cbn beta iota.
  change (coll c _) with (docs c w). rewrite H. reflexivity.
Qed.

(** ** Auth *)

(** C8, with the comparison the code makes: [login] strips the white space
    around the presented code, then compares the stripped code, exactly and
    case-sensitively, with the teacher code (no store access on a match) and
    otherwise with the codes of the students; no match is a 404. *)
Theorem login_compares_stripped_code (code : string) (w : World) :
  (strip code = TEACHER_CODE →
     login code w = (Ok (MkLoginResponse teacher None), w)) ∧
  (strip code ≠ TEACHER_CODE →
     (∃ d, d ∈ docs "student" w ∧ refers "code" (strip code) d) →
     ∃ d, d ∈ docs "student" w ∧ refers "code" (strip code) d ∧
          (login code w).1 = Ok (MkLoginResponse student (serialize (Some d)))) ∧
  (strip code ≠ TEACHER_CODE →
     (∀ d, d ∈ docs "student" w → ¬ refers "code" (strip code) d) →
     (login code w).1 = Raise (NotFound "لم يتم العثور على المستخدم")).
Proof.
  unfold login. split; [|split].
  - intros E. by rewrite decide_True.
  - intros NE Hex. rewrite decide_False by done.
    destruct (find_is_Some (matches [("code", Is (VStr (strip code)))]) (docs "student" w))
      as (d & E & Hin & Hd).
    { destruct Hex as (d & Hin & Hd). exists d. by rewrite matches_refers. }
    exists d. rewrite matches_refers in Hd. split; [done|]. split; [done|].
    rewrite bind_find_one, E. reflexivity.
  - intros NE Hno. rewrite decide_False by done.
    rewrite bind_find_one, find_is_None; [reflexivity|].
    intros d Hin. apply not_true_is_false. rewrite matches_refers. by apply Hno.
Qed.

(** ** Identifiers are checked before the store is touched, except by
    [delete_homework] *)

(** X20: the handlers that parse their identifier first: a string that is not
    an identifier is refused and the world is left as it was, log included. *)
Lemma invalid_id_short_circuits (s : string) (w : World) :
  parse_ObjectId s = None →
  (∀ data, update_student s data w = (Raise InvalidIdentifier, w)) ∧
  delete_student s w = (Raise InvalidIdentifier, w) ∧
  (∀ data, update_lesson s data w = (Raise InvalidIdentifier, w)) ∧
  delete_lesson s w = (Raise InvalidIdentifier, w) ∧
  (∀ data, update_homework s data w = (Raise InvalidIdentifier, w)) ∧
  (∀ sid url, submit_homework s sid url w = (Raise InvalidIdentifier, w)) ∧
  (∀ g fb, grade_submission s g fb w = (Raise InvalidIdentifier, w)) ∧
  mark_read s w = (Raise InvalidIdentifier, w).
Proof.
  intros H.
  unfold update_student, delete_student, update_lesson, delete_lesson,
    update_homework, submit_homework, grade_submission, mark_read.
  repeat split; intros; by rewrite bind_oid_invalid.
Qed.

(** C4 at [delete_homework]: with a string that is not an identifier the
    handler first sends the deletion of the submissions that name that
    string, and only then refuses the identifier. *)
Theorem delete_homework_cleans_before_parsing (hw_id : string) (w : World) :
  parse_ObjectId hw_id = None →
  ∃ w', delete_homework hw_id w = (Raise InvalidIdentifier, w') ∧
    sent w w' [DeleteMany "submission" [("homework_id", Is (VStr hw_id))]] ∧
    docs "submission" w' =
      List.filter (keeps [("homework_id", Is (VStr hw_id))]) (docs "submission" w).
Proof.
  intros H. eexists. unfold delete_homework.
  rewrite bind_delete_many, bind_oid_invalid by done.
  split; [reflexivity|]. unfold sent. by autorewrite with world.
Qed.

(** ** Lists *)

Lemma filter_none (p : document → bool) (l : list document) :
  (∀ d, d ∈ l → p d = false) → List.filter p l = [].
Proof.
  induction l as [|x r IH]; intros H; [reflexivity|]. simpl.
  rewrite (H x) by apply list_elem_of_here.
  apply IH. intros d Hd. apply H. by apply list_elem_of_further.
Qed.

Lemma elem_of_filter_bool (p : document → bool) (l : list document) (d : document) :
  d ∈ List.filter p l ↔ d ∈ l ∧ p d = true.
Proof. rewrite !list_elem_of_In. apply filter_In. Qed.

Lemma remove_first_none (p : document → bool) (l : list document) :
  List.find p l = None → remove_first p l = l.
Proof.
  induction l as [|x r IH]; [reflexivity|]. simpl.
  destruct (p x); [discriminate|]. intros H. by rewrite IH.
Qed.

Lemma find_Some_elem (p : document → bool) (l : list document) (d : document) :
  List.find p l = Some d → d ∈ l ∧ p d = true.
Proof. intros H. apply find_some in H. by rewrite list_elem_of_In. Qed.


Lemma matches_app (q q' : query) (d : document) :
  matches (q ++ q') d = matches q d && matches q' d.
Proof. apply forallb_app. Qed.


(** ** Homework *)

Lemma delete_homework_run (hw_id : string) (o : ObjectId) (w : World) :
  parse_ObjectId hw_id = Some o →
  let q := [("homework_id", Is (VStr hw_id))] in
  let w1 := written "submission" (List.filter (keeps q) (docs "submission" w))
              (logged (DeleteMany "submission" q) w) in
  delete_homework hw_id w =
    match List.find (matches [("_id", Is (VOid o))]) (docs "homework" w) with
    | Some _ =>
        (Ok ok, written "homework"
                  (remove_first (matches [("_id", Is (VOid o))]) (docs "homework" w))
                  (logged (DeleteOne "homework" [("_id", Is (VOid o))]) w1))
    | None =>
        (Raise (NotFound "الواجب غير موجود"),
         logged (DeleteOne "homework" [("_id", Is (VOid o))]) w1)
    end.
Proof.
  intros H q w1. unfold delete_homework.
  rewrite bind_delete_many. fold q w1. rewrite (bind_oid_valid _ _ _ _ H).
  assert (Hd : docs "homework" w1 = docs "homework" w)
    by (unfold w1; by autorewrite with world).
  destruct (List.find _ (docs "homework" w)) as [d|] eqn:E; rewrite <- Hd in E.
  - rewrite (bind_ok _ _ _ _ _ (delete_one_found _ _ _ _ E)), Hd. reflexivity.
  - rewrite (bind_ok _ _ _ _ _ (delete_one_missing _ _ _ E)). reflexivity.
Qed.


(** ** Students: the cascade of [delete_student] *)

Lemma filter_all (p : document → bool) (l : list document) :
  (∀ d, d ∈ l → p d = true) → List.filter p l = l.
Proof.
  induction l as [|x r IH]; intros H; [reflexivity|]. simpl.
  rewrite (H x) by apply list_elem_of_here. f_equal.
  apply IH. intros d Hd. apply H. by apply list_elem_of_further.
Qed.

Lemma filter_filter (p p' : document → bool) (l : list document) :
  List.filter p (List.filter p' l) = List.filter (λ d, p' d && p d) l.
Proof.
  induction l as [|x r IH]; [reflexivity|]. simpl.
  destruct (p' x); simpl; [destruct (p x)|]; by rewrite IH.
Qed.

(** The loop over the student's homeworks: one deletion per homework, which
    together keep the submissions that name none of them. *)
Lemma for_each_delete_submissions (hws : list document) (w : World) :
  ∃ w',
    for_each hws (λ hw,
      delete_many "submission" [("homework_id", Is (VStr (str_ObjectId (_id hw))))] ;;
      mret ()) w = (Ok (), w') ∧
    docs "submission" w' =
      List.filter (names_none_of (map _id hws)) (docs "submission" w) ∧
    (∀ c, c ≠ "submission" → docs c w' = docs c w) ∧
    log w' = log w ++ map (λ i, DeleteMany "submission"
                                  [("homework_id", Is (VStr (str_ObjectId i)))])
                          (map _id hws).
Proof.
  revert w. induction hws as [|hw r IH]; intros w.
  - exists w. split_and!; try done.
    + symmetry. by apply filter_all.
    + simpl. by rewrite app_nil_r.
  - cbn [for_each]. rewrite bind_assoc, bind_delete_many, bind_ret.
    set (w1 := written _ _ _).
    destruct (IH w1) as (w' & Hrun & Hsub & Hoth & Hlog).
    exists w'. split; [exact Hrun|]. split_and!.
    + rewrite Hsub. unfold w1. autorewrite with world. by rewrite filter_filter.
    + intros c Hc. rewrite Hoth by done. unfold w1. by autorewrite with world.
    + rewrite Hlog. unfold w1. autorewrite with world. by rewrite <- app_assoc.
Qed.

Lemma delete_student_run (student_id : string) (o : ObjectId) (w : World) :
  parse_ObjectId student_id = Some o →
  let q := [("student_id", Is (VStr student_id))] in
  let hws := map _id (List.filter (matches q) (docs "homework" w)) in
  ∃ w',
    delete_student student_id w =
      (match List.find (matches [("_id", Is (VOid o))]) (docs "student" w) with
       | Some _ => Ok ok
       | None => Raise (NotFound "الطالب غير موجود")
       end, w') ∧
    sent w w'
      ([DeleteMany "lesson" q; Find "homework" q] ++
       map (λ i, DeleteMany "submission" [("homework_id", Is (VStr (str_ObjectId i)))]) hws ++
       [DeleteMany "homework" q; DeleteMany "message" q;
        DeleteOne "student" [("_id", Is (VOid o))]]) ∧
    docs "lesson" w' = List.filter (keeps q) (docs "lesson" w) ∧
    docs "submission" w' = List.filter (names_none_of hws) (docs "submission" w) ∧
    docs "homework" w' = List.filter (keeps q) (docs "homework" w) ∧
    docs "message" w' = List.filter (keeps q) (docs "message" w) ∧
    docs "student" w' =
      remove_first (matches [("_id", Is (VOid o))]) (docs "student" w).
Proof.
  intros H q hws. unfold delete_student.
  rewrite (bind_oid_valid _ _ _ _ H), bind_delete_many, bind_find_ids. fold q.
  autorewrite with world.
  set (w1 := logged (Find "homework" q) _).
  destruct (for_each_delete_submissions
              (map (λ d, Document (_id d) ∅) (List.filter (matches q) (docs "homework" w))) w1)
    as (w2 & Hrun & Hsub & Hoth & Hlog).
  assert (Hids : map _id (map (λ d, Document (_id d) ∅)
                   (List.filter (matches q) (docs "homework" w))) = hws)
    by (by rewrite map_map).
  rewrite Hids in Hsub, Hlog.
  rewrite (bind_ok _ _ _ _ _ Hrun), !bind_delete_many.
  set (w3 := written "message" _ _).
  assert (Hst : docs "student" w3 = docs "student" w).
  { unfold w3. autorewrite with world. rewrite Hoth by done.
    unfold w1. by autorewrite with world. }
  assert (Hlog3 : log w3 = log w ++ [DeleteMany "lesson" q; Find "homework" q] ++
            map (λ i, DeleteMany "submission" [("homework_id", Is (VStr (str_ObjectId i)))]) hws ++
            [DeleteMany "homework" q; DeleteMany "message" q]).
  { unfold w3. autorewrite with world. rewrite Hlog. unfold w1.
    autorewrite with world. by rewrite <- !app_assoc. }
  assert (Hdocs : docs "lesson" w3 = List.filter (keeps q) (docs "lesson" w) ∧
                  docs "submission" w3 = List.filter (names_none_of hws) (docs "submission" w) ∧
                  docs "homework" w3 = List.filter (keeps q) (docs "homework" w) ∧
                  docs "message" w3 = List.filter (keeps q) (docs "message" w)).
  { unfold w3. autorewrite with world.
    rewrite (Hoth "lesson"), (Hoth "homework"), (Hoth "message"), Hsub by done.
    unfold w1. by autorewrite with world. }
  destruct Hdocs as (Hl & Hs & Hh & Hm).
  destruct (List.find _ (docs "student" w)) as [d|] eqn:E; rewrite <- Hst in E.
  - rewrite (bind_ok _ _ _ _ _ (delete_one_found _ _ _ _ E)).
    eexists. split; [reflexivity|]. unfold sent. autorewrite with world.
    rewrite Hlog3, Hst. split_and!; try done. by rewrite <- !app_assoc.
  - rewrite (bind_ok _ _ _ _ _ (delete_one_missing _ _ _ E)).
    eexists. split; [reflexivity|]. unfold sent. autorewrite with world.
    rewrite Hlog3. rewrite Hst in E. split_and!; try done.
    + by rewrite <- !app_assoc.
    + by rewrite Hst, remove_first_none.
Qed.


Lemma names_none_of_no_reference (ids : list ObjectId) (l : list document)
    (s : document) (i : ObjectId) :
  s ∈ List.filter (names_none_of ids) l → i ∈ ids →
  ¬ refers "homework_id" (str_ObjectId i) s.
Proof.
  intros Hs Hi. apply elem_of_filter_bool in Hs as [_ Hs].
  unfold names_none_of in Hs. rewrite forallb_forall in Hs.
  apply keeps_refers, Hs. by apply list_elem_of_In.
Qed.

Lemma homework_of_student_listed (sid : string) (l : list document) (hw : document) :
  hw ∈ l → refers "student_id" sid hw →
  _id hw ∈ map _id (List.filter (matches [("student_id", Is (VStr sid))]) l).
Proof.
  intros Hin Hr. apply list_elem_of_In, in_map, list_elem_of_In.
  apply elem_of_filter_bool. split; [done|]. by apply matches_refers.
Qed.

Lemma filter_changes (p : document → bool) (l : list document) :
  (∃ d, d ∈ l ∧ p d = false) → List.filter p l ≠ l.
Proof.
  intros (d & Hin & Hp) E. rewrite <- E in Hin.
  apply elem_of_filter_bool in Hin as [_ Hin]. congruence.
Qed.


(** C9: with an identifier of no student the cascade is carried out all the
    same before the 404: the lessons, homeworks and messages whose
    [student_id] is the string given and the submissions whose
    [homework_id] is the string form of the identifier of one of those
    homeworks are deleted and stay deleted, so every collection that held
    one of them has changed; when no lesson, homework or message has the
    string as [student_id], nothing is deleted and every one of these
    collections is as before. *)
Theorem delete_student_absent_still_cascades (student_id : string) (o : ObjectId)
    (w : World) :
  parse_ObjectId student_id = Some o →
  ¬ has_id o (docs "student" w) →
  let q := [("student_id", Is (VStr student_id))] in
  let hws := map _id (List.filter (matches q) (docs "homework" w)) in
  ∃ w',
    delete_student student_id w = (Raise (NotFound "الطالب غير موجود"), w') ∧
    sent w w'
      ([DeleteMany "lesson" q; Find "homework" q] ++
       map (λ i, DeleteMany "submission" [("homework_id", Is (VStr (str_ObjectId i)))]) hws ++
       [DeleteMany "homework" q; DeleteMany "message" q;
        DeleteOne "student" [("_id", Is (VOid o))]]) ∧
    docs "lesson" w' = List.filter (keeps q) (docs "lesson" w) ∧
    docs "submission" w' = List.filter (names_none_of hws) (docs "submission" w) ∧
    docs "homework" w' = List.filter (keeps q) (docs "homework" w) ∧
    docs "message" w' = List.filter (keeps q) (docs "message" w) ∧
    docs "student" w' = docs "student" w ∧
    ((∃ d, d ∈ docs "lesson" w ∧ refers "student_id" student_id d) →
       docs "lesson" w' ≠ docs "lesson" w) ∧
    ((∃ d, d ∈ docs "homework" w ∧ refers "student_id" student_id d) →
       docs "homework" w' ≠ docs "homework" w) ∧
    ((∃ s hw, s ∈ docs "submission" w ∧ hw ∈ docs "homework" w ∧
              refers "student_id" student_id hw ∧
              refers "homework_id" (str_ObjectId (_id hw)) s) →
       docs "submission" w' ≠ docs "submission" w) ∧
    ((∃ d, d ∈ docs "message" w ∧ refers "student_id" student_id d) →
       docs "message" w' ≠ docs "message" w) ∧
    ((∀ c d, c ∈ ["lesson"; "homework"; "message"] → d ∈ docs c w →
             ¬ refers "student_id" student_id d) →
       docs "lesson" w' = docs "lesson" w ∧
       docs "submission" w' = docs "submission" w ∧
       docs "homework" w' = docs "homework" w ∧
       docs "message" w' = docs "message" w).
Proof.
  intros H Hno q hws.
  destruct (delete_student_run student_id o w H)
    as (w' & Hrun & Hsent & Hl & Hs & Hh & Hm & Hst).
  fold q hws in Hrun, Hsent, Hl, Hs, Hh, Hm.
  pose proof (find_by_id_None _ _ Hno) as E. rewrite E in Hrun.
  rewrite remove_first_none in Hst by done.
  assert (Hch : ∀ c, docs c w' = List.filter (keeps q) (docs c w) →
            (∃ d, d ∈ docs c w ∧ refers "student_id" student_id d) →
            docs c w' ≠ docs c w).
  { intros c Hc (d & Hin & Hr). rewrite Hc. apply filter_changes.
    exists d. split; [done|]. apply not_true_is_false. intros Hk.
    by apply (keeps_refers "student_id" student_id d) in Hk. }
  assert (Hsame : (∀ c d, c ∈ ["lesson"; "homework"; "message"] → d ∈ docs c w →
                          ¬ refers "student_id" student_id d) →
            ∀ c, c ∈ ["lesson"; "homework"; "message"] →
                 List.filter (keeps q) (docs c w) = docs c w).
  { intros Hnone c Hc. apply filter_all. intros d Hd.
    apply keeps_refers. by apply (Hnone c). }
  exists w'. split_and!; try done; try (by apply Hch).
  - intros (s & hw & Hin & Hhw & Hr & Hn). rewrite Hs. apply filter_changes.
    exists s. split; [done|]. apply not_true_is_false. intros Hk.
    assert (Hs' : s ∈ List.filter (names_none_of hws) (docs "submission" w))
      by (by apply elem_of_filter_bool).
    eapply names_none_of_no_reference; [exact Hs'| |exact Hn].
    by apply homework_of_student_listed.
  - intros Hnone. rewrite Hl, Hs, Hh, Hm.
    rewrite !(Hsame Hnone) by set_solver.
    split_and!; try reflexivity.
    assert (Hhws : hws = []).
    { unfold hws. rewrite filter_none; [reflexivity|]. intros d Hd.
      apply not_true_is_false. intros Hd'.
      apply (proj1 (matches_refers "student_id" student_id d)) in Hd'.
      revert Hd'. apply (Hnone "homework"); [set_solver|done]. }
    rewrite Hhws. by apply filter_all.
Qed.

(** ** Inserting and fetching back *)

Lemma bind_raise_run {A B} (m : M A) (k : A → M B) w e w' :
  m w = (Raise e, w') → (m ≫= k) w = (Raise e, w').
Proof. intros H. unfold mbind, M_bind. by rewrite H. Qed.

Lemma existsb_id_fresh (o : ObjectId) (l : list document) :
  ¬ has_id o l → existsb (λ x, bool_decide (_id x = o)) l = false.
Proof.
  intros H. apply not_true_is_false. rewrite existsb_exists.
  intros (d & Hin & Hd). apply bool_decide_eq_true in Hd.
  apply H. exists d. by rewrite list_elem_of_In.
Qed.

Lemma insert_one_fresh (c : string) (d : dict) (w : World) :
  let o := new_ObjectId (draws w) in
  ¬ has_id o (docs c w) →
  insert_one c d w =
    (Ok o, written c (docs c w ++ [Document o d]) (logged (InsertOne c d) (drawn w))).
Proof.
  intros o H. unfold insert_one, mbind, M_bind, generate, send, read.
  cbn beta iota. change (coll c _) with (docs c w). fold o.
  by rewrite (existsb_id_fresh _ _ H).
Qed.

Lemma create_document_fresh (c : string) (data : dict) (w : World) :
  let o := new_ObjectId (draws w) in
  let d := <["created_at" := VDate (utcnow (ticks w))]> data in
  ¬ has_id o (docs c w) →
  create_document c data w =
    (Ok (str_ObjectId o),
     written c (docs c w ++ [Document o d]) (logged (InsertOne c d) (drawn (ticked w)))).
Proof.
  intros o d H. unfold create_document. rewrite bind_now.
  rewrite (bind_ok _ _ _ _ _ (insert_one_fresh c d (ticked w) H)). reflexivity.
Qed.

Lemma bind_ObjectId_of_str {B} (o : ObjectId) (k : ObjectId → M B) (w : World) :
  length o = 12 → (ObjectId_of (VStr (str_ObjectId o)) ≫= k) w = k o w.
Proof.
  intros H. unfold mbind, M_bind, ObjectId_of.
  by rewrite (parse_str_ObjectId _ H).
Qed.

Lemma find_app_fresh (o : ObjectId) (b : dict) (l : list document) :
  ¬ has_id o l →
  List.find (matches [("_id", Is (VOid o))]) (l ++ [Document o b]) = Some (Document o b).
Proof.
  intros H.
  assert (Hm : matches [("_id", Is (VOid o))] (Document o b) = true)
    by (by apply matches_id).
  induction l as [|x r IH]; cbn [app List.find].
  - by rewrite Hm.
  - assert (Hx : matches [("_id", Is (VOid o))] x = false).
    { apply not_true_is_false. rewrite matches_id. intros E.
      apply H. exists x. split; [apply list_elem_of_here | done]. }
    rewrite Hx. apply IH. intros (d & Hin & Hd). apply H. exists d.
    split; [|done]. by apply list_elem_of_further.
Qed.

(** ** Students: codes are unique *)

(** C5: [add_student] with a code some student already holds fails with the
    duplicate-code error after one lookup and leaves the whole store as it
    was; with a code no student holds it inserts the student, fetches the
    stored document back by the generated identifier and returns its
    serialized form. *)
Theorem add_student_unique_code (st : StudentSchema.t) (w : World) :
  let c := StudentSchema.code st in
  let o := new_ObjectId (draws w) in
  let new := Document o (<["created_at" := VDate (utcnow (ticks w))]>
                           (StudentSchema.model_dump st)) in
  ((∃ d, d ∈ docs "student" w ∧ refers "code" c d) →
   ∃ w',
     add_student st w = (Raise DuplicateCode, w') ∧
     store w' = store w ∧
     sent w w' [FindOne "student" [("code", Is (VStr c))]]) ∧
  ((∀ d, d ∈ docs "student" w → ¬ refers "code" c d) →
   ¬ has_id o (docs "student" w) → length o = 12 →
   ∃ w',
     add_student st w = (Ok (serialize (Some new)), w') ∧
     docs "student" w' = docs "student" w ++ [new] ∧
     (∀ c', c' ≠ "student" → docs c' w' = docs c' w) ∧
     sent w w' [FindOne "student" [("code", Is (VStr c))];
                InsertOne "student" (body new);
                FindOne "student" [("_id", Is (VOid o))]]).
Proof.
  intros c o new. unfold add_student. fold c. split.
  - intros Hex.
    destruct (find_is_Some (matches [("code", Is (VStr c))]) (docs "student" w))
      as (d & E & _).
    { destruct Hex as (d & Hin & Hd). exists d. by rewrite matches_refers. }
    rewrite bind_find_one, E. eexists. split; [reflexivity|]. by unfold sent.
  - intros Hno Hfresh Hlen.
    rewrite bind_find_one, find_is_None.
    2:{ intros d Hin. apply not_true_is_false. rewrite matches_refers. by apply Hno. }
    set (w1 := logged _ w).
    assert (Hf1 : ¬ has_id (new_ObjectId (draws w1)) (docs "student" w1)) by exact Hfresh.
    rewrite (bind_ok _ _ _ _ _ (create_document_fresh "student" _ w1 Hf1)).
    rewrite (bind_ObjectId_of_str _ _ _ Hlen), bind_find_one.
    autorewrite with world. change (docs "student" w1) with (docs "student" w).
    rewrite (find_app_fresh _ _ _ Hfresh).
    eexists. split; [reflexivity|]. unfold sent. autorewrite with world.
    split_and!; try done.
    + intros c' Hc. by autorewrite with world.
    + unfold w1. autorewrite with world. by rewrite <- !app_assoc.
Qed.

Lemma unique_codes_index (l : list document) :
  unique_codes l →
  ∀ i j d e, l !! i = Some d → l !! j = Some e →
    field "code" d = field "code" e → i = j.
Proof.
  intros H i j d e Hi Hj Hc.
  apply (proj1 (NoDup_alt (field "code" <$> l)) H i j (field "code" d)).
  - by rewrite list_lookup_fmap, Hi.
  - by rewrite list_lookup_fmap, Hj, Hc.
Qed.

Lemma matches_code_other (c : string) (o : ObjectId) (d : document) :
  matches [("code", Is (VStr c)); ("_id", Ne (VOid o))] d = true ↔
  refers "code" c d ∧ _id d ≠ o.
Proof.
  pose proof (matches_refers "code" c d) as Hc.
  pose proof (matches_id o d) as Hi.
  unfold matches in *. cbn [forallb] in *. rewrite andb_true_r in *.
  rewrite andb_true_iff, Hc. unfold holds in *. cbn [fst snd] in *.
  rewrite negb_true_iff, <- not_true_iff_false, Hi. done.
Qed.

Lemma find_update_first (p : document → bool) (f : document → document)
    (l : list document) (d : document) :
  List.find p l = Some d → p (f d) = true →
  List.find p (update_first p f l) = Some (f d).
Proof.
  intros H Hf. induction l as [|x r IH]; [discriminate|].
  cbn [List.find update_first] in *. destruct (p x) eqn:Hx.
  - injection H as ->. cbn [List.find]. by rewrite Hf.
  - cbn [List.find]. rewrite Hx. by apply IH.
Qed.

Lemma update_first_none (p : document → bool) (f : document → document)
    (l : list document) :
  List.find p l = None → update_first p f l = l.
Proof.
  induction l as [|x r IH]; [reflexivity|]. simpl.
  destruct (p x); [discriminate|]. intros H. by rewrite IH.
Qed.

Lemma matches_id_apply_set (o : ObjectId) (p : dict) (d : document) :
  matches [("_id", Is (VOid o))] d = true →
  matches [("_id", Is (VOid o))] (apply_set p d) = true.
Proof. rewrite !matches_id. done. Qed.

Lemma update_student_run (student_id : string) (o : ObjectId)
    (data : StudentSchema.t) (w : World) :
  parse_ObjectId student_id = Some o →
  let c := StudentSchema.code data in
  let dupq := [("code", Is (VStr c)); ("_id", Ne (VOid o))] in
  let idq := [("_id", Is (VOid o))] in
  let patch := <["updated_at" := VDate (utcnow (ticks w))]> (StudentSchema.model_dump data) in
  update_student student_id data w =
    match List.find (matches dupq) (docs "student" w) with
    | Some _ => (Raise DuplicateCode, logged (FindOne "student" dupq) w)
    | None =>
        match List.find (matches idq) (docs "student" w) with
        | Some d =>
            (Ok (serialize (Some (apply_set patch d))),
             logged (FindOne "student" idq)
               (written "student" (update_first (matches idq) (apply_set patch) (docs "student" w))
                  (logged (UpdateOne "student" idq patch)
                     (ticked (logged (FindOne "student" dupq) w)))))
        | None =>
            (Raise (NotFound "الطالب غير موجود"),
             logged (UpdateOne "student" idq patch)
               (ticked (logged (FindOne "student" dupq) w)))
        end
    end.
Proof.
  intros H c dupq idq patch. unfold update_student. fold c.
  rewrite (bind_oid_valid _ _ _ _ H), bind_find_one. fold dupq.
  destruct (List.find (matches dupq) _) as [e|]; [reflexivity|].
  rewrite (bind_oid_valid _ _ _ _ H), bind_now. fold idq.
  autorewrite with world. fold patch.
  set (w1 := ticked _).
  assert (Hd : docs "student" w1 = docs "student" w) by reflexivity.
  destruct (List.find (matches idq) (docs "student" w)) as [d|] eqn:E; rewrite <- Hd in E.
  - rewrite (bind_ok _ _ _ _ _ (update_one_found _ _ patch _ _ E)).
    rewrite decide_False by done.
    rewrite (bind_oid_valid _ _ _ _ H), bind_find_one. autorewrite with world.
    rewrite (find_update_first _ _ _ d) by (try done; by apply matches_id_apply_set,
      (proj2 (find_Some_elem _ _ _ E))).
    by rewrite Hd.
  - rewrite (bind_ok _ _ _ _ _ (update_one_missing _ _ patch _ E)).
    by rewrite decide_True.
Qed.

(** C6, with the order the code has: [update_student] looks for another
    holder of the code first, so it fails with the duplicate-code error
    exactly when a student with a different identifier holds the code,
    whether or not the identifier names a student; otherwise it updates the
    student of that identifier, or fails with the 404 when there is none.
    Codes being unique, a student may keep its own code. *)
Theorem update_student_checks_code_first (student_id : string) (o : ObjectId)
    (data : StudentSchema.t) (w : World) :
  parse_ObjectId student_id = Some o →
  let c := StudentSchema.code data in
  let patch := <["updated_at" := VDate (utcnow (ticks w))]> (StudentSchema.model_dump data) in
  ((∃ d, d ∈ docs "student" w ∧ refers "code" c d ∧ _id d ≠ o) →
   ∃ w', update_student student_id data w = (Raise DuplicateCode, w') ∧
         store w' = store w) ∧
  ((∀ d, d ∈ docs "student" w → refers "code" c d → _id d = o) →
   (has_id o (docs "student" w) →
    ∃ d w', d ∈ docs "student" w ∧ _id d = o ∧
      update_student student_id data w = (Ok (serialize (Some (apply_set patch d))), w') ∧
      docs "student" w' =
        update_first (matches [("_id", Is (VOid o))]) (apply_set patch) (docs "student" w)) ∧
   (¬ has_id o (docs "student" w) →
    ∃ w', update_student student_id data w = (Raise (NotFound "الطالب غير موجود"), w') ∧
          store w' = store w)) ∧
  (unique_codes (docs "student" w) →
   (∃ d, d ∈ docs "student" w ∧ _id d = o ∧ refers "code" c d) →
   ∃ r w', update_student student_id data w = (Ok r, w')).
Proof.
  intros H c patch. pose proof (update_student_run student_id o data w H) as R.
  cbv zeta in R. fold c patch in R.
  assert (Hdup : (∃ d, d ∈ docs "student" w ∧ refers "code" c d ∧ _id d ≠ o) →
            ∃ w', update_student student_id data w = (Raise DuplicateCode, w') ∧
                  store w' = store w).
  { intros (d & Hin & Hd).
    destruct (find_is_Some (matches [("code", Is (VStr c)); ("_id", Ne (VOid o))])
                (docs "student" w)) as (e & E & _).
    { exists d. by rewrite matches_code_other. }
    rewrite E in R. by eexists. }
  assert (Hok : (∀ d, d ∈ docs "student" w → refers "code" c d → _id d = o) →
            has_id o (docs "student" w) →
            ∃ d w', d ∈ docs "student" w ∧ _id d = o ∧
              update_student student_id data w =
                (Ok (serialize (Some (apply_set patch d))), w') ∧
              docs "student" w' =
                update_first (matches [("_id", Is (VOid o))]) (apply_set patch)
                  (docs "student" w)).
  { intros Hno Hex. rewrite find_is_None in R.
    2:{ intros d Hin. apply not_true_is_false. rewrite matches_code_other.
        intros [Hc Hne]. by apply Hne, Hno. }
    apply find_by_id_Some in Hex as (d & E & Hin & Hd). rewrite E in R.
    eexists d, _. split_and!; try done. by autorewrite with world. }
  split; [exact Hdup|]. split.
  - intros Hno. split; [by apply Hok|].
    intros Hmiss. rewrite find_is_None in R.
    2:{ intros d Hin. apply not_true_is_false. rewrite matches_code_other.
        intros [Hc Hne]. by apply Hne, Hno. }
    rewrite (find_by_id_None _ _ Hmiss) in R. by eexists.
  - intros Huniq (d & Hin & Hd & Hc).
    destruct Hok as (d' & w' & _ & _ & Hrun & _).
    + intros e He Hce. apply list_elem_of_lookup in Hin as [i Hi].
      apply list_elem_of_lookup in He as [j Hj].
      assert (i = j) as ->
        by (eapply (unique_codes_index _ Huniq); [done..|]; unfold refers in *; congruence).
      congruence.
    + by exists d.
    + by eexists _, _.
Qed.

(** ** Submissions *)

Lemma submit_homework_run (hw_id student_id : string) (file_url : option string)
    (o : ObjectId) (hw : document) (w : World) :
  parse_ObjectId hw_id = Some o →
  List.find (matches [("_id", Is (VOid o))]) (docs "homework" w) = Some hw →
  let n := new_ObjectId (draws w) in
  let sub := submission_of n hw_id student_id file_url
               (isoformat (utcnow (ticks w))) (utcnow (S (ticks w))) in
  let patch := <["status" := VStr "submitted"]>
                 (<["updated_at" := VDate (utcnow (S (S (ticks w))))]> ∅) in
  ¬ has_id n (docs "submission" w) → length n = 12 →
  ∃ w',
    submit_homework hw_id student_id file_url w = (Ok (serialize (Some sub)), w') ∧
    sent w w' [FindOne "homework" [("_id", Is (VOid o))];
               InsertOne "submission" (body sub);
               UpdateOne "homework" [("_id", Is (VOid o))] patch;
               FindOne "submission" [("_id", Is (VOid n))]] ∧
    docs "submission" w' = docs "submission" w ++ [sub] ∧
    docs "homework" w' =
      update_first (matches [("_id", Is (VOid o))]) (apply_set patch) (docs "homework" w) ∧
    (∀ c, c ≠ "submission" → c ≠ "homework" → docs c w' = docs c w).
Proof.
  intros H E n sub patch Hfresh Hlen. unfold submit_homework.
  rewrite (bind_oid_valid _ _ _ _ H), bind_find_one, E, bind_now.
  set (w1 := ticked _).
  assert (Hf1 : ¬ has_id (new_ObjectId (draws w1)) (docs "submission" w1)) by exact Hfresh.
  rewrite (bind_ok _ _ _ _ _ (create_document_fresh "submission" _ w1 Hf1)).
  set (w2 := written "submission" _ _).
  rewrite (bind_oid_valid _ _ _ _ H), bind_now.
  assert (Hs2 : docs "submission" w2 = docs "submission" w ++ [sub]).
  { unfold w2. by autorewrite with world. }
  assert (Hh2 : docs "homework" w2 = docs "homework" w).
  { unfold w2. by autorewrite with world. }
  assert (E2 : List.find (matches [("_id", Is (VOid o))]) (docs "homework" (ticked w2))
               = Some hw).
  { autorewrite with world. by rewrite Hh2. }
  rewrite (bind_ok _ _ _ _ _ (update_one_found _ _ _ _ _ E2)).
  change (new_ObjectId (draws w1)) with n.
  rewrite (bind_ObjectId_of_str _ _ _ Hlen), bind_find_one.
  autorewrite with world. rewrite Hs2, Hh2.
  assert (Hfind : List.find (matches [("_id", Is (VOid n))]) (docs "submission" w ++ [sub])
                  = Some sub) by apply (find_app_fresh n (body sub) _ Hfresh).
  rewrite Hfind.
  eexists. split; [reflexivity|]. unfold sent. autorewrite with world.
  split_and!; try done.
  - unfold w2. autorewrite with world. unfold w1. autorewrite with world.
    by rewrite <- !app_assoc.
  - intros c H1 H2. unfold w2. autorewrite with world. unfold w1.
    by autorewrite with world.
Qed.

Lemma field_apply_set (k : string) (v : value) (p : dict) (d : document) :
  k ≠ "_id" → p !! k = Some v → field k (apply_set p d) = Some v.
Proof.
  intros Hk Hp. unfold field, apply_set. rewrite decide_False by done.
  cbn [body]. by apply lookup_union_Some_l.
Qed.

Lemma field_apply_set_other (k : string) (p : dict) (d : document) :
  p !! k = None → field k (apply_set p d) = field k d.
Proof.
  intros Hp. unfold field, apply_set. cbn [body _id].
  case_decide; [done|]. by apply lookup_union_r.
Qed.

(** C2: for an identifier of an existing homework and any student string,
    [submit_homework] stores a submission with status [submitted] and the
    time of submission, then sets the status of that homework to
    [submitted]; for an identifier of no homework it fails with the 404
    after one lookup and the store is as it was. *)
Theorem submit_homework_creates_then_marks (hw_id student_id : string)
    (file_url : option string) (o : ObjectId) (w : World) :
  parse_ObjectId hw_id = Some o →
  let n := new_ObjectId (draws w) in
  let sub := submission_of n hw_id student_id file_url
               (isoformat (utcnow (ticks w))) (utcnow (S (ticks w))) in
  let patch := <["status" := VStr "submitted"]>
                 (<["updated_at" := VDate (utcnow (S (S (ticks w))))]> ∅) in
  (has_id o (docs "homework" w) →
   ¬ has_id n (docs "submission" w) → length n = 12 →
   ∃ w' hw',
     submit_homework hw_id student_id file_url w = (Ok (serialize (Some sub)), w') ∧
     sent w w' [FindOne "homework" [("_id", Is (VOid o))];
                InsertOne "submission" (body sub);
                UpdateOne "homework" [("_id", Is (VOid o))] patch;
                FindOne "submission" [("_id", Is (VOid n))]] ∧
     docs "submission" w' = docs "submission" w ++ [sub] ∧
     field "status" sub = Some (VStr "submitted") ∧
     field "submitted_at" sub = Some (VStr (isoformat (utcnow (ticks w)))) ∧
     field "homework_id" sub = Some (VStr hw_id) ∧
     docs "homework" w' =
       update_first (matches [("_id", Is (VOid o))]) (apply_set patch) (docs "homework" w) ∧
     List.find (matches [("_id", Is (VOid o))]) (docs "homework" w') = Some hw' ∧
     field "status" hw' = Some (VStr "submitted")) ∧
  (¬ has_id o (docs "homework" w) →
   ∃ w',
     submit_homework hw_id student_id file_url w =
       (Raise (NotFound "الواجب غير موجود"), w') ∧
     store w' = store w ∧
     sent w w' [FindOne "homework" [("_id", Is (VOid o))]]).
Proof.
  intros H n sub patch. split.
  - intros Hex Hfresh Hlen. apply find_by_id_Some in Hex as (hw & E & Hin & Hhw).
    destruct (submit_homework_run hw_id student_id file_url o hw w H E Hfresh Hlen)
      as (w' & Hrun & Hsent & Hs & Hh & _).
    exists w', (apply_set patch hw). split_and!; try done.
    + rewrite Hh. apply find_update_first; [done|].
      by apply matches_id_apply_set, matches_id.
    + by apply field_apply_set.
  - intros Hno. unfold submit_homework.
    rewrite (bind_oid_valid _ _ _ _ H), bind_find_one, (find_by_id_None _ _ Hno).
    eexists. split; [reflexivity|]. by unfold sent.
Qed.

(** C10: the student string of [submit_homework] is not looked at: whatever
    it is, the stored submission and the returned one carry it unchanged as
    [student_id], and the only collections the handler addresses are
    [homework] and [submission]. *)
Theorem submit_homework_keeps_student_id (hw_id student_id : string)
    (file_url : option string) (o : ObjectId) (w : World) :
  parse_ObjectId hw_id = Some o →
  has_id o (docs "homework" w) →
  ¬ has_id (new_ObjectId (draws w)) (docs "submission" w) →
  length (new_ObjectId (draws w)) = 12 →
  ∃ saved stored cmds w',
    submit_homework hw_id student_id file_url w = (Ok (Some saved), w') ∧
    saved !! "student_id" = Some (VStr student_id) ∧
    docs "submission" w' = docs "submission" w ++ [stored] ∧
    field "student_id" stored = Some (VStr student_id) ∧
    sent w w' cmds ∧
    ∀ a, a ∈ cmds → collection_of a = "homework" ∨ collection_of a = "submission".
Proof.
  intros H Hex Hfresh Hlen. apply find_by_id_Some in Hex as (hw & E & Hin & Hhw).
  destruct (submit_homework_run hw_id student_id file_url o hw w H E Hfresh Hlen)
    as (w' & Hrun & Hsent & Hs & Hh & _).
  eexists _, _, _, w'. split; [exact Hrun|]. split_and!; try done.
  intros a Ha. repeat (apply elem_of_cons in Ha as [->|Ha]; [simpl; auto|]).
  by apply elem_of_nil in Ha.
Qed.

Lemma grade_submission_run (sub_id : string) (grade : float) (feedback : option string)
    (o : ObjectId) (d : document) (h : string) (ho : ObjectId) (w : World) :
  parse_ObjectId sub_id = Some o →
  List.find (matches [("_id", Is (VOid o))]) (docs "submission" w) = Some d →
  refers "homework_id" h d → parse_ObjectId h = Some ho →
  let p1 := <["grade" := VFloat grade]> (<["feedback" := opt_str feedback]>
              (<["status" := VStr "graded"]>
              (<["updated_at" := VDate (utcnow (ticks w))]> ∅))) in
  let p2 := <["status" := VStr "graded"]>
              (<["updated_at" := VDate (utcnow (S (ticks w)))]> ∅) in
  ∃ w',
    grade_submission sub_id grade feedback w =
      (Ok (serialize (Some (apply_set p1 d))), w') ∧
    sent w w' [UpdateOne "submission" [("_id", Is (VOid o))] p1;
               FindOne "submission" [("_id", Is (VOid o))];
               UpdateOne "homework" [("_id", Is (VOid ho))] p2] ∧
    docs "submission" w' =
      update_first (matches [("_id", Is (VOid o))]) (apply_set p1) (docs "submission" w) ∧
    docs "homework" w' =
      update_first (matches [("_id", Is (VOid ho))]) (apply_set p2) (docs "homework" w).
Proof.
  intros H E Hr Hh p1 p2. unfold grade_submission.
  rewrite (bind_oid_valid _ _ _ _ H), bind_now. fold p1.
  assert (E1 : List.find (matches [("_id", Is (VOid o))]) (docs "submission" (ticked w))
               = Some d) by exact E.
  rewrite (bind_ok _ _ _ _ _ (update_one_found _ _ p1 _ _ E1)).
  rewrite decide_False by done.
  rewrite (bind_oid_valid _ _ _ _ H), bind_find_one. autorewrite with world.
  rewrite (find_update_first _ _ _ d)
    by (try done; by apply matches_id_apply_set, (proj2 (find_Some_elem _ _ _ E))).
  assert (Hf : field "homework_id" (apply_set p1 d) = Some (VStr h)).
  { rewrite field_apply_set_other; [exact Hr | reflexivity]. }
  unfold subscript. rewrite Hf, bind_ret, (bind_oid_valid _ _ _ _ Hh), bind_now.
  autorewrite with world. fold p2.
  set (w3 := ticked _).
  assert (Hs3 : docs "submission" w3 =
            update_first (matches [("_id", Is (VOid o))]) (apply_set p1) (docs "submission" w)).
  { unfold w3. by autorewrite with world. }
  assert (Hh3 : docs "homework" w3 = docs "homework" w).
  { unfold w3. by autorewrite with world. }
  assert (Hl3 : log w3 = log w ++ [UpdateOne "submission" [("_id", Is (VOid o))] p1;
                                   FindOne "submission" [("_id", Is (VOid o))]]).
  { unfold w3. autorewrite with world. by rewrite <- !app_assoc. }
  destruct (List.find (matches [("_id", Is (VOid ho))]) (docs "homework" w)) as [hw|] eqn:Eh;
    rewrite <- Hh3 in Eh.
  - rewrite (bind_ok _ _ _ _ _ (update_one_found _ _ p2 _ _ Eh)).
    eexists. split; [reflexivity|]. unfold sent. autorewrite with world.
    rewrite Hl3, Hs3, Hh3. split_and!; try done. by rewrite <- !app_assoc.
  - rewrite (bind_ok _ _ _ _ _ (update_one_missing _ _ p2 _ Eh)).
    eexists. split; [reflexivity|]. unfold sent. autorewrite with world.
    rewrite Hl3, Hs3, Hh3. rewrite Hh3 in Eh.
    split_and!; try done.
    + by rewrite <- !app_assoc.
    + by rewrite update_first_none.
Qed.

(** C3: for an identifier of an existing submission, [grade_submission] sets
    its status to [graded] and stores the grade and the feedback, then sets
    the status of the homework the submission names to [graded]; when that
    homework is gone the homeworks are left as they are and grading succeeds
    all the same.  For an identifier of no submission the result is the 404
    and the store is as it was. *)
Theorem grade_submission_marks_both (sub_id : string) (grade : float)
    (feedback : option string) (o : ObjectId) (w : World) :
  parse_ObjectId sub_id = Some o →
  let p1 := <["grade" := VFloat grade]> (<["feedback" := opt_str feedback]>
              (<["status" := VStr "graded"]>
              (<["updated_at" := VDate (utcnow (ticks w))]> ∅))) in
  let p2 := <["status" := VStr "graded"]>
              (<["updated_at" := VDate (utcnow (S (ticks w)))]> ∅) in
  (has_id o (docs "submission" w) → submissions_wf (docs "submission" w) →
   ∃ d h ho w',
     d ∈ docs "submission" w ∧ _id d = o ∧
     refers "homework_id" h d ∧ parse_ObjectId h = Some ho ∧
     grade_submission sub_id grade feedback w =
       (Ok (serialize (Some (apply_set p1 d))), w') ∧
     field "status" (apply_set p1 d) = Some (VStr "graded") ∧
     field "grade" (apply_set p1 d) = Some (VFloat grade) ∧
     field "feedback" (apply_set p1 d) = Some (opt_str feedback) ∧
     sent w w' [UpdateOne "submission" [("_id", Is (VOid o))] p1;
                FindOne "submission" [("_id", Is (VOid o))];
                UpdateOne "homework" [("_id", Is (VOid ho))] p2] ∧
     docs "submission" w' =
       update_first (matches [("_id", Is (VOid o))]) (apply_set p1) (docs "submission" w) ∧
     List.find (matches [("_id", Is (VOid o))]) (docs "submission" w')
       = Some (apply_set p1 d) ∧
     (has_id ho (docs "homework" w) →
      ∃ hw, List.find (matches [("_id", Is (VOid ho))]) (docs "homework" w) = Some hw ∧
        docs "homework" w' =
          update_first (matches [("_id", Is (VOid ho))]) (apply_set p2) (docs "homework" w) ∧
        List.find (matches [("_id", Is (VOid ho))]) (docs "homework" w')
          = Some (apply_set p2 hw) ∧
        field "status" (apply_set p2 hw) = Some (VStr "graded")) ∧
     (¬ has_id ho (docs "homework" w) → docs "homework" w' = docs "homework" w)) ∧
  (¬ has_id o (docs "submission" w) →
   ∃ w',
     grade_submission sub_id grade feedback w =
       (Raise (NotFound "التسليم غير موجود"), w') ∧
     store w' = store w).
Proof.
  intros H p1 p2. split.
  - intros Hex Hwf. apply find_by_id_Some in Hex as (d & E & Hin & Hd).
    destruct (Hwf d Hin) as (h & Hr & [ho Hh]).
    destruct (grade_submission_run sub_id grade feedback o d h ho w H E Hr Hh)
      as (w' & Hrun & Hsent & Hs & Hhw).
    exists d, h, ho, w'. fold p1 p2 in Hrun, Hsent, Hs, Hhw.
    assert (Hm : matches [("_id", Is (VOid o))] (apply_set p1 d) = true)
      by (by apply matches_id_apply_set, matches_id).
    split_and!; try done; try (by apply field_apply_set).
    + rewrite Hs. by apply find_update_first.
    + intros Hex. apply find_by_id_Some in Hex as (hw & Eh & _ & Hid).
      exists hw. split_and!; try done; try (by apply field_apply_set).
      rewrite Hhw. apply find_update_first; [done|].
      by apply matches_id_apply_set, matches_id.
    + intros Hno. rewrite Hhw. apply update_first_none. by apply find_by_id_None.
  - intros Hno. unfold grade_submission.
    rewrite (bind_oid_valid _ _ _ _ H), bind_now.
    assert (E : List.find (matches [("_id", Is (VOid o))]) (docs "submission" (ticked w))
                = None) by (by apply find_by_id_None).
    rewrite (bind_ok _ _ _ _ _ (update_one_missing _ _ _ _ E)).
    rewrite decide_True by done. by eexists.
Qed.

(** ** Serialized documents *)

(** The serialized form has the identifier under ["id"], in string form, no
    ["_id"], and under every other key the field of the document, dates in
    ISO text. *)
Lemma serialize_lookup (d : document) (k : string) :
  k ≠ "id" → k ≠ "_id" →
  ∃ s, serialize (Some d) = Some s ∧
       s !! "id" = Some (VStr (str_ObjectId (_id d))) ∧
       s !! "_id" = None ∧
       s !! k = iso <$> field k d.
Proof.
  intros H1 H2. eexists. split; [reflexivity|]. rewrite !lookup_fmap.
  rewrite lookup_insert_eq, !lookup_insert_ne, lookup_delete_eq, lookup_delete_ne by done.
  unfold field. by rewrite decide_False.
Qed.

(** ** Deciding the hypotheses on a given store *)

Lemma has_id_b_true (o : ObjectId) (l : list document) :
  has_id_b o l = true → has_id o l.
Proof.
  unfold has_id_b. rewrite existsb_exists. intros (d & Hin & Hd).
  apply bool_decide_eq_true in Hd. exists d. by rewrite list_elem_of_In.
Qed.

Lemma has_id_b_false (o : ObjectId) (l : list document) :
  has_id_b o l = false → ¬ has_id o l.
Proof.
  intros Hb Hex. pose proof (existsb_id_fresh o l) as Hf.
  destruct Hex as (d & Hin & Hd).
  assert (has_id_b o l = true); [|congruence].
  unfold has_id_b. rewrite existsb_exists. exists d.
  split; [by apply list_elem_of_In | by apply bool_decide_eq_true].
Qed.

Lemma no_reference_b (k s : string) (l : list document) :
  forallb (keeps [(k, Is (VStr s))]) l = true → ∀ d, d ∈ l → ¬ refers k s d.
Proof.
  rewrite forallb_forall. intros H d Hin. apply keeps_refers, H.
  by apply list_elem_of_In.
Qed.

Lemma some_reference_b (k s : string) (l : list document) :
  existsb (matches [(k, Is (VStr s))]) l = true → ∃ d, d ∈ l ∧ refers k s d.
Proof.
  rewrite existsb_exists. intros (d & Hin & Hd). exists d.
  split; [by apply list_elem_of_In | by apply matches_refers].
Qed.

Lemma submissions_wf_b (l : list document) :
  forallb submission_wf_b l = true → submissions_wf l.
Proof.
  rewrite forallb_forall. intros H d Hin.
  apply list_elem_of_In, H in Hin. unfold submission_wf_b in Hin.
  destruct (field "homework_id" d) as [[| |h| | |]|] eqn:E; try discriminate.
  exists h. split; [exact E|]. by destruct (parse_ObjectId h).
Qed.



(** * The invariant of the store *)

(** ** Handlers that do not write *)

Lemma keeps_store_ret {A} (a : A) : keeps_store (mret a : M A).
Proof. done. Qed.

Lemma keeps_store_raise {A} (e : error) : keeps_store (raise e : M A).
Proof. done. Qed.

Lemma keeps_store_bind {A B} (m : M A) (k : A → M B) :
  keeps_store m → (∀ a, keeps_store (k a)) → keeps_store (m ≫= k).
Proof.
  intros Hm Hk w. specialize (Hm w). unfold mbind, M_bind.
  destruct (m w) as [[a|e] w1]; [|exact Hm].
  cbn [snd] in Hm. by rewrite Hk.
Qed.

Lemma keeps_store_now : keeps_store now.
Proof. done. Qed.

Lemma keeps_store_generate : keeps_store generate.
Proof. done. Qed.

Lemma keeps_store_ObjectId_of (x : value) : keeps_store (ObjectId_of x).
Proof.
  intros w. destruct x as [| |s| | |]; try done.
  unfold ObjectId_of. by destruct (parse_ObjectId s).
Qed.

Lemma keeps_store_oid (x : value) : keeps_store (oid x).
Proof.
  intros w. pose proof (keeps_store_ObjectId_of x w) as H. unfold oid.
  by destruct (ObjectId_of x w) as [[o|e] w1].
Qed.

Lemma keeps_store_find_one (c : string) (q : query) : keeps_store (find_one c q).
Proof. done. Qed.

Lemma keeps_store_find (c : string) (q : query) : keeps_store (find c q).
Proof. done. Qed.

Lemma keeps_store_find_ids (c : string) (q : query) : keeps_store (find_ids c q).
Proof. done. Qed.

Lemma keeps_store_subscript (doc : option document) (k : string) :
  keeps_store (subscript doc k).
Proof. intros w. unfold subscript. destruct doc as [d|]; [|done]. by destruct (field k d). Qed.

(** ** Handlers that only delete from a collection *)

Lemma sublist_filter_bool (p : document → bool) (l : list document) :
  List.filter p l `sublist_of` l.
Proof.
  induction l as [|x r IH]; [constructor|]. simpl.
  destruct (p x); by constructor.
Qed.

Lemma sublist_remove_first (p : document → bool) (l : list document) :
  remove_first p l `sublist_of` l.
Proof.
  induction l as [|x r IH]; [constructor|]. simpl.
  destruct (p x); by constructor.
Qed.

Lemma shrinks_keeps_store {A} (c : string) (m : M A) : keeps_store m → shrinks c m.
Proof. intros H w. unfold docs. by rewrite H. Qed.

Lemma shrinks_bind {A B} (c : string) (m : M A) (k : A → M B) :
  shrinks c m → (∀ a, shrinks c (k a)) → shrinks c (m ≫= k).
Proof.
  intros Hm Hk w. specialize (Hm w). unfold mbind, M_bind.
  destruct (m w) as [[a|e] w1]; [|exact Hm].
  cbn [snd] in Hm. etrans; [apply Hk | exact Hm].
Qed.

Lemma shrinks_delete_many (c c' : string) (q : query) : shrinks c' (delete_many c q).
Proof.
  intros w. change (delete_many c q w).2
    with (written c (List.filter (keeps q) (docs c w)) (logged (DeleteMany c q) w)).
  destruct (decide (c = c')) as [->|Hne].
  - rewrite docs_written_eq. apply sublist_filter_bool.
  - by rewrite docs_written_ne.
Qed.

Lemma shrinks_delete_one (c c' : string) (q : query) : shrinks c' (delete_one c q).
Proof.
  intros w. destruct (List.find (matches q) (docs c w)) as [d|] eqn:E.
  - rewrite (delete_one_found _ _ _ _ E). cbn [snd].
    destruct (decide (c = c')) as [->|Hne].
    + rewrite docs_written_eq. apply sublist_remove_first.
    + by rewrite docs_written_ne.
  - by rewrite (delete_one_missing _ _ _ E).
Qed.

Lemma shrinks_update_one (c c' : string) (q : query) (p : dict) :
  c ≠ c' → shrinks c' (update_one c q p).
Proof.
  intros Hne w. destruct (List.find (matches q) (docs c w)) as [d|] eqn:E.
  - rewrite (update_one_found _ _ _ _ _ E). cbn [snd]. by rewrite docs_written_ne.
  - by rewrite (update_one_missing _ _ _ _ E).
Qed.

Lemma insert_one_run (c : string) (d : dict) (w : World) :
  insert_one c d w =
    if has_id_b (new_ObjectId (draws w)) (docs c w)
    then (Raise (Uncaught "DuplicateKeyError"), logged (InsertOne c d) (drawn w))
    else (Ok (new_ObjectId (draws w)),
          written c (docs c w ++ [Document (new_ObjectId (draws w)) d])
            (logged (InsertOne c d) (drawn w))).
Proof.
  unfold insert_one, mbind, M_bind, generate, send, read. cbn beta iota.
  change (coll c _) with (docs c w). unfold has_id_b. by destruct (existsb _ _).
Qed.

Lemma shrinks_insert_one (c c' : string) (d : dict) :
  c ≠ c' → shrinks c' (insert_one c d).
Proof.
  intros Hne w. rewrite insert_one_run. destruct (has_id_b _ _); [done|].
  cbn [snd]. by rewrite docs_written_ne.
Qed.

Lemma shrinks_create_document (c c' : string) (d : dict) :
  c ≠ c' → shrinks c' (create_document c d).
Proof.
  intros Hne. unfold create_document.
  apply shrinks_bind; [apply shrinks_keeps_store, keeps_store_now|]. intros t.
  apply shrinks_bind; [by apply shrinks_insert_one|]. intros o.
  apply shrinks_keeps_store, keeps_store_ret.
Qed.

Lemma shrinks_for_each {A} (c : string) (xs : list A) (f : A → M unit) :
  (∀ x, shrinks c (f x)) → shrinks c (for_each xs f).
Proof.
  intros Hf. induction xs as [|x r IH]; [apply shrinks_keeps_store, keeps_store_ret|].
  cbn [for_each]. by apply shrinks_bind.
Qed.

Create HintDb store.
#[local] Hint Resolve keeps_store_ret keeps_store_raise keeps_store_now
  keeps_store_generate keeps_store_ObjectId_of keeps_store_oid keeps_store_find_one
  keeps_store_find keeps_store_find_ids keeps_store_subscript : store.

(** One step of the analysis of a handler that only deletes from [c]. *)
Ltac shrink_step :=
  match goal with
  | |- shrinks _ (for_each _ _) => apply shrinks_for_each; intros ?
  | |- shrinks _ (delete_many _ _) => apply shrinks_delete_many
  | |- shrinks _ (delete_one _ _) => apply shrinks_delete_one
  | |- shrinks _ (update_one _ _ _) => apply shrinks_update_one; discriminate
  | |- shrinks _ (create_document _ _) => apply shrinks_create_document; discriminate
  | |- shrinks _ (_ ≫= _) => apply shrinks_bind; [|intros ?]
  | |- shrinks _ (match ?x with _ => _ end) => destruct x
  | |- shrinks _ _ => apply shrinks_keeps_store; solve [auto with store]
  end.
Ltac shrink := repeat shrink_step.

Ltac shrink_handler :=
  unfold login, list_students, add_student, update_student, delete_student,
    list_lessons, add_lesson, update_lesson, delete_lesson, list_homework,
    add_homework, update_homework, delete_homework, list_submissions,
    submit_homework, grade_submission, list_messages, send_message, mark_read;
  shrink.

(** Every request but the two that write students leaves only students that
    were there. *)
Lemma serve_shrinks_student (r : request) (w : World) :
  writes_students r = false →
  docs "student" (serve r w) `sublist_of` docs "student" w.
Proof.
  destruct r; try discriminate; intros _; cbn [serve];
    match goal with
    | |- docs _ (?m w).2 `sublist_of` _ =>
        assert (shrinks "student" m) as H; [shrink_handler | apply H]
    end.
Qed.

(** Every request but the two that write submissions leaves only submissions
    that were there. *)
Lemma serve_shrinks_submission (r : request) (w : World) :
  writes_submissions r = false →
  docs "submission" (serve r w) `sublist_of` docs "submission" w.
Proof.
  destruct r; try discriminate; intros _; cbn [serve];
    match goal with
    | |- docs _ (?m w).2 `sublist_of` _ =>
        assert (shrinks "submission" m) as H; [shrink_handler | apply H]
    end.
Qed.

(** ** Handlers that insert or update *)

Lemma triple_weaken {A} (c : string) (P P' Q Q' : list document → Prop) (m : M A) :
  (∀ l, P' l → P l) → (∀ l, Q l → Q' l) → triple c P Q m → triple c P' Q' m.
Proof. intros HP HQ H w Hw. apply HQ, H, HP, Hw. Qed.

Lemma triple_shrinks {A} (c : string) (I : list document → Prop) (m : M A) :
  (∀ l l', l' `sublist_of` l → I l → I l') → shrinks c m → triple c I I m.
Proof. intros HI H w Hw. exact (HI _ _ (H w) Hw). Qed.

Lemma triple_bind {A B} (c : string) (P R Q : list document → Prop)
    (m : M A) (k : A → M B) :
  (∀ l, R l → Q l) → triple c P R m → (∀ a, triple c R Q (k a)) →
  triple c P Q (m ≫= k).
Proof.
  intros HRQ Hm Hk w Hw. specialize (Hm w Hw). unfold mbind, M_bind.
  destruct (m w) as [[a|e] w1]; cbn [snd] in *; [by apply Hk | by apply HRQ].
Qed.

Lemma triple_keeps_store {A} (c : string) (P : list document → Prop) (m : M A) :
  keeps_store m → triple c P P m.
Proof. intros H w Hw. unfold docs. by rewrite H. Qed.

(** What a lookup found is known to the rest of the handler. *)
Lemma triple_bind_find_one {B} (c : string) (P Q : list document → Prop)
    (q : query) (k : option document → M B) :
  (∀ r, triple c (λ l, P l ∧ List.find (matches q) l = r) Q (k r)) →
  triple c P Q (find_one c q ≫= k).
Proof. intros Hk w Hw. rewrite bind_find_one. by apply Hk. Qed.

(** So is the fact that the identifier was parsed. *)
Lemma triple_bind_oid {B} (c : string) (P Q : list document → Prop)
    (s : string) (k : ObjectId → M B) :
  (∀ l, P l → Q l) →
  (∀ o, parse_ObjectId s = Some o → triple c P Q (k o)) →
  triple c P Q (oid (VStr s) ≫= k).
Proof.
  intros HPQ Hk w Hw. destruct (parse_ObjectId s) as [o|] eqn:E.
  - rewrite (bind_oid_valid _ _ _ _ E). by apply (Hk o).
  - rewrite (bind_oid_invalid _ _ _ E). by apply HPQ.
Qed.

(** *** Submissions *)

Lemma submissions_wf_sublist (l l' : list document) :
  l' `sublist_of` l → submissions_wf l → submissions_wf l'.
Proof. intros Hs H d Hd. apply H. by eapply elem_of_sublist. Qed.

Lemma submissions_wf_app (l : list document) (d : document) (h : string) :
  submissions_wf l → refers "homework_id" h d → is_Some (parse_ObjectId h) →
  submissions_wf (l ++ [d]).
Proof.
  intros H Hr Hp e He. apply elem_of_app in He as [He|He]; [by apply H|].
  apply list_elem_of_singleton in He as ->. by exists h.
Qed.

Lemma elem_of_update_first (p : document → bool) (f : document → document)
    (l : list document) (e : document) :
  e ∈ update_first p f l → e ∈ l ∨ ∃ d, d ∈ l ∧ p d = true ∧ e = f d.
Proof.
  induction l as [|x r IH]; [by left|]. cbn [update_first].
  destruct (p x) eqn:Hx; intros He; apply elem_of_cons in He as [->|He].
  - right. exists x. split_and!; [apply list_elem_of_here|done..].
  - left. by apply list_elem_of_further.
  - left. apply list_elem_of_here.
  - destruct (IH He) as [Hin|(d & Hin & Hd & ->)].
    + left. by apply list_elem_of_further.
    + right. exists d. split_and!; [by apply list_elem_of_further|done..].
Qed.

Lemma triple_insert_submission (d : dict) (h : string) :
  d !! "homework_id" = Some (VStr h) → is_Some (parse_ObjectId h) →
  triple "submission" submissions_wf submissions_wf (insert_one "submission" d).
Proof.
  intros Hd Hp w Hw. rewrite insert_one_run. destruct (has_id_b _ _); [done|].
  cbn [snd]. rewrite docs_written_eq. by eapply submissions_wf_app.
Qed.

Lemma triple_update_submission (q : query) (p : dict) :
  p !! "homework_id" = None →
  triple "submission" submissions_wf submissions_wf (update_one "submission" q p).
Proof.
  intros Hp w Hw. destruct (List.find (matches q) (docs "submission" w)) as [d|] eqn:E.
  - rewrite (update_one_found _ _ _ _ _ E). cbn [snd]. rewrite docs_written_eq.
    intros e He. apply elem_of_update_first in He as [He|(x & Hx & _ & ->)]; [by apply Hw|].
    destruct (Hw x Hx) as (h & Hr & Hh). exists h. split; [|done].
    unfold refers. by rewrite field_apply_set_other.
  - by rewrite (update_one_missing _ _ _ _ E).
Qed.

(** [submit_homework] adds a submission that names the homework by the
    string it has just parsed. *)
Lemma submit_homework_wf (hw_id student_id : string) (file_url : option string) :
  triple "submission" submissions_wf submissions_wf
    (submit_homework hw_id student_id file_url).
Proof.
  unfold submit_homework. apply triple_bind_oid; [done|]. intros o Ho.
  apply (triple_bind _ _ submissions_wf); [done|by apply triple_keeps_store|].
  intros [hw|]; [|by apply triple_keeps_store].
  apply (triple_bind _ _ submissions_wf); [done|by apply triple_keeps_store|].
  intros t. apply (triple_bind _ _ submissions_wf); [done| |].
  - unfold create_document.
    apply (triple_bind _ _ submissions_wf); [done|by apply triple_keeps_store|].
    intros t'. apply (triple_bind _ _ submissions_wf); [done| |].
    + by apply (triple_insert_submission _ hw_id).
    + intros i. by apply triple_keeps_store.
  - intros inserted_id. apply triple_shrinks; [apply submissions_wf_sublist|].
    shrink.
Qed.

(** [grade_submission] does not touch the [homework_id] of the submission. *)
Lemma grade_submission_wf (sub_id : string) (grade : float) (feedback : option string) :
  triple "submission" submissions_wf submissions_wf
    (grade_submission sub_id grade feedback).
Proof.
  unfold grade_submission. apply triple_bind_oid; [done|]. intros o Ho.
  apply (triple_bind _ _ submissions_wf); [done|by apply triple_keeps_store|].
  intros t. apply (triple_bind _ _ submissions_wf); [done| |].
  - by apply triple_update_submission.
  - intros n. apply triple_shrinks; [apply submissions_wf_sublist|]. shrink.
Qed.

(** *** Students *)

Lemma students_ok_sublist (l l' : list document) :
  l' `sublist_of` l → students_ok l → students_ok l'.
Proof.
  intros Hs [Hc Hi]. split.
  - exact (sublist_NoDup _ _ Hc (fmap_sublist (field "code") _ _ Hs)).
  - exact (sublist_NoDup _ _ Hi (fmap_sublist _id _ _ Hs)).
Qed.

Lemma ids_update_first (p : document → bool) (pt : dict) (l : list document) :
  _id <$> update_first p (apply_set pt) l = _id <$> l.
Proof.
  induction l as [|x r IH]; [reflexivity|]. cbn [update_first].
  destruct (p x); [reflexivity|]. by rewrite !fmap_cons, IH.
Qed.

Lemma codes_update_first (o : ObjectId) (pt : dict) (c : string) (l : list document) :
  pt !! "code" = Some (VStr c) →
  unique_ids l → unique_codes l →
  (∀ e, e ∈ l → refers "code" c e → _id e = o) →
  unique_codes (update_first (matches [("_id", Is (VOid o))]) (apply_set pt) l).
Proof.
  intros Hpt. unfold unique_ids, unique_codes.
  induction l as [|x r IH]; intros Hi Hc Hown; [constructor|].
  rewrite !fmap_cons in *. apply NoDup_cons in Hi as [Hix Hi].
  apply NoDup_cons in Hc as [Hcx Hc]. cbn [update_first].
  destruct (matches _ x) eqn:Hx.
  - apply matches_id in Hx. rewrite fmap_cons. apply NoDup_cons. split; [|done].
    rewrite (field_apply_set "code" (VStr c)) by done.
    intros Hin. apply list_elem_of_fmap in Hin as (e & He & Hin).
    apply Hix. apply list_elem_of_fmap. exists e. split; [|done].
    rewrite Hx. symmetry. apply Hown; [by apply list_elem_of_further | done].
  - rewrite fmap_cons. apply NoDup_cons. split.
    + intros Hin. apply list_elem_of_fmap in Hin as (e & He & Hin).
      apply elem_of_update_first in Hin as [Hin|(d & Hd & _ & ->)].
      * apply Hcx. apply list_elem_of_fmap. by exists e.
      * rewrite (field_apply_set "code" (VStr c)) in He by done.
        apply not_true_iff_false in Hx. apply Hx, matches_id.
        apply Hown; [apply list_elem_of_here | done].
    + apply IH; [done..|]. intros e He. apply Hown. by apply list_elem_of_further.
Qed.

Lemma triple_insert_student (d : dict) (c : string) :
  d !! "code" = Some (VStr c) →
  triple "student"
    (λ l, students_ok l ∧ List.find (matches [("code", Is (VStr c))]) l = None)
    students_ok (insert_one "student" d).
Proof.
  intros Hd w [[Hc Hi] Hnone]. rewrite insert_one_run.
  destruct (has_id_b _ _) eqn:Hb; [done|]. cbn [snd]. rewrite docs_written_eq.
  apply has_id_b_false in Hb. unfold students_ok, unique_codes, unique_ids.
  rewrite !fmap_app. split; apply NoDup_app; (split; [done|]);
    (split; [|apply NoDup_singleton]); intros x Hx Hx';
    apply list_elem_of_singleton in Hx'; subst x;
    apply list_elem_of_fmap in Hx as (e & He & Hin).
  - apply list_elem_of_In in Hin. pose proof (find_none _ _ Hnone e Hin) as Hf.
    apply not_true_iff_false in Hf. apply Hf, matches_refers. unfold refers.
    rewrite <- He. unfold field. by rewrite decide_False.
  - apply Hb. by exists e.
Qed.

Lemma triple_update_student (o : ObjectId) (pt : dict) (c : string) :
  pt !! "code" = Some (VStr c) →
  triple "student"
    (λ l, students_ok l ∧
          List.find (matches [("code", Is (VStr c)); ("_id", Ne (VOid o))]) l = None)
    students_ok (update_one "student" [("_id", Is (VOid o))] pt).
Proof.
  intros Hpt w [[Hc Hi] Hnone].
  destruct (List.find (matches [("_id", Is (VOid o))]) (docs "student" w)) as [d|] eqn:E.
  - rewrite (update_one_found _ _ _ _ _ E). cbn [snd]. rewrite docs_written_eq. split.
    + apply (codes_update_first o pt c); [done..|]. intros e He Hr.
      destruct (decide (_id e = o)) as [|Hne]; [done|]. exfalso.
      apply list_elem_of_In in He. pose proof (find_none _ _ Hnone e He) as Hf.
      apply not_true_iff_false in Hf. apply Hf, matches_code_other. done.
    + unfold unique_ids. by rewrite ids_update_first.
  - rewrite (update_one_missing _ _ _ _ E). done.
Qed.

(** [add_student] inserts only a code it has looked up and not found. *)
Lemma add_student_ok (st : StudentSchema.t) :
  triple "student" students_ok students_ok (add_student st).
Proof.
  unfold add_student. apply triple_bind_find_one. intros [d|].
  - intros w [Hw _]. exact Hw.
  - set (P := λ l, students_ok l ∧ List.find _ l = None).
    apply (triple_bind _ _ students_ok); [done| |].
    + unfold create_document.
      apply (triple_bind _ _ P); [by intros l [? ?]|by apply triple_keeps_store|].
      intros t. apply (triple_bind _ _ students_ok); [done| |].
      * by apply (triple_insert_student _ (StudentSchema.code st)).
      * intros i. by apply triple_keeps_store.
    + intros inserted_id. apply triple_shrinks; [apply students_ok_sublist|]. shrink.
Qed.

(** [update_student] writes only a code no other student holds. *)
Lemma update_student_ok (student_id : string) (data : StudentSchema.t) :
  triple "student" students_ok students_ok (update_student student_id data).
Proof.
  unfold update_student. apply triple_bind_oid; [done|]. intros o Ho.
  apply triple_bind_find_one. intros [d|].
  - intros w [Hw _]. exact Hw.
  - set (P := λ l, students_ok l ∧ List.find _ l = None).
    apply triple_bind_oid; [by intros l [? ?]|]. intros o' Ho'.
    assert (o' = o) as -> by congruence.
    apply (triple_bind _ _ P); [by intros l [? ?]|by apply triple_keeps_store|].
    intros t. apply (triple_bind _ _ students_ok); [done| |].
    + by apply (triple_update_student o _ (StudentSchema.code data)).
    + intros n. apply triple_shrinks; [apply students_ok_sublist|]. shrink.
Qed.

(** ** Every request maintains the invariant *)

Theorem serve_maintains (r : request) (w : World) :
  store_inv w → store_inv (serve r w).
Proof.
  intros [Hsub Hstu]. split.
  - destruct (writes_submissions r) eqn:E.
    + destruct r; try discriminate; cbn [serve].
      * by apply submit_homework_wf.
      * by apply grade_submission_wf.
    + exact (submissions_wf_sublist _ _ (serve_shrinks_submission r w E) Hsub).
  - destruct (writes_students r) eqn:E.
    + destruct r; try discriminate; cbn [serve].
      * by apply add_student_ok.
      * by apply update_student_ok.
    + exact (students_ok_sublist _ _ (serve_shrinks_student r w E) Hstu).
Qed.

(** X19: every store that the handlers build from the empty database, by
    any sequence of requests, satisfies the invariant: each submission names
    its homework by a parsable identifier string, no two students share a
    code, and no two students share an identifier. *)
Theorem reachable_store_inv (w : World) : reachable w → store_inv w.
Proof.
  induction 1 as [|r w _ IH]; [|by apply serve_maintains].
  split; [|split]; try constructor. intros d Hd. by apply elem_of_nil in Hd.
Qed.


(** * Further properties of the handlers *)

(** ** Identifiers and serialized documents *)

(** X1: the ["id"] of a serialized document, given back to [oid], is the
    identifier of that document: the identifiers the API hands out are the
    ones it accepts, and parsing them sends nothing to the store. *)
Theorem serialized_id_resolves (d : document) :
  length (_id d) = 12 →
  ∃ s i, serialize (Some d) = Some s ∧ s !! "id" = Some (VStr i) ∧
         String.length i = 24 ∧
         ∀ w, oid (VStr i) w = (Ok (_id d), w).
Proof.
  intros Hlen. destruct (serialize_lookup d "code") as (s & Hs & Hid & _); [done..|].
  exists s, (str_ObjectId (_id d)). split_and!; try done.
  - unfold str_ObjectId. by rewrite length_hexlify, Hlen.
  - intros w. apply oid_valid. by apply parse_str_ObjectId.
Qed.

(** X3: a serialized document has the string form of the identifier under
    ["id"], no ["_id"], no date left among its values, and under every other
    key what the document has there, dates as ISO text; keys the document
    does not have are absent. *)
Theorem serialize_shape (d : document) :
  ∃ s, serialize (Some d) = Some s ∧
    s !! "id" = Some (VStr (str_ObjectId (_id d))) ∧
    s !! "_id" = None ∧
    (∀ k v, s !! k = Some v → ∀ t, v ≠ VDate t) ∧
    (∀ k, k ≠ "id" → k ≠ "_id" → s !! k = iso <$> body d !! k).
Proof.
  eexists. split; [reflexivity|]. split_and!.
  - by rewrite lookup_fmap, lookup_insert_eq.
  - by rewrite lookup_fmap, lookup_insert_ne, lookup_delete_eq.
  - intros k v Hk t ->. rewrite lookup_fmap in Hk.
    destruct (_ !! k) as [[]|]; discriminate.
  - intros k H1 H2.
    by rewrite lookup_fmap, lookup_insert_ne, lookup_delete_ne.
Qed.

(** ** The list handlers *)

Lemma insert_sorted_Permutation (keys : list (string * bool)) (d : document)
    (l : list document) :
  insert_sorted keys d l ≡ₚ d :: l.
Proof.
  induction l as [|x r IH]; [reflexivity|]. cbn [insert_sorted].
  destruct (keys_compare keys d x); try reflexivity.
  rewrite IH. apply Permutation_swap.
Qed.

Lemma sort_Permutation (keys : list (string * bool)) (l : list document) :
  sort keys l ≡ₚ l.
Proof.
  induction l as [|x r IH]; [reflexivity|]. cbn [sort foldr].
  rewrite insert_sorted_Permutation. by apply Permutation_skip.
Qed.

Lemma matches_by_key (k : string) (o : option string) (d : document) :
  matches (by_key k o) d = true ↔ wanted k o d.
Proof.
  destruct o as [[|c s]|]; cbn [by_key truthy wanted]; try (split; [auto|done]).
  rewrite matches_refers. split; [auto|]. by intros [|].
Qed.

Lemma listing_Permutation (keys : list (string * bool)) (p : document → bool)
    (l : list document) :
  map (λ d, serialize (Some d)) (sort keys (List.filter p l))
  ≡ₚ map (λ d, serialize (Some d)) (List.filter p l).
Proof. apply Permutation_map, sort_Permutation. Qed.

(** X4: [list_lessons], [list_homework] and [list_submissions] send one
    [Find], write nothing, and return, each once, the serialized documents
    that satisfy the filters given; a filter that is absent or the empty
    string selects every document. *)
Theorem list_filters_content (student_id homework_id : option string) (w : World) :
  let qs := by_key "student_id" student_id in
  let qh := by_key "homework_id" homework_id in
  ∃ lessons hws subs,
    list_lessons student_id w = (Ok lessons, logged (Find "lesson" qs) w) ∧
    list_homework student_id w = (Ok hws, logged (Find "homework" qs) w) ∧
    list_submissions student_id homework_id w
      = (Ok subs, logged (Find "submission" (qs ++ qh)) w) ∧
    lessons ≡ₚ map (λ d, serialize (Some d)) (List.filter (matches qs) (docs "lesson" w)) ∧
    hws ≡ₚ map (λ d, serialize (Some d)) (List.filter (matches qs) (docs "homework" w)) ∧
    subs ≡ₚ map (λ d, serialize (Some d))
              (List.filter (matches (qs ++ qh)) (docs "submission" w)) ∧
    (∀ d, matches qs d = true ↔ wanted "student_id" student_id d) ∧
    (∀ d, matches (qs ++ qh) d = true ↔
          wanted "student_id" student_id d ∧ wanted "homework_id" homework_id d).
Proof.
  intros qs qh. eexists _, _, _. split_and!; try reflexivity.
  - apply listing_Permutation.
  - apply listing_Permutation.
  - apply listing_Permutation.
  - intros d. apply matches_by_key.
  - intros d. unfold qs, qh. by rewrite matches_app, andb_true_iff, !matches_by_key.
Qed.

(** X5: [list_students] returns every student and [list_messages] the
    messages whose [student_id] is the given string, the empty string
    included: each once, serialized, after one [Find] and no write. *)
Theorem list_all_content (student_id : string) (w : World) :
  ∃ students msgs,
    list_students w = (Ok students, logged (Find "student" []) w) ∧
    list_messages student_id w
      = (Ok msgs, logged (Find "message" [("student_id", Is (VStr student_id))]) w) ∧
    students ≡ₚ map (λ d, serialize (Some d)) (docs "student" w) ∧
    msgs ≡ₚ map (λ d, serialize (Some d))
              (List.filter (matches [("student_id", Is (VStr student_id))])
                 (docs "message" w)) ∧
    (∀ d, matches [("student_id", Is (VStr student_id))] d = true ↔
          refers "student_id" student_id d).
Proof.
  eexists _, _. split_and!; try reflexivity.
  - etrans; [apply (listing_Permutation _ (matches []))|].
    by rewrite filter_all.
  - apply listing_Permutation.
  - intros d. apply matches_refers.
Qed.

(** ** Creating lessons, homeworks and messages *)

(** The pattern of the creating handlers: insert through [create_document],
    parse the identifier it returns, fetch the stored document, serialize. *)
Lemma insert_and_fetch (c : string) (data : dict) (w : World) :
  let n := new_ObjectId (draws w) in
  let new := Document n (<["created_at" := VDate (utcnow (ticks w))]> data) in
  ¬ has_id n (docs c w) → length n = 12 →
  (create_document c data ≫= λ inserted_id,
   ObjectId_of (VStr inserted_id) ≫= λ i,
   find_one c [("_id", Is (VOid i))] ≫= λ saved,
   mret (serialize saved)) w
  = (Ok (serialize (Some new)),
     logged (FindOne c [("_id", Is (VOid n))])
       (written c (docs c w ++ [new])
          (logged (InsertOne c (body new)) (drawn (ticked w))))).
Proof.
  intros n new Hfresh Hlen.
  rewrite (bind_ok _ _ _ _ _ (create_document_fresh c data w Hfresh)).
  rewrite (bind_ObjectId_of_str _ _ _ Hlen), bind_find_one.
  autorewrite with world.
  pose proof (find_app_fresh n (body new) _ Hfresh) as Hfind.
  unfold n, new in *. cbn [body] in Hfind. by rewrite Hfind.
Qed.

(** X6: [add_lesson] stores the lesson as given, for whatever string is its
    [student_id]: it sends an insert and a lookup to the lesson collection
    only, appends exactly one document and returns it serialized. *)
Theorem add_lesson_stores_unchecked (lesson : LessonSchema.t) (w : World) :
  let n := new_ObjectId (draws w) in
  let new := Document n (<["created_at" := VDate (utcnow (ticks w))]>
                           (LessonSchema.model_dump lesson)) in
  ¬ has_id n (docs "lesson" w) → length n = 12 →
  ∃ w',
    add_lesson lesson w = (Ok (serialize (Some new)), w') ∧
    sent w w' [InsertOne "lesson" (body new); FindOne "lesson" [("_id", Is (VOid n))]] ∧
    docs "lesson" w' = docs "lesson" w ++ [new] ∧
    field "student_id" new = Some (VStr (LessonSchema.student_id lesson)) ∧
    (∀ c, c ≠ "lesson" → docs c w' = docs c w).
Proof.
  intros n new Hfresh Hlen. eexists. split.
  - unfold add_lesson. by apply insert_and_fetch.
  - unfold sent. autorewrite with world. split_and!; try done.
    + by rewrite <- app_assoc.
    + intros c Hc. by autorewrite with world.
Qed.

(** X7: [add_homework] stores the homework as given, with the status of the
    input and whatever strings are its [student_id] and [lesson_id]: one
    document appended to the homework collection, no other collection
    addressed. *)
Theorem add_homework_stores_unchecked (hw : HomeworkSchema.t) (w : World) :
  let n := new_ObjectId (draws w) in
  let new := Document n (<["created_at" := VDate (utcnow (ticks w))]>
                           (HomeworkSchema.model_dump hw)) in
  ¬ has_id n (docs "homework" w) → length n = 12 →
  ∃ w',
    add_homework hw w = (Ok (serialize (Some new)), w') ∧
    sent w w' [InsertOne "homework" (body new); FindOne "homework" [("_id", Is (VOid n))]] ∧
    docs "homework" w' = docs "homework" w ++ [new] ∧
    field "student_id" new = Some (VStr (HomeworkSchema.student_id hw)) ∧
    field "lesson_id" new = Some (opt_str (HomeworkSchema.lesson_id hw)) ∧
    field "status" new
      = Some (VStr (HomeworkSchema.Status_str (HomeworkSchema.status hw))) ∧
    (∀ c, c ≠ "homework" → docs c w' = docs c w).
Proof.
  intros n new Hfresh Hlen. eexists. split.
  - unfold add_homework. by apply insert_and_fetch.
  - unfold sent. autorewrite with world. split_and!; try done.
    + by rewrite <- app_assoc.
    + intros c Hc. by autorewrite with world.
Qed.

(** X8: [send_message] stores the message unread, for whatever string is its
    [student_id]; listing the messages of that string afterwards returns
    the message just sent, and one message more than before. *)
Theorem send_message_then_listed (student_id : string) (sender : Role)
    (text : string) (w : World) :
  let n := new_ObjectId (draws w) in
  let new := Document n (<["created_at" := VDate (utcnow (ticks w))]>
               (MessageSchema.model_dump
                  (MessageSchema.Make student_id sender text false))) in
  ¬ has_id n (docs "message" w) → length n = 12 →
  ∃ w' before after,
    send_message student_id sender text w = (Ok (serialize (Some new)), w') ∧
    docs "message" w' = docs "message" w ++ [new] ∧
    field "read" new = Some (VBool false) ∧
    field "student_id" new = Some (VStr student_id) ∧
    (∀ c, c ≠ "message" → docs c w' = docs c w) ∧
    (list_messages student_id w).1 = Ok before ∧
    (list_messages student_id w').1 = Ok after ∧
    serialize (Some new) ∈ after ∧
    length after = S (length before).
Proof.
  intros n new Hfresh Hlen.
  set (q := [("student_id", Is (VStr student_id))]).
  set (keys := [("created_at", true)]).
  set (w' := logged (FindOne "message" [("_id", Is (VOid n))])
               (written "message" (docs "message" w ++ [new])
                  (logged (InsertOne "message" (body new)) (drawn (ticked w))))).
  assert (Hdocs : docs "message" w' = docs "message" w ++ [new])
    by (unfold w'; by autorewrite with world).
  assert (Hm : matches q new = true) by (by apply matches_refers).
  exists w', (map (λ m, serialize (Some m)) (sort keys (List.filter (matches q) (docs "message" w)))),
    (map (λ m, serialize (Some m))
       (sort keys (List.filter (matches q) (docs "message" w ++ [new])))).
  split_and!.
  - unfold send_message. by apply insert_and_fetch.
  - exact Hdocs.
  - done.
  - done.
  - intros c Hc. unfold w'. by autorewrite with world.
  - reflexivity.
  - unfold list_messages. rewrite bind_find. fold q. by rewrite Hdocs.
  - apply list_elem_of_In, (in_map (λ m, serialize (Some m))). apply list_elem_of_In.
    rewrite sort_Permutation. apply elem_of_filter_bool. split; [|done].
    apply elem_of_app. right. apply list_elem_of_here.
  - rewrite !length_map, !(Permutation_length (sort_Permutation _ _)).
    rewrite List.filter_app, length_app. cbn [List.filter]. rewrite Hm.
    cbn [length]. lia.
Qed.

(** ** Updating and deleting lessons, homeworks and messages *)

(** The pattern of the updating handlers: parse, [$set] the dump of the input
    and [updated_at] on the document of that identifier, fail with the 404
    when nothing matched, otherwise fetch and serialize. *)
Lemma update_and_fetch (c id detail : string) (o : ObjectId) (data : dict) (w : World) :
  parse_ObjectId id = Some o →
  let idq := [("_id", Is (VOid o))] in
  let patch := <["updated_at" := VDate (utcnow (ticks w))]> data in
  (oid (VStr id) ≫= λ i, now ≫= λ t,
   update_one c [("_id", Is (VOid i))] (<["updated_at" := VDate t]> data) ≫= λ matched_count,
   if decide (matched_count = 0) then raise (NotFound detail)
   else oid (VStr id) ≫= λ i, find_one c [("_id", Is (VOid i))] ≫= λ saved,
        mret (serialize saved)) w
  = match List.find (matches idq) (docs c w) with
    | Some d =>
        (Ok (serialize (Some (apply_set patch d))),
         logged (FindOne c idq)
           (written c (update_first (matches idq) (apply_set patch) (docs c w))
              (logged (UpdateOne c idq patch) (ticked w))))
    | None => (Raise (NotFound detail), logged (UpdateOne c idq patch) (ticked w))
    end.
Proof.
  intros H idq patch. rewrite (bind_oid_valid _ _ _ _ H), bind_now. fold idq patch.
  destruct (List.find (matches idq) (docs c w)) as [d|] eqn:E.
  - assert (E1 : List.find (matches idq) (docs c (ticked w)) = Some d) by exact E.
    rewrite (bind_ok _ _ _ _ _ (update_one_found _ _ patch _ _ E1)).
    rewrite decide_False by done.
    rewrite (bind_oid_valid _ _ _ _ H), bind_find_one. autorewrite with world.
    rewrite (find_update_first _ _ _ d)
      by (try done; by apply matches_id_apply_set, (proj2 (find_Some_elem _ _ _ E))).
    reflexivity.
  - assert (E1 : List.find (matches idq) (docs c (ticked w)) = None) by exact E.
    rewrite (bind_ok _ _ _ _ _ (update_one_missing _ _ patch _ E1)).
    by rewrite decide_True.
Qed.

Lemma length_remove_first (p : document → bool) (l : list document) (d : document) :
  List.find p l = Some d → S (length (remove_first p l)) = length l.
Proof.
  induction l as [|x r IH]; [discriminate|]. cbn [List.find remove_first].
  destruct (p x); [done|]. intros H. cbn [length]. by rewrite IH.
Qed.

(** X9: [update_lesson] on the identifier of an existing lesson replaces the
    fields of the schema by those of the input and stamps [updated_at]; the
    identifier and [created_at] stay, no other collection is written, and
    the updated lesson is returned; on an identifier of no lesson it fails
    with the 404 and the store is as before. *)
Theorem update_lesson_replaces_fields (lesson_id : string) (o : ObjectId)
    (data : LessonSchema.t) (w : World) :
  parse_ObjectId lesson_id = Some o →
  let idq := [("_id", Is (VOid o))] in
  let patch := <["updated_at" := VDate (utcnow (ticks w))]> (LessonSchema.model_dump data) in
  (has_id o (docs "lesson" w) →
   ∃ d w',
     List.find (matches idq) (docs "lesson" w) = Some d ∧
     update_lesson lesson_id data w = (Ok (serialize (Some (apply_set patch d))), w') ∧
     sent w w' [UpdateOne "lesson" idq patch; FindOne "lesson" idq] ∧
     docs "lesson" w' = update_first (matches idq) (apply_set patch) (docs "lesson" w) ∧
     _id (apply_set patch d) = o ∧
     field "created_at" (apply_set patch d) = field "created_at" d ∧
     field "updated_at" (apply_set patch d) = Some (VDate (utcnow (ticks w))) ∧
     (∀ k v, LessonSchema.model_dump data !! k = Some v →
             field k (apply_set patch d) = Some v) ∧
     (∀ c, c ≠ "lesson" → docs c w' = docs c w)) ∧
  (¬ has_id o (docs "lesson" w) →
   ∃ w', update_lesson lesson_id data w = (Raise (NotFound "الدرس غير موجود"), w') ∧
         store w' = store w).
Proof.
  intros H idq patch.
  pose proof (update_and_fetch "lesson" lesson_id "الدرس غير موجود" o
                (LessonSchema.model_dump data) w H) as R.
  cbv zeta in R. fold idq patch in R. split.
  - intros Hex. apply find_by_id_Some in Hex as (d & E & Hin & Hd).
    fold idq in E. rewrite E in R. exists d. eexists. split; [done|].
    split; [exact R|]. unfold sent. autorewrite with world. split_and!; try done.
    + by rewrite <- app_assoc.
    + by apply field_apply_set_other.
    + by apply field_apply_set.
    + intros k v Hk. assert (k ≠ "_id") by (by intros ->).
      assert (k ≠ "updated_at") by (by intros ->).
      apply field_apply_set; [done|]. unfold patch. by rewrite lookup_insert_ne.
    + intros c Hc. by autorewrite with world.
  - intros Hno. apply find_by_id_None in Hno. fold idq in Hno. rewrite Hno in R.
    by eexists.
Qed.

(** X10: [update_homework] does the same on homeworks; in particular the
    status becomes the status of the input, whatever it was and whatever
    submissions exist, and the submissions are left as they are. *)
Theorem update_homework_replaces_fields (hw_id : string) (o : ObjectId)
    (data : HomeworkSchema.t) (w : World) :
  parse_ObjectId hw_id = Some o →
  let idq := [("_id", Is (VOid o))] in
  let patch := <["updated_at" := VDate (utcnow (ticks w))]> (HomeworkSchema.model_dump data) in
  (has_id o (docs "homework" w) →
   ∃ d w',
     List.find (matches idq) (docs "homework" w) = Some d ∧
     update_homework hw_id data w = (Ok (serialize (Some (apply_set patch d))), w') ∧
     sent w w' [UpdateOne "homework" idq patch; FindOne "homework" idq] ∧
     docs "homework" w' = update_first (matches idq) (apply_set patch) (docs "homework" w) ∧
     _id (apply_set patch d) = o ∧
     field "created_at" (apply_set patch d) = field "created_at" d ∧
     field "status" (apply_set patch d)
       = Some (VStr (HomeworkSchema.Status_str (HomeworkSchema.status data))) ∧
     (∀ k v, HomeworkSchema.model_dump data !! k = Some v →
             field k (apply_set patch d) = Some v) ∧
     docs "submission" w' = docs "submission" w ∧
     (∀ c, c ≠ "homework" → docs c w' = docs c w)) ∧
  (¬ has_id o (docs "homework" w) →
   ∃ w', update_homework hw_id data w = (Raise (NotFound "الواجب غير موجود"), w') ∧
         store w' = store w).
Proof.
  intros H idq patch.
  pose proof (update_and_fetch "homework" hw_id "الواجب غير موجود" o
                (HomeworkSchema.model_dump data) w H) as R.
  cbv zeta in R. fold idq patch in R. split.
  - intros Hex. apply find_by_id_Some in Hex as (d & E & Hin & Hd).
    fold idq in E. rewrite E in R. exists d. eexists. split; [done|].
    split; [exact R|]. unfold sent. autorewrite with world.
    assert (Hall : ∀ k v, HomeworkSchema.model_dump data !! k = Some v →
                     field k (apply_set patch d) = Some v).
    { intros k v Hk. assert (k ≠ "_id") by (by intros ->).
      assert (k ≠ "updated_at") by (by intros ->).
      apply field_apply_set; [done|]. unfold patch. by rewrite lookup_insert_ne. }
    split_and!; try done.
    + by rewrite <- app_assoc.
    + by apply field_apply_set_other.
    + by apply Hall.
    + intros c Hc. by autorewrite with world.
  - intros Hno. apply find_by_id_None in Hno. fold idq in Hno. rewrite Hno in R.
    by eexists.
Qed.

(** X11: [delete_lesson] on the identifier of an existing lesson removes one
    lesson, the first of that identifier, and nothing else: no other
    collection is written, so a homework that names the lesson keeps doing
    so; on an identifier of no lesson it fails with the 404 and the store is
    as before. *)
Theorem delete_lesson_removes_one (lesson_id : string) (o : ObjectId) (w : World) :
  parse_ObjectId lesson_id = Some o →
  let idq := [("_id", Is (VOid o))] in
  (has_id o (docs "lesson" w) →
   ∃ w',
     delete_lesson lesson_id w = (Ok ok, w') ∧
     sent w w' [DeleteOne "lesson" idq] ∧
     docs "lesson" w' = remove_first (matches idq) (docs "lesson" w) ∧
     S (length (docs "lesson" w')) = length (docs "lesson" w) ∧
     (∀ c, c ≠ "lesson" → docs c w' = docs c w)) ∧
  (¬ has_id o (docs "lesson" w) →
   ∃ w', delete_lesson lesson_id w = (Raise (NotFound "الدرس غير موجود"), w') ∧
         store w' = store w).
Proof.
  intros H idq. unfold delete_lesson. split.
  - intros Hex. apply find_by_id_Some in Hex as (d & E & Hin & Hd). fold idq in E.
    rewrite (bind_oid_valid _ _ _ _ H).
    rewrite (bind_ok _ _ _ _ _ (delete_one_found _ _ _ _ E)).
    eexists. split; [reflexivity|]. unfold sent. autorewrite with world.
    split_and!; try done.
    + by eapply length_remove_first.
    + intros c Hc. by autorewrite with world.
  - intros Hno. apply find_by_id_None in Hno. fold idq in Hno.
    rewrite (bind_oid_valid _ _ _ _ H).
    rewrite (bind_ok _ _ _ _ _ (delete_one_missing _ _ _ Hno)).
    by eexists.
Qed.

(** X12: [mark_read] on the identifier of an existing message sets [read] to
    true and stamps [updated_at], keeps the text, the sender and the student
    of the message, and may be repeated: a second call succeeds as well; on
    an identifier of no message it fails with the 404 and the store is as
    before. *)
Theorem mark_read_sets_flag (msg_id : string) (o : ObjectId) (w : World) :
  parse_ObjectId msg_id = Some o →
  let idq := [("_id", Is (VOid o))] in
  let patch := <["read" := VBool true]> (<["updated_at" := VDate (utcnow (ticks w))]> ∅) in
  (has_id o (docs "message" w) →
   ∃ d w',
     List.find (matches idq) (docs "message" w) = Some d ∧
     mark_read msg_id w = (Ok ok, w') ∧
     docs "message" w' = update_first (matches idq) (apply_set patch) (docs "message" w) ∧
     List.find (matches idq) (docs "message" w') = Some (apply_set patch d) ∧
     field "read" (apply_set patch d) = Some (VBool true) ∧
     field "text" (apply_set patch d) = field "text" d ∧
     field "sender" (apply_set patch d) = field "sender" d ∧
     field "student_id" (apply_set patch d) = field "student_id" d ∧
     (∀ c, c ≠ "message" → docs c w' = docs c w) ∧
     (mark_read msg_id w').1 = Ok ok) ∧
  (¬ has_id o (docs "message" w) →
   ∃ w', mark_read msg_id w = (Raise (NotFound "الرسالة غير موجودة"), w') ∧
         store w' = store w).
Proof.
  intros H idq patch.
  assert (Run : ∀ w0 d0, List.find (matches idq) (docs "message" w0) = Some d0 →
            ∃ w1, mark_read msg_id w0 = (Ok ok, w1) ∧
              docs "message" w1 = update_first (matches idq)
                (apply_set (<["read" := VBool true]>
                   (<["updated_at" := VDate (utcnow (ticks w0))]> ∅))) (docs "message" w0) ∧
              (∀ c, c ≠ "message" → docs c w1 = docs c w0)).
  { intros w0 d0 E. unfold mark_read.
    rewrite (bind_oid_valid _ _ _ _ H), bind_now.
    assert (E1 : List.find (matches idq) (docs "message" (ticked w0)) = Some d0) by exact E.
    rewrite (bind_ok _ _ _ _ _ (update_one_found _ _ _ _ _ E1)).
    rewrite decide_False by done. eexists. split; [reflexivity|].
    autorewrite with world. split; [done|]. intros c Hc. by autorewrite with world. }
  split.
  - intros Hex. apply find_by_id_Some in Hex as (d & E & Hin & Hd). fold idq in E.
    destruct (Run w d E) as (w' & Hrun & Hdocs & Hoth). fold patch in Hdocs.
    assert (E' : List.find (matches idq) (docs "message" w') = Some (apply_set patch d)).
    { rewrite Hdocs. apply find_update_first; [done|].
      by apply matches_id_apply_set, matches_id. }
    destruct (Run w' _ E') as (w'' & Hrun' & _).
    exists d, w'.
    split_and!;
      [exact E | exact Hrun | exact Hdocs | exact E' | by apply field_apply_set
      | by apply field_apply_set_other | by apply field_apply_set_other
      | by apply field_apply_set_other | exact Hoth | by rewrite Hrun'].
  - intros Hno. apply find_by_id_None in Hno. fold idq in Hno. unfold mark_read.
    rewrite (bind_oid_valid _ _ _ _ H), bind_now.
    assert (E1 : List.find (matches idq) (docs "message" (ticked w)) = None) by exact Hno.
    rewrite (bind_ok _ _ _ _ _ (update_one_missing _ _ _ _ E1)).
    rewrite decide_True by done. by eexists.
Qed.

(** ** Identifiers are unique in every collection *)

Lemma reachable_serve_all (rs : list request) (w : World) :
  reachable w → reachable (serve_all rs w).
Proof.
  revert w. induction rs as [|r rs IH]; intros w Hw; [exact Hw|].
  apply IH. by apply reachable_serve.
Qed.

Lemma unique_ids_sublist (l l' : list document) :
  l' `sublist_of` l → unique_ids l → unique_ids l'.
Proof. intros Hs Hi. exact (sublist_NoDup _ _ Hi (fmap_sublist _id _ _ Hs)). Qed.

Lemma triple_ids_insert_one (c c' : string) (d : dict) :
  triple c' unique_ids unique_ids (insert_one c d).
Proof.
  intros w Hw. rewrite insert_one_run. destruct (has_id_b _ _) eqn:Hb; [done|].
  cbn [snd]. destruct (decide (c = c')) as [->|Hne].
  - rewrite docs_written_eq. apply has_id_b_false in Hb.
    unfold unique_ids. rewrite fmap_app. apply NoDup_app. split; [done|].
    split; [|apply NoDup_singleton]. intros x Hx Hx'.
    apply list_elem_of_singleton in Hx'. subst x.
    apply list_elem_of_fmap in Hx as (e & He & Hin). apply Hb. by exists e.
  - by rewrite docs_written_ne.
Qed.

Lemma triple_ids_update_one (c c' : string) (q : query) (p : dict) :
  triple c' unique_ids unique_ids (update_one c q p).
Proof.
  intros w Hw. destruct (List.find (matches q) (docs c w)) as [d|] eqn:E.
  - rewrite (update_one_found _ _ _ _ _ E). cbn [snd].
    destruct (decide (c = c')) as [->|Hne].
    + rewrite docs_written_eq. unfold unique_ids. by rewrite ids_update_first.
    + by rewrite docs_written_ne.
  - by rewrite (update_one_missing _ _ _ _ E).
Qed.

Lemma triple_ids_create_document (c c' : string) (d : dict) :
  triple c' unique_ids unique_ids (create_document c d).
Proof.
  unfold create_document.
  apply (triple_bind _ _ unique_ids); [done|by apply triple_keeps_store|]. intros t.
  apply (triple_bind _ _ unique_ids); [done|apply triple_ids_insert_one|]. intros o.
  by apply triple_keeps_store.
Qed.

Lemma triple_for_each {A} (c : string) (I : list document → Prop) (xs : list A)
    (f : A → M unit) :
  (∀ x, triple c I I (f x)) → triple c I I (for_each xs f).
Proof.
  intros Hf. induction xs as [|x r IH]; [by apply triple_keeps_store|].
  cbn [for_each]. by apply (triple_bind _ _ I).
Qed.

(** One step of the analysis of a handler, for the uniqueness of identifiers. *)
Ltac ids_step :=
  match goal with
  | |- triple _ _ _ (for_each _ _) => apply triple_for_each; intros ?
  | |- triple _ _ _ (delete_many _ _) =>
      apply triple_shrinks; [apply unique_ids_sublist | apply shrinks_delete_many]
  | |- triple _ _ _ (delete_one _ _) =>
      apply triple_shrinks; [apply unique_ids_sublist | apply shrinks_delete_one]
  | |- triple _ _ _ (update_one _ _ _) => apply triple_ids_update_one
  | |- triple _ _ _ (create_document _ _) => apply triple_ids_create_document
  | |- triple _ _ _ (_ ≫= _) => apply (triple_bind _ _ unique_ids); [done| |intros ?]
  | |- triple _ _ _ (match ?x with _ => _ end) => destruct x
  | |- triple _ _ _ _ => apply triple_keeps_store; solve [auto with store]
  end.

Lemma serve_keeps_ids (r : request) (c : string) (w : World) :
  unique_ids (docs c w) → unique_ids (docs c (serve r w)).
Proof.
  destruct r; cbn [serve];
    match goal with
    | |- _ → unique_ids (docs _ (?m w).2) =>
        assert (triple c unique_ids unique_ids m) as H; [|apply H]
    end;
    unfold login, list_students, add_student, update_student, delete_student,
      list_lessons, add_lesson, update_lesson, delete_lesson, list_homework,
      add_homework, update_homework, delete_homework, list_submissions,
      submit_homework, grade_submission, list_messages, send_message, mark_read;
    repeat ids_step.
Qed.

(** Identifiers are unique in every store the server can reach from the
    empty database: the store refuses a document whose identifier it
    already has, and no handler changes an identifier. *)
Lemma reachable_unique_ids (w : World) :
  reachable w → ∀ c, unique_ids (docs c w).
Proof.
  induction 1 as [|r w _ IH]; intros c; [constructor|].
  by apply serve_keeps_ids.
Qed.

(** ** A deleted document is gone *)

Lemma remove_first_gone (o : ObjectId) (l : list document) :
  unique_ids l → ¬ has_id o (remove_first (matches [("_id", Is (VOid o))]) l).
Proof.
  unfold unique_ids. induction l as [|x r IH]; intros Hi (d & Hin & Hd).
  - by apply elem_of_nil in Hin.
  - rewrite fmap_cons in Hi. apply NoDup_cons in Hi as [Hx Hi].
    cbn [remove_first] in Hin. destruct (matches _ x) eqn:E.
    + apply matches_id in E. apply Hx. apply list_elem_of_fmap. exists d.
      split; [congruence | done].
    + apply elem_of_cons in Hin as [->|Hin].
      * apply not_true_iff_false in E. by apply E, matches_id.
      * apply (IH Hi). by exists d.
Qed.

(** X14: identifiers being unique, a student that [delete_student] deleted
    is not found again: no student has the identifier afterwards and a
    second [delete_student] fails with the 404. *)
Theorem delete_student_twice (student_id : string) (o : ObjectId) (w : World) :
  parse_ObjectId student_id = Some o →
  has_id o (docs "student" w) → unique_ids (docs "student" w) →
  ∃ w',
    delete_student student_id w = (Ok ok, w') ∧
    ¬ has_id o (docs "student" w') ∧
    (delete_student student_id w').1 = Raise (NotFound "الطالب غير موجود").
Proof.
  intros H Hex Hi.
  destruct (delete_student_run student_id o w H) as (w' & Hrun & _ & _ & _ & _ & _ & Hst).
  apply find_by_id_Some in Hex as (d & E & _). rewrite E in Hrun.
  assert (Hgone : ¬ has_id o (docs "student" w'))
    by (rewrite Hst; by apply remove_first_gone).
  exists w'. split_and!; [exact Hrun | exact Hgone |].
  destruct (delete_student_run student_id o w' H) as (w'' & Hrun' & _).
  by rewrite Hrun', (find_by_id_None _ _ Hgone).
Qed.

(** X15: identifiers being unique, a homework that [delete_homework] deleted
    is not found again: no homework has the identifier afterwards, and
    [submit_homework] and [update_homework] on it fail with the 404. *)
Theorem delete_homework_then_absent (hw_id : string) (o : ObjectId) (w : World) :
  parse_ObjectId hw_id = Some o →
  has_id o (docs "homework" w) → unique_ids (docs "homework" w) →
  ∃ w',
    delete_homework hw_id w = (Ok ok, w') ∧
    ¬ has_id o (docs "homework" w') ∧
    (∀ student_id file_url,
       (submit_homework hw_id student_id file_url w').1
         = Raise (NotFound "الواجب غير موجود")) ∧
    (∀ data, (update_homework hw_id data w').1 = Raise (NotFound "الواجب غير موجود")).
Proof.
  intros H Hex Hi. pose proof (delete_homework_run hw_id o w H) as R. cbv zeta in R.
  apply find_by_id_Some in Hex as (d & E & _). rewrite E in R.
  eexists. split; [exact R|]. autorewrite with world.
  assert (Hgone : ¬ has_id o (remove_first (matches [("_id", Is (VOid o))])
                                (docs "homework" w))) by (by apply remove_first_gone).
  split; [exact Hgone|]. apply find_by_id_None in Hgone. split.
  - intros student_id file_url. unfold submit_homework.
    rewrite (bind_oid_valid _ _ _ _ H), bind_find_one. autorewrite with world.
    by rewrite Hgone.
  - intros data. unfold update_homework.
    rewrite (update_and_fetch "homework" hw_id "الواجب غير موجود" o _ _ H).
    autorewrite with world. by rewrite Hgone.
Qed.

(** ** What [delete_student] leaves in place *)

Lemma elem_of_remove_first (p : document → bool) (l : list document) (d : document) :
  d ∈ l → p d = false → d ∈ remove_first p l.
Proof.
  induction l as [|x r IH]; [done|]. intros Hin Hp. cbn [remove_first].
  apply elem_of_cons in Hin as [->|Hin].
  - rewrite Hp. apply list_elem_of_here.
  - destruct (p x); [done|]. by apply list_elem_of_further, IH.
Qed.

(** X16: [delete_student] deletes nothing but what names the string it was
    given: every other student, every lesson, homework and message whose
    [student_id] is another string, and every submission of a homework that
    is not one of that student's, is still there afterwards, whether the
    student existed or not. *)
Theorem delete_student_keeps_the_rest (student_id : string) (o : ObjectId) (w : World) :
  parse_ObjectId student_id = Some o →
  ∃ r w',
    delete_student student_id w = (r, w') ∧
    (∀ d, d ∈ docs "student" w → _id d ≠ o → d ∈ docs "student" w') ∧
    (∀ d, d ∈ docs "lesson" w → ¬ refers "student_id" student_id d →
          d ∈ docs "lesson" w') ∧
    (∀ d, d ∈ docs "homework" w → ¬ refers "student_id" student_id d →
          d ∈ docs "homework" w') ∧
    (∀ d, d ∈ docs "message" w → ¬ refers "student_id" student_id d →
          d ∈ docs "message" w') ∧
    (∀ s, s ∈ docs "submission" w →
          (∀ hw, hw ∈ docs "homework" w → refers "student_id" student_id hw →
                 ¬ refers "homework_id" (str_ObjectId (_id hw)) s) →
          s ∈ docs "submission" w').
Proof.
  intros H.
  destruct (delete_student_run student_id o w H)
    as (w' & Hrun & _ & Hl & Hs & Hh & Hm & Hst).
  eexists _, w'. split; [exact Hrun|].
  assert (Keep : ∀ l d, d ∈ l → ¬ refers "student_id" student_id d →
            d ∈ List.filter (keeps [("student_id", Is (VStr student_id))]) l).
  { intros l d Hin Hr. apply elem_of_filter_bool. split; [done|]. by apply keeps_refers. }
  split_and!.
  - intros d Hin Hne. rewrite Hst. apply elem_of_remove_first; [done|].
    apply not_true_is_false. by rewrite matches_id.
  - intros d Hin Hr. rewrite Hl. by apply Keep.
  - intros d Hin Hr. rewrite Hh. by apply Keep.
  - intros d Hin Hr. rewrite Hm. by apply Keep.
  - intros s Hin Hr. rewrite Hs. apply elem_of_filter_bool. split; [done|].
    unfold names_none_of. apply forallb_forall. intros i Hi.
    apply in_map_iff in Hi as (hw & <- & Hhw). apply list_elem_of_In in Hhw.
    apply elem_of_filter_bool in Hhw as [Hhw Hm'].
    apply keeps_refers, Hr; [done|]. by apply matches_refers.
Qed.

(** ** [strip] on the UTF-8 form of a string *)

Lemma append_empty (s : string) : String.append s EmptyString = s.
Proof.
  induction s as [|a r IH]; [reflexivity|].
  change (String a (String.append r EmptyString) = String a r). by rewrite IH.
Qed.

Lemma uncons_split (s c r : string) (cp : N) :
  uncons s = Some (cp, c, r) →
  s = String.append c r ∧ String.length r < String.length s ∧
  ∀ t, uncons (String.append c t) = Some (cp, c, t).
Proof.
  destruct s as [|a s]; [discriminate|]. cbn [uncons].
  destruct (N_of_ascii a <? 128)%N eqn:E1.
  { intros [= <- <- <-]. split; [reflexivity|]. split; [cbn [String.length]; lia|].
    intros t. change (uncons (String a t) = Some (N_of_ascii a, String a EmptyString, t)).
    cbn [uncons]. by rewrite E1. }
  destruct s as [|b s]; [discriminate|].
  destruct (N_of_ascii a <? 224)%N eqn:E2.
  { intros [= <- <- <-]. split; [reflexivity|]. split; [cbn [String.length]; lia|].
    intros t.
    change (uncons (String a (String b t))
            = Some (code2 a b, String a (String b EmptyString), t)).
    cbn [uncons]. by rewrite E1, E2. }
  destruct s as [|x s]; [discriminate|].
  destruct (N_of_ascii a <? 240)%N eqn:E3.
  { intros [= <- <- <-]. split; [reflexivity|]. split; [cbn [String.length]; lia|].
    intros t.
    change (uncons (String a (String b (String x t)))
            = Some (code3 a b x, String a (String b (String x EmptyString)), t)).
    cbn [uncons]. by rewrite E1, E2, E3. }
  destruct s as [|d s]; [discriminate|].
  intros [= <- <- <-]. split; [reflexivity|]. split; [cbn [String.length]; lia|].
  intros t.
  change (uncons (String a (String b (String x (String d t))))
          = Some (code4 a b x d,
                  String a (String b (String x (String d EmptyString))), t)).
  cbn [uncons]. by rewrite E1, E2, E3.
Qed.

Ltac char_cases s :=
  destruct s as [|? s]; [reflexivity|]; cbn [uncons lstrip rstrip utf8 whole];
  destruct (_ <? 128)%N; [reflexivity|];
  destruct s as [|? s]; [reflexivity|]; cbv beta iota;
  destruct (_ <? 224)%N; [reflexivity|];
  destruct s as [|? s]; [reflexivity|]; cbv beta iota;
  destruct (_ <? 240)%N; [reflexivity|];
  destruct s as [|? s]; reflexivity.

Lemma lstrip_unfold (s : string) :
  lstrip s = match uncons s with
             | Some (cp, _, r) => if isspace_cp cp then lstrip r else s
             | None => s
             end.
Proof.
  char_cases s.
Qed.

Lemma rstrip_unfold (s : string) :
  rstrip s = match uncons s with
             | Some (cp, c, r) => rstrip_char (isspace_cp cp) c (rstrip r)
             | None => s
             end.
Proof.
  char_cases s.
Qed.

Lemma utf8_unfold (s : string) :
  utf8 s = match uncons s with
           | Some (cp, _, r) => cp :: utf8 r
           | None => []
           end.
Proof.
  char_cases s.
Qed.

Lemma whole_unfold (s : string) :
  whole s = match uncons s with
            | Some (_, _, r) => whole r
            | None => match s with EmptyString => true | _ => false end
            end.
Proof.
  char_cases s.
Qed.

(** Induction on a string, one character at a time. *)
Lemma string_chars_ind (P : string → Prop) :
  (∀ s, (∀ cp c r, uncons s = Some (cp, c, r) → P r) → P s) → ∀ s, P s.
Proof.
  intros step s. remember (String.length s) as n eqn:Hn.
  revert s Hn. induction (lt_wf n) as [n _ IH]. intros s ->.
  apply step. intros cp c r E. destruct (uncons_split _ _ _ _ E) as (_ & Hlt & _).
  by apply (IH _ Hlt).
Qed.

Lemma lstrip_length (s : string) : (String.length (lstrip s) ≤ String.length s)%nat.
Proof.
  induction s as [s IH] using string_chars_ind. rewrite lstrip_unfold.
  destruct (uncons s) as [[[cp c] r]|] eqn:E; [|done].
  destruct (isspace_cp cp); [|done].
  destruct (uncons_split _ _ _ _ E) as (_ & Hlt & _).
  specialize (IH _ _ _ eq_refl). lia.
Qed.

Lemma lstrip_fixed (s : string) : lstrip (lstrip s) = lstrip s.
Proof.
  induction s as [s IH] using string_chars_ind. rewrite (lstrip_unfold s).
  destruct (uncons s) as [[[cp c] r]|] eqn:E.
  - destruct (isspace_cp cp) eqn:Hsp; [by apply (IH cp c r)|].
    by rewrite lstrip_unfold, E, Hsp.
  - by rewrite lstrip_unfold, E.
Qed.

Lemma rstrip_fixed (s : string) : rstrip (rstrip s) = rstrip s.
Proof.
  induction s as [s IH] using string_chars_ind. rewrite (rstrip_unfold s).
  destruct (uncons s) as [[[cp c] r]|] eqn:E.
  - specialize (IH _ _ _ eq_refl).
    destruct (uncons_split _ _ _ _ E) as (_ & _ & Hc).
    destruct (rstrip r) as [|a t] eqn:Er; cbn [rstrip_char].
    + destruct (isspace_cp cp) eqn:Hsp; [reflexivity|].
      pose proof (Hc EmptyString) as Hc0. rewrite append_empty in Hc0.
      by rewrite rstrip_unfold, Hc0, Hsp.
    + by rewrite rstrip_unfold, Hc, IH.
  - by rewrite rstrip_unfold, E.
Qed.

Lemma lstrip_rstrip (u : string) : lstrip u = u → lstrip (rstrip u) = rstrip u.
Proof.
  intros Hu. rewrite (rstrip_unfold u).
  destruct (uncons u) as [[[cp c] r]|] eqn:E; [|exact Hu].
  destruct (uncons_split _ _ _ _ E) as (_ & Hlt & Hc).
  rewrite lstrip_unfold, E in Hu.
  destruct (isspace_cp cp) eqn:Hsp.
  { pose proof (lstrip_length r) as Hle. rewrite Hu in Hle. lia. }
  destruct (rstrip r) as [|a t]; cbn [rstrip_char].
  - pose proof (Hc EmptyString) as Hc0. rewrite append_empty in Hc0.
    by rewrite lstrip_unfold, Hc0, Hsp.
  - by rewrite lstrip_unfold, Hc, Hsp.
Qed.

Lemma strip_idempotent (s : string) : strip (strip s) = strip s.
Proof.
  unfold strip. rewrite (lstrip_rstrip (lstrip s) (lstrip_fixed s)).
  apply rstrip_fixed.
Qed.

(** [strip] is [str.strip] on the code points: the characters of the
    stripped string are those [text_strip] leaves of the characters of the
    string. *)
Lemma utf8_lstrip (s : string) : utf8 (lstrip s) = text_lstrip (utf8 s).
Proof.
  induction s as [s IH] using string_chars_ind.
  rewrite lstrip_unfold, (utf8_unfold s).
  destruct (uncons s) as [[[cp c] r]|] eqn:E.
  - cbn [text_lstrip]. destruct (isspace_cp cp); [by apply (IH cp c r)|].
    by rewrite utf8_unfold, E.
  - by rewrite utf8_unfold, E.
Qed.

Lemma whole_lstrip (s : string) : whole s = true → whole (lstrip s) = true.
Proof.
  induction s as [s IH] using string_chars_ind. intros Hs.
  rewrite lstrip_unfold.
  destruct (uncons s) as [[[cp c] r]|] eqn:E; [|exact Hs].
  destruct (isspace_cp cp); [|exact Hs].
  apply (IH cp c r eq_refl). by rewrite whole_unfold, E in Hs.
Qed.

Lemma whole_chars (s : string) :
  whole s = true → utf8 s = [] → s = EmptyString.
Proof.
  rewrite whole_unfold, utf8_unfold.
  destruct (uncons s) as [[[cp c] r]|]; [discriminate|]. by destruct s.
Qed.

Lemma whole_rstrip (s : string) : whole s = true → whole (rstrip s) = true.
Proof.
  induction s as [s IH] using string_chars_ind. intros Hs.
  rewrite rstrip_unfold.
  destruct (uncons s) as [[[cp c] r]|] eqn:E; [|exact Hs].
  rewrite whole_unfold, E in Hs. specialize (IH _ _ _ eq_refl Hs).
  destruct (uncons_split _ _ _ _ E) as (_ & _ & Hc).
  destruct (rstrip r) as [|a t]; cbn [rstrip_char].
  - destruct (isspace_cp cp); [reflexivity|].
    pose proof (Hc EmptyString) as Hc0. rewrite append_empty in Hc0.
    by rewrite whole_unfold, Hc0.
  - by rewrite whole_unfold, Hc.
Qed.

Lemma utf8_rstrip (s : string) :
  whole s = true → utf8 (rstrip s) = text_rstrip (utf8 s).
Proof.
  induction s as [s IH] using string_chars_ind. intros Hs.
  rewrite rstrip_unfold, (utf8_unfold s).
  destruct (uncons s) as [[[cp c] r]|] eqn:E; [|by rewrite utf8_unfold, E].
  rewrite whole_unfold, E in Hs.
  pose proof (whole_rstrip r Hs) as Hw.
  specialize (IH _ _ _ eq_refl Hs).
  destruct (uncons_split _ _ _ _ E) as (_ & _ & Hc).
  cbn [text_rstrip]. rewrite <- IH.
  destruct (rstrip r) as [|a t] eqn:Er; cbn [rstrip_char].
  - cbn [utf8]. destruct (isspace_cp cp); [reflexivity|].
    pose proof (Hc EmptyString) as Hc0. rewrite append_empty in Hc0.
    by rewrite utf8_unfold, Hc0.
  - rewrite utf8_unfold, Hc.
    destruct (utf8 (String a t)) eqn:Eu; [|reflexivity].
    by apply whole_chars in Eu.
Qed.

Lemma utf8_strip (s : string) :
  whole s = true → utf8 (strip s) = text_strip (utf8 s).
Proof.
  intros Hs. unfold strip, text_strip.
  by rewrite (utf8_rstrip _ (whole_lstrip s Hs)), utf8_lstrip.
Qed.

(** ** Codes and [login] *)

(** X17: [login] answers a code as it answers the stripped code, and it only
    ever matches stripped codes: a teacher login means the configured
    teacher code has no white space around it, and a student login returns
    a student whose stored code has none and is not the teacher code. *)
Theorem login_matches_stripped_codes (code : string) (w : World) :
  login (strip code) w = login code w ∧
  ∀ r, (login code w).1 = Ok r →
    match role r with
    | teacher => strip TEACHER_CODE = TEACHER_CODE ∧ login_student r = None
    | student =>
        ∃ d c, d ∈ docs "student" w ∧ refers "code" c d ∧ strip c = c ∧
               c ≠ TEACHER_CODE ∧ login_student r = serialize (Some d)
    end.
Proof.
  split; [unfold login; by rewrite strip_idempotent|].
  intros r. unfold login. destruct (decide (strip code = TEACHER_CODE)) as [E|NE].
  - intros [= <-]. cbn [role login_student]. split; [|done].
    by rewrite <- E, strip_idempotent.
  - rewrite bind_find_one.
    destruct (List.find _ (docs "student" w)) as [d|] eqn:Ef; [|discriminate].
    intros [= <-]. cbn [role login_student].
    apply find_Some_elem in Ef as [Hin Hm]. apply matches_refers in Hm.
    exists d, (strip code). split_and!; try done. apply strip_idempotent.
Qed.

Lemma find_app_last (p : document → bool) (l : list document) (x : document) :
  List.find p l = None → p x = true → List.find p (l ++ [x]) = Some x.
Proof.
  intros Hn Hx. induction l as [|y r IH]; cbn [app List.find] in *; [by rewrite Hx|].
  destruct (p y); [discriminate|]. by apply IH.
Qed.

(** X18: a student added with a stripped code that is not the teacher code
    can log in at once: [login] with that code, with or without white space
    around it, returns the student role and the very document [add_student]
    returned. *)
Theorem add_student_then_login (st : StudentSchema.t) (code : string) (w : World) :
  let c := StudentSchema.code st in
  let n := new_ObjectId (draws w) in
  (∀ d, d ∈ docs "student" w → ¬ refers "code" c d) →
  ¬ has_id n (docs "student" w) → length n = 12 →
  strip code = c → c ≠ TEACHER_CODE →
  ∃ saved w',
    add_student st w = (Ok (Some saved), w') ∧
    (login code w').1 = Ok (MkLoginResponse student (Some saved)).
Proof.
  intros c n Hno Hfresh Hlen Hcode Hne.
  set (new := Document n (<["created_at" := VDate (utcnow (ticks w))]>
                            (StudentSchema.model_dump st))).
  assert (Hnone : List.find (matches [("code", Is (VStr c))]) (docs "student" w) = None).
  { apply find_is_None. intros d Hin. apply not_true_is_false.
    rewrite matches_refers. by apply Hno. }
  eexists _, _. split.
  - unfold add_student. fold c. rewrite bind_find_one, Hnone.
    assert (Hf : ¬ has_id (new_ObjectId (draws (logged (FindOne "student"
                   [("code", Is (VStr c))]) w)))
                   (docs "student" (logged (FindOne "student" [("code", Is (VStr c))]) w)))
      by exact Hfresh.
    exact (insert_and_fetch "student" _ _ Hf Hlen).
  - unfold login. rewrite Hcode, decide_False by done.
    rewrite bind_find_one. autorewrite with world.
    assert (Hm : matches [("code", Is (VStr c))] new = true) by (by apply matches_refers).
    pose proof (find_app_last _ _ new Hnone Hm) as Hfind.
    unfold new, n in Hfind. by rewrite Hfind.
Qed.

(** ** The chat helper *)

Lemma text_lstrip_spaces (pre q : pystr) :
  forallb isspace_cp pre = true → text_lstrip (pre ++ q) = text_lstrip q.
Proof.
  induction pre as [|c r IH]; [done|]. cbn [forallb app text_lstrip].
  intros [Hc Hr]%andb_true_iff. rewrite Hc. by apply IH.
Qed.

Lemma text_rstrip_spaces (q post : pystr) :
  forallb isspace_cp post = true → text_rstrip (q ++ post) = text_rstrip q.
Proof.
  intros Hp. induction q as [|c r IH]; cbn [app text_rstrip].
  - induction post as [|c r IH]; [done|]. cbn [forallb text_rstrip] in *.
    apply andb_true_iff in Hp as [Hc Hr]. by rewrite (IH Hr), Hc.
  - by rewrite IH.
Qed.

Lemma text_lstrip_app (q post : pystr) :
  forallb isspace_cp post = true →
  text_rstrip (text_lstrip (q ++ post)) = text_rstrip (text_lstrip q).
Proof.
  intros Hp. induction q as [|c r IH]; cbn [app text_lstrip].
  - rewrite <- (app_nil_r post) at 1. rewrite (text_lstrip_spaces post [] Hp).
    reflexivity.
  - destruct (isspace_cp c); [exact IH|].
    exact (text_rstrip_spaces (c :: r) post Hp).
Qed.

Lemma text_strip_padding (pre q post : pystr) :
  forallb isspace_cp pre = true → forallb isspace_cp post = true →
  text_strip (pre ++ q ++ post) = text_strip q.
Proof.
  intros Hpre Hpost. unfold text_strip.
  by rewrite (text_lstrip_spaces pre _ Hpre), (text_lstrip_app q post Hpost).
Qed.

(** X21: [ai_chat] never fails: the index of the tip is always in range, the
    tip is one of the three tips and depends on the seconds modulo three
    only, and the reply is the fixed prefix followed by one of the four
    canned answers. *)
Theorem ai_chat_always_answers (question : pystr) (second : nat) :
  ∃ answer t,
    ai_chat question second = Ok (MkAIResponse (reply_prefix ++ answer) t) ∧
    answer ∈ [math_answer; reading_answer; science_answer; default_answer] ∧
    tips !! (second mod 3) = Some t ∧
    ai_chat question (second + 3) = ai_chat question second.
Proof.
  assert (Hlen : length tips = 3) by reflexivity.
  destruct (lookup_lt_is_Some_2 tips (second mod 3)) as [t Ht].
  { rewrite Hlen. apply Nat.mod_upper_bound. lia. }
  assert (Hper : (second + 3) mod 3 = second mod 3).
  { replace (second + 3) with (second + 1 * 3) by lia. apply Nat.Div0.mod_add. }
  unfold ai_chat. rewrite Hlen, Hper, Ht.
  match goal with |- context [reply_prefix ++ ?a] => exists a, t end.
  split_and!; [reflexivity| |reflexivity|reflexivity].
  destruct (existsb _ math_words); [apply list_elem_of_here|].
  apply list_elem_of_further.
  destruct (existsb _ reading_words); [apply list_elem_of_here|].
  apply list_elem_of_further.
  destruct (existsb _ science_words); [apply list_elem_of_here|].
  apply list_elem_of_further, list_elem_of_here.
Qed.

(** X22: white space around the question changes nothing: the question with
    any white space before and after it gets the answer of the question
    itself, and a question of white space only, the empty one included,
    gets the default answer. *)
Theorem ai_chat_ignores_padding (pre question post : pystr) (second : nat) :
  forallb isspace_cp pre = true → forallb isspace_cp post = true →
  ai_chat (pre ++ question ++ post) second = ai_chat question second ∧
  ∃ t, ai_chat pre second = Ok (MkAIResponse (reply_prefix ++ default_answer) t).
Proof.
  intros Hpre Hpost. split.
  - unfold ai_chat. by rewrite (text_strip_padding pre question post Hpre Hpost).
  - assert (Hs : text_strip pre = []).
    { rewrite <- (app_nil_r pre). change [] with ([] ++ [] : pystr) at 1.
      by rewrite (text_strip_padding pre [] [] Hpre). }
    destruct (lookup_lt_is_Some_2 tips (second mod length tips)) as [t Ht].
    { apply Nat.mod_upper_bound. discriminate. }
    exists t. unfold ai_chat. rewrite Hs, Ht. reflexivity.
Qed.

Lemma starts_with_app (k b : pystr) : starts_with k (k ++ b) = true.
Proof.
  induction k as [|c k IH]; [done|]. cbn [app starts_with].
  by rewrite N.eqb_refl, IH.
Qed.

Lemma contains_middle (k a b : pystr) : contains k (a ++ k ++ b) = true.
Proof.
  induction a as [|c a IH].
  - destruct (k ++ b) as [|c r] eqn:E.
    + cbn [app contains]. rewrite <- E at 1. by rewrite starts_with_app.
    + cbn [app contains]. rewrite <- E at 1. by rewrite starts_with_app.
  - cbn [app contains]. rewrite IH. apply orb_true_r.
Qed.

Lemma text_rstrip_cons (c : N) (r : pystr) :
  isspace_cp c = false → text_rstrip (c :: r) = c :: text_rstrip r.
Proof. intros Hc. cbn [text_rstrip]. rewrite Hc. by destruct (text_rstrip r). Qed.

Lemma text_rstrip_keeps (a r : pystr) :
  text_rstrip r ≠ [] → text_rstrip (a ++ r) = a ++ text_rstrip r.
Proof.
  intros Hr. induction a as [|c a IH]; [done|]. cbn [app text_rstrip].
  rewrite IH. by destruct a, (text_rstrip r).
Qed.

Lemma text_rstrip_word (k b : pystr) :
  forallb (λ c, negb (isspace_cp c)) k = true →
  text_rstrip (k ++ b) = k ++ text_rstrip b.
Proof.
  induction k as [|c k IH]; [done|]. cbn [forallb app].
  intros [Hc Hk]%andb_true_iff. apply negb_true_iff in Hc.
  by rewrite (text_rstrip_cons c _ Hc), (IH Hk).
Qed.

Lemma text_lstrip_suffix (a r : pystr) (c : N) :
  isspace_cp c = false → ∃ a', text_lstrip (a ++ c :: r) = a' ++ c :: r.
Proof.
  intros Hc. induction a as [|x a [a' IH]]; cbn [app text_lstrip].
  - exists []. by rewrite Hc.
  - destruct (isspace_cp x); [by exists a'|by exists (x :: a)].
Qed.

Lemma text_strip_keeps_word (k a b : pystr) :
  k ≠ [] → forallb (λ c, negb (isspace_cp c)) k = true →
  ∃ a' b', text_strip (a ++ k ++ b) = a' ++ k ++ b'.
Proof.
  intros Hne Hk. destruct k as [|c k]; [done|]. clear Hne.
  pose proof Hk as Hk'. cbn [forallb] in Hk'.
  apply andb_true_iff in Hk' as [Hc%negb_true_iff _].
  unfold text_strip. change ((c :: k) ++ b) with (c :: (k ++ b)).
  destruct (text_lstrip_suffix a (k ++ b) c Hc) as [a' ->].
  exists a', (text_rstrip b).
  change (c :: (k ++ b)) with ((c :: k) ++ b).
  rewrite text_rstrip_keeps.
  - by rewrite (text_rstrip_word (c :: k) b Hk).
  - by rewrite (text_rstrip_word (c :: k) b Hk).
Qed.

(** X23: a question that mentions one of the arithmetic words anywhere,
    whatever stands before and after it, gets the arithmetic answer: the
    word survives the stripping of the question, and the arithmetic words
    are looked for first. *)
Theorem ai_chat_math_word_wins (k before after : pystr) (second : nat) :
  k ∈ math_words →
  ∃ t, ai_chat (before ++ k ++ after) second
       = Ok (MkAIResponse (reply_prefix ++ math_answer) t).
Proof.
  intros Hk.
  assert (Hw : forallb (λ w, match w with [] => false | _ => true end
                              && forallb (λ c, negb (isspace_cp c)) w)
                       math_words = true) by (vm_compute; reflexivity).
  rewrite forallb_forall in Hw. apply list_elem_of_In in Hk.
  pose proof (Hw k Hk) as [Hne Hns]%andb_true_iff.
  destruct (text_strip_keeps_word k before after) as (a' & b' & Hs);
    [by destruct k|exact Hns|].
  destruct (lookup_lt_is_Some_2 tips (second mod length tips)) as [t Ht].
  { apply Nat.mod_upper_bound. discriminate. }
  exists t. unfold ai_chat. rewrite Hs, Ht.
  replace (existsb (λ w, contains w (a' ++ k ++ b')) math_words) with true;
    [reflexivity|].
  symmetry. apply existsb_exists. exists k. split; [exact Hk|].
  apply contains_middle.
Qed.
End Handlers.


(** * The theorems on the sample store *)

(** The identifiers of the sample store are the string forms of its
    [ObjectId]s. *)
Lemma sample_ids_parse :
  parse_ObjectId ali_id = Some (sample_oid Byte.x01) ∧
  parse_ObjectId hw_ali_id = Some (sample_oid Byte.x21) ∧
  parse_ObjectId sub_ali_id = Some (sample_oid Byte.x31) ∧
  str_ObjectId (sample_oid Byte.x21) = hw_ali_id.
Proof. by vm_compute. Qed.

Lemma login_compares_stripped_code_witness :
  login None sample_isoformat " 9999 " sample_world
    = (Ok (MkLoginResponse teacher None), sample_world) ∧
  (∃ d, d ∈ docs "student" sample_world ∧ refers "code" "1234" d ∧
     (login None sample_isoformat "1234 " sample_world).1
       = Ok (MkLoginResponse student (serialize sample_isoformat (Some d)))) ∧
  (login None sample_isoformat "0000" sample_world).1
    = Raise (NotFound "لم يتم العثور على المستخدم").
Proof.
  split; [|split].
  - apply (login_compares_stripped_code None sample_isoformat " 9999 " sample_world).
    by vm_compute.
  - apply (login_compares_stripped_code None sample_isoformat "1234 " sample_world).
    + vm_compute. discriminate.
    + apply (some_reference_b "code" "1234"). by vm_compute.
  - apply (login_compares_stripped_code None sample_isoformat "0000" sample_world).
    + vm_compute. discriminate.
    + apply (no_reference_b "code" "0000"). by vm_compute.
Defined.

(** C8 as stated fails: [" 9999"] is not the teacher code and no student
    holds it, yet the login is the teacher's. *)
Lemma login_exact_comparison_counterexample :
  " 9999" ≠ TEACHER_CODE None ∧
  (∀ d, d ∈ docs "student" sample_world → ¬ refers "code" " 9999" d) ∧
  (login None sample_isoformat " 9999" sample_world).1
    = Ok (MkLoginResponse teacher None) ∧
  (login None sample_isoformat " 9999" sample_world).1
    ≠ Raise (NotFound "لم يتم العثور على المستخدم").
Proof.
  split_and!.
  - vm_compute. discriminate.
  - apply (no_reference_b "code" " 9999"). by vm_compute.
  - by vm_compute.
  - vm_compute. discriminate.
Qed.

Lemma delete_homework_cleans_before_parsing_witness :
  parse_ObjectId "not-an-id" = None ∧
  ∃ w', delete_homework sample_ids "not-an-id" sample_world
          = (Raise InvalidIdentifier, w') ∧
    log w' = [DeleteMany "submission" [("homework_id", Is (VStr "not-an-id"))]].
Proof.
  split; [vm_compute; reflexivity|].
  destruct (delete_homework_cleans_before_parsing sample_ids "not-an-id" sample_world)
    as (w' & Hrun & Hsent & _); [vm_compute; reflexivity|].
  exists w'. split; [exact Hrun | exact Hsent].
Defined.



Lemma delete_student_absent_still_cascades_witness :
  ∃ w', delete_student sample_ids ali_id
          (sample_store_without "student" ali)
        = (Raise (NotFound "الطالب غير موجود"), w') ∧
    docs "lesson" w' = [lesson_sara] ∧ docs "submission" w' = [sub_sara] ∧
    docs "homework" w' = [hw_sara] ∧ docs "message" w' = [] ∧
    docs "student" w' = [sara].
Proof.
  destruct (delete_student_absent_still_cascades sample_ids ali_id (sample_oid Byte.x01)
              (sample_store_without "student" ali))
    as (w' & Hrun & _ & Hl & Hs & Hh & Hm & Hst & _); [vm_compute; reflexivity| |].
  { apply has_id_b_false. vm_compute; reflexivity. }
  exists w'. rewrite Hrun, Hl, Hs, Hh, Hm, Hst.
  split; [reflexivity|]. clear. vm_compute. repeat split.
Defined.

Lemma add_student_unique_code_witness :
  (∃ w', add_student sample_isoformat sample_clock sample_ids (omar "1234") sample_world
           = (Raise DuplicateCode, w') ∧ store w' = sample_store) ∧
  (∃ saved w', add_student sample_isoformat sample_clock sample_ids (omar "4321") sample_world
           = (Ok (Some saved), w') ∧
     length (docs "student" w') = 3 ∧
     docs "lesson" w' = docs "lesson" sample_world).
Proof.
  split.
  - destruct (add_student_unique_code sample_isoformat sample_clock sample_ids
                (omar "1234") sample_world) as [Hdup _].
    destruct Hdup as (w' & Hrun & Hst & _).
    { apply (some_reference_b "code" "1234"). vm_compute; reflexivity. }
    exists w'. split; [exact Hrun | exact Hst].
  - destruct (add_student_unique_code sample_isoformat sample_clock sample_ids
                (omar "4321") sample_world) as [_ Hnew].
    destruct Hnew as (w' & Hrun & Hst & Hoth & _).
    { apply (no_reference_b "code" "4321"). vm_compute; reflexivity. }
    { apply has_id_b_false. vm_compute; reflexivity. }
    { vm_compute; reflexivity. }
    eexists _, w'. split; [exact Hrun|]. rewrite Hst, Hoth by done.
    split; reflexivity.
Defined.

Lemma update_student_checks_code_first_witness :
  (∃ w', update_student sample_isoformat sample_clock sample_ids ali_id (omar "5678")
           sample_world = (Raise DuplicateCode, w')) ∧
  (∃ r w', update_student sample_isoformat sample_clock sample_ids ali_id (omar "1234")
           sample_world = (Ok r, w')) ∧
  (∃ w', update_student sample_isoformat sample_clock sample_ids absent_id (omar "4321")
           sample_world = (Raise (NotFound "الطالب غير موجود"), w')).
Proof.
  split_and!.
  - destruct (update_student_checks_code_first sample_isoformat sample_clock sample_ids
                ali_id (sample_oid Byte.x01) (omar "5678") sample_world)
      as (Hdup & _); [vm_compute; reflexivity|].
    destruct Hdup as (w' & Hrun & _).
    { exists sara. split_and!.
      - apply list_elem_of_In. vm_compute. auto.
      - vm_compute; reflexivity.
      - vm_compute. discriminate. }
    by exists w'.
  - destruct (update_student_checks_code_first sample_isoformat sample_clock sample_ids
                ali_id (sample_oid Byte.x01) (omar "1234") sample_world)
      as (_ & _ & Hown); [vm_compute; reflexivity|].
    apply Hown.
    + unfold unique_codes. vm_compute.
      apply NoDup_cons. split; [|apply NoDup_singleton].
      intros Hin. apply list_elem_of_singleton in Hin. discriminate.
    + exists ali. split_and!.
      * apply list_elem_of_In. vm_compute. auto.
      * reflexivity.
      * vm_compute; reflexivity.
  - destruct (update_student_checks_code_first sample_isoformat sample_clock sample_ids
                absent_id (sample_oid Byte.x09) (omar "4321") sample_world)
      as (_ & Hfree & _); [vm_compute; reflexivity|].
    destruct Hfree as [_ Hmiss].
    { intros d Hd Hr. exfalso. revert d Hd Hr.
      apply (no_reference_b "code" "4321"). vm_compute; reflexivity. }
    destruct Hmiss as (w' & Hrun & _).
    { apply has_id_b_false. vm_compute; reflexivity. }
    by exists w'.
Defined.

(** C6 as stated fails: the identifier names no student, yet the failure is
    the duplicate-code error, not the 404, because Ali holds the code. *)
Lemma update_student_absent_id_counterexample :
  parse_ObjectId absent_id = Some (sample_oid Byte.x09) ∧
  ¬ has_id (sample_oid Byte.x09) (docs "student" sample_world) ∧
  (update_student sample_isoformat sample_clock sample_ids absent_id (omar "1234")
     sample_world).1 = Raise DuplicateCode ∧
  (update_student sample_isoformat sample_clock sample_ids absent_id (omar "1234")
     sample_world).1 ≠ Raise (NotFound "الطالب غير موجود").
Proof.
  split_and!.
  - vm_compute; reflexivity.
  - apply has_id_b_false. vm_compute; reflexivity.
  - vm_compute; reflexivity.
  - vm_compute. discriminate.
Qed.

Lemma submit_homework_creates_then_marks_witness :
  (∃ saved w' hw',
     submit_homework sample_isoformat sample_clock sample_ids hw_ali_id ali_id None
       sample_world = (Ok (Some saved), w') ∧
     length (docs "submission" w') = 3 ∧
     List.find (matches [("_id", Is (VOid (sample_oid Byte.x21)))]) (docs "homework" w')
       = Some hw' ∧
     field "status" hw' = Some (VStr "submitted")) ∧
  (∃ w',
     submit_homework sample_isoformat sample_clock sample_ids absent_id ali_id None
       sample_world = (Raise (NotFound "الواجب غير موجود"), w') ∧
     store w' = sample_store).
Proof.
  split.
  - destruct (submit_homework_creates_then_marks sample_isoformat sample_clock sample_ids
                hw_ali_id ali_id None (sample_oid Byte.x21) sample_world)
      as [Hok _]; [vm_compute; reflexivity|].
    destruct Hok as (w' & hw' & Hrun & _ & Hs & _ & _ & _ & _ & Hfind & Hst).
    { apply has_id_b_true. vm_compute; reflexivity. }
    { apply has_id_b_false. vm_compute; reflexivity. }
    { vm_compute; reflexivity. }
    eexists _, w', hw'. split; [exact Hrun|]. rewrite Hs.
    split; [reflexivity|]. split; [exact Hfind | exact Hst].
  - destruct (submit_homework_creates_then_marks sample_isoformat sample_clock sample_ids
                absent_id ali_id None (sample_oid Byte.x09) sample_world)
      as [_ Hmiss]; [vm_compute; reflexivity|].
    destruct Hmiss as (w' & Hrun & Hst & _).
    { apply has_id_b_false. vm_compute; reflexivity. }
    exists w'. split; [exact Hrun | exact Hst].
Defined.

Lemma submit_homework_keeps_student_id_witness :
  ∃ saved stored w',
    submit_homework sample_isoformat sample_clock sample_ids hw_ali_id "not a student"
      (Some "https://files.example/a.pdf") sample_world = (Ok (Some saved), w') ∧
    saved !! "student_id" = Some (VStr "not a student") ∧
    docs "submission" w' = [sub_ali; sub_sara; stored] ∧
    field "student_id" stored = Some (VStr "not a student").
Proof.
  destruct (submit_homework_keeps_student_id sample_isoformat sample_clock sample_ids
              hw_ali_id "not a student" (Some "https://files.example/a.pdf")
              (sample_oid Byte.x21) sample_world)
    as (saved & stored & cmds & w' & Hrun & Hsaved & Hs & Hf & _).
  - vm_compute; reflexivity.
  - apply has_id_b_true. vm_compute; reflexivity.
  - apply has_id_b_false. vm_compute; reflexivity.
  - vm_compute; reflexivity.
  - exists saved, stored, w'. split; [exact Hrun|]. split; [exact Hsaved|].
    split; [exact Hs | exact Hf].
Defined.

Lemma grade_submission_marks_both_witness :
  (∃ saved w' hw,
     grade_submission sample_isoformat sample_clock sample_ids sub_ali_id 9.5%float
       (Some "well done") sample_world = (Ok (Some saved), w') ∧
     saved !! "status" = Some (VStr "graded") ∧
     saved !! "grade" = Some (VFloat 9.5%float) ∧
     List.find (matches [("_id", Is (VOid (sample_oid Byte.x21)))]) (docs "homework" w')
       = Some hw ∧
     field "status" hw = Some (VStr "graded")) ∧
  (∃ saved w',
     grade_submission sample_isoformat sample_clock sample_ids sub_ali_id 9.5%float
       None (sample_store_without "homework" hw_ali) = (Ok (Some saved), w') ∧
     saved !! "status" = Some (VStr "graded") ∧
     docs "homework" w' = [hw_sara]) ∧
  (∃ w',
     grade_submission sample_isoformat sample_clock sample_ids absent_id 9.5%float
       None sample_world = (Raise (NotFound "التسليم غير موجود"), w') ∧
     store w' = sample_store).
Proof.
  split_and!.
  - destruct (grade_submission_marks_both sample_isoformat sample_clock sample_ids
                sub_ali_id 9.5%float (Some "well done") (sample_oid Byte.x31) sample_world)
      as [Hok _]; [vm_compute; reflexivity|].
    destruct Hok as (d & h & ho & w' & Hin & Hid & Hr & Hh & Hrun & Hst & Hg & _ & _ & _ & _
                     & Hhw & _).
    { apply has_id_b_true. vm_compute; reflexivity. }
    { apply submissions_wf_b. vm_compute; reflexivity. }
    assert (Hho : ho = sample_oid Byte.x21).
    { apply list_elem_of_In in Hin. vm_compute in Hin.
      destruct Hin as [<-|[<-|[]]].
      - vm_compute in Hr. injection Hr as <-. vm_compute in Hh.
        injection Hh as <-. reflexivity.
      - vm_compute in Hid. discriminate. }
    subst ho. destruct Hhw as (hw & _ & _ & Hfind & Hstatus).
    { apply has_id_b_true. vm_compute; reflexivity. }
    match type of Hst with field _ ?x = _ => set (g := x) in * end.
    destruct (serialize_lookup sample_isoformat g "status")
      as (s & Hser & _ & _ & Hs); [done..|].
    destruct (serialize_lookup sample_isoformat g "grade")
      as (s' & Hser' & _ & _ & Hs'); [done..|].
    rewrite Hser in Hser'. injection Hser' as <-.
    rewrite Hser in Hrun. rewrite Hst in Hs. rewrite Hg in Hs'.
    eexists s, w', _. split; [exact Hrun|]. split; [exact Hs|]. split; [exact Hs'|].
    split; [exact Hfind | exact Hstatus].
  - destruct (grade_submission_marks_both sample_isoformat sample_clock sample_ids
                sub_ali_id 9.5%float None (sample_oid Byte.x31)
                (sample_store_without "homework" hw_ali))
      as [Hok _]; [vm_compute; reflexivity|].
    destruct Hok as (d & h & ho & w' & Hin & Hid & Hr & Hh & Hrun & Hst & _ & _ & _ & _ & _
                     & _ & Hgone).
    { apply has_id_b_true. vm_compute; reflexivity. }
    { apply submissions_wf_b. vm_compute; reflexivity. }
    assert (Hho : ho = sample_oid Byte.x21).
    { apply list_elem_of_In in Hin. vm_compute in Hin.
      destruct Hin as [<-|[<-|[]]].
      - vm_compute in Hr. injection Hr as <-. vm_compute in Hh.
        injection Hh as <-. reflexivity.
      - vm_compute in Hid. discriminate. }
    subst ho.
    match type of Hst with field _ ?x = _ => set (g := x) in * end.
    destruct (serialize_lookup sample_isoformat g "status")
      as (s & Hser & _ & _ & Hs); [done..|].
    rewrite Hser in Hrun. rewrite Hst in Hs.
    exists s, w'. split; [exact Hrun|]. split; [exact Hs|].
    rewrite Hgone; [vm_compute; reflexivity|].
    apply has_id_b_false. vm_compute; reflexivity.
  - destruct (grade_submission_marks_both sample_isoformat sample_clock sample_ids
                absent_id 9.5%float None (sample_oid Byte.x09) sample_world)
      as [_ Hmiss]; [vm_compute; reflexivity|].
    destruct Hmiss as (w' & Hrun & Hst).
    { apply has_id_b_false. vm_compute; reflexivity. }
    exists w'. split; [exact Hrun | exact Hst].
Defined.



(** C9 as stated fails.  Nothing in the sample store names [absent_id],
    which is the identifier of no student: [delete_student] fails with the
    404 and the store is as it was. *)
Lemma delete_student_absent_unchanged_counterexample :
  parse_ObjectId absent_id = Some (sample_oid Byte.x09) ∧
  ¬ has_id (sample_oid Byte.x09) (docs "student" sample_world) ∧
  ∃ w', delete_student sample_ids absent_id sample_world
          = (Raise (NotFound "الطالب غير موجود"), w') ∧
        store w' = store sample_world.
Proof.
  split; [vm_compute; reflexivity|].
  split; [apply has_id_b_false; vm_compute; reflexivity|].
  eexists. split; vm_compute; reflexivity.
Qed.

(** References are compared as strings.  An identifier may be spelled with
    upper-case digits: it parses to the same [ObjectId], so the student is
    found and deleted, but the lesson that refers to her by the string form
    of the identifier does not match the string as passed and stays. *)
Lemma delete_student_compares_id_strings :
  parse_ObjectId "00000000000000000000000A" = Some (_id lina) ∧
  str_ObjectId (_id lina) = "00000000000000000000000a" ∧
  refers "student_id" (str_ObjectId (_id lina)) lesson_lina ∧
  (delete_student sample_ids "00000000000000000000000A" lina_world).1 = Ok ok ∧
  docs "student" (delete_student sample_ids "00000000000000000000000A" lina_world).2 = [] ∧
  docs "lesson" (delete_student sample_ids "00000000000000000000000A" lina_world).2
    = [lesson_lina] ∧
  docs "lesson" (delete_student sample_ids "00000000000000000000000a" lina_world).2 = [].
Proof. vm_compute. repeat split. Qed.

(** The sample store satisfies the invariant of the store. *)
Lemma sample_world_inv : store_inv sample_world.
Proof.
  split; [apply submissions_wf_b; vm_compute; reflexivity|].
  split; [unfold unique_codes | unfold unique_ids]; vm_compute;
    (apply NoDup_cons; split; [|apply NoDup_singleton]);
    intros Hin; apply list_elem_of_singleton in Hin; discriminate.
Qed.

(** * The further theorems on the sample store *)

Lemma serialized_id_resolves_witness :
  length (_id ali) = 12 ∧
  ∃ s i, serialize sample_isoformat (Some ali) = Some s ∧
    s !! "id" = Some (VStr i) ∧ String.length i = 24 ∧
    ∀ w, oid sample_ids (VStr i) w = (Ok (_id ali), w).
Proof.
  split; [vm_compute; reflexivity|].
  apply (serialized_id_resolves sample_isoformat sample_ids ali).
  vm_compute; reflexivity.
Defined.

Lemma serialize_shape_witness :
  ∃ s, serialize sample_isoformat (Some ali) = Some s ∧
    s !! "id" = Some (VStr ali_id) ∧ s !! "_id" = None ∧
    s !! "created_at" = Some (VStr "2024-05-01T10:00:00+00:00").
Proof.
  destruct (serialize_shape sample_isoformat ali) as (s & Hs & Hid & Hno & _ & Hrest).
  exists s. split_and!; [exact Hs|exact Hid|exact Hno|].
  rewrite (Hrest "created_at") by discriminate. vm_compute; reflexivity.
Defined.

Lemma list_filters_content_witness :
  ∃ lessons,
    (list_lessons sample_isoformat (Some ali_id) sample_world).1 = Ok lessons ∧
    lessons ≡ₚ [serialize sample_isoformat (Some lesson_ali)].
Proof.
  destruct (list_filters_content sample_isoformat (Some ali_id) None sample_world)
    as (ls & hs & ss & Hl & _ & _ & Hpl & _).
  exists ls. rewrite Hl. split; [reflexivity|].
  etrans; [exact Hpl|]. clear. vm_compute. reflexivity.
Defined.

Lemma list_all_content_witness :
  ∃ students msgs,
    (list_students sample_isoformat sample_world).1 = Ok students ∧
    (list_messages sample_isoformat ali_id sample_world).1 = Ok msgs ∧
    length students = 2 ∧ msgs ≡ₚ [serialize sample_isoformat (Some msg_ali)].
Proof.
  destruct (list_all_content sample_isoformat ali_id sample_world)
    as (st & ms & Hs & Hm & Hps & Hpm & _).
  exists st, ms. rewrite Hs, Hm. split_and!; [reflexivity|reflexivity| |].
  - rewrite Hps. clear. vm_compute. reflexivity.
  - etrans; [exact Hpm|]. clear. vm_compute. reflexivity.
Defined.

Lemma add_lesson_stores_unchecked_witness :
  (∀ d, d ∈ docs "student" sample_world → str_ObjectId (_id d) ≠ "nobody") ∧
  ∃ saved w',
    add_lesson sample_isoformat sample_clock sample_ids lesson_input sample_world
      = (Ok saved, w') ∧
    length (docs "lesson" w') = 3.
Proof.
  split.
  { intros d Hd%list_elem_of_In. vm_compute in Hd.
    destruct Hd as [<-|[<-|[]]]; vm_compute; discriminate. }
  destruct (add_lesson_stores_unchecked sample_isoformat sample_clock sample_ids
              lesson_input sample_world) as (w' & Hrun & _ & Hd & _).
  { apply has_id_b_false. vm_compute; reflexivity. }
  { vm_compute; reflexivity. }
  eexists _, w'. split; [exact Hrun|]. rewrite Hd. clear. vm_compute. reflexivity.
Defined.

Lemma add_homework_stores_unchecked_witness :
  ∃ saved w',
    add_homework sample_isoformat sample_clock sample_ids homework_input sample_world
      = (Ok saved, w') ∧
    length (docs "homework" w') = 3.
Proof.
  destruct (add_homework_stores_unchecked sample_isoformat sample_clock sample_ids
              homework_input sample_world) as (w' & Hrun & _ & Hd & _).
  { apply has_id_b_false. vm_compute; reflexivity. }
  { vm_compute; reflexivity. }
  eexists _, w'. split; [exact Hrun|]. rewrite Hd. clear. vm_compute. reflexivity.
Defined.

Lemma send_message_then_listed_witness :
  ∃ saved w' before after,
    send_message sample_isoformat sample_clock sample_ids ali_id student "thanks"
      sample_world = (Ok saved, w') ∧
    (list_messages sample_isoformat ali_id sample_world).1 = Ok before ∧
    (list_messages sample_isoformat ali_id w').1 = Ok after ∧
    saved ∈ after ∧ length after = S (length before).
Proof.
  destruct (send_message_then_listed sample_isoformat sample_clock sample_ids ali_id
              student "thanks" sample_world)
    as (w' & before & after & Hrun & _ & _ & _ & _ & Hb & Ha & Hin & Hlen).
  { apply has_id_b_false. vm_compute; reflexivity. }
  { vm_compute; reflexivity. }
  eexists _, w', before, after. split; [exact Hrun|].
  split; [exact Hb|]. split; [exact Ha|]. split; [exact Hin | exact Hlen].
Defined.

Lemma update_lesson_replaces_fields_witness :
  (∃ saved w',
     update_lesson sample_isoformat sample_clock sample_ids lesson_ali_id lesson_input
       sample_world = (Ok saved, w') ∧
     length (docs "lesson" w') = 2) ∧
  (∃ w',
     update_lesson sample_isoformat sample_clock sample_ids absent_id lesson_input
       sample_world = (Raise (NotFound "الدرس غير موجود"), w') ∧
     store w' = sample_store).
Proof.
  split.
  - destruct (update_lesson_replaces_fields sample_isoformat sample_clock sample_ids
                lesson_ali_id (sample_oid Byte.x11) lesson_input sample_world)
      as [Hok _]; [vm_compute; reflexivity|].
    destruct Hok as (d & w' & _ & Hrun & _ & Hd & _).
    { apply has_id_b_true. vm_compute; reflexivity. }
    eexists _, w'. split; [exact Hrun|]. rewrite Hd. clear. vm_compute. reflexivity.
  - destruct (update_lesson_replaces_fields sample_isoformat sample_clock sample_ids
                absent_id (sample_oid Byte.x09) lesson_input sample_world)
      as [_ Hmiss]; [vm_compute; reflexivity|].
    destruct Hmiss as (w' & Hrun & Hst).
    { apply has_id_b_false. vm_compute; reflexivity. }
    exists w'. split; [exact Hrun | exact Hst].
Defined.

Lemma update_homework_replaces_fields_witness :
  (∃ saved w',
     update_homework sample_isoformat sample_clock sample_ids hw_ali_id homework_input
       sample_world = (Ok saved, w') ∧
     docs "submission" w' = [sub_ali; sub_sara]) ∧
  (∃ w',
     update_homework sample_isoformat sample_clock sample_ids absent_id homework_input
       sample_world = (Raise (NotFound "الواجب غير موجود"), w') ∧
     store w' = sample_store).
Proof.
  split.
  - destruct (update_homework_replaces_fields sample_isoformat sample_clock sample_ids
                hw_ali_id (sample_oid Byte.x21) homework_input sample_world)
      as [Hok _]; [vm_compute; reflexivity|].
    destruct Hok as (d & w' & _ & Hrun & _ & _ & _ & _ & _ & _ & Hs & _).
    { apply has_id_b_true. vm_compute; reflexivity. }
    eexists _, w'. split; [exact Hrun|]. rewrite Hs. clear. vm_compute. reflexivity.
  - destruct (update_homework_replaces_fields sample_isoformat sample_clock sample_ids
                absent_id (sample_oid Byte.x09) homework_input sample_world)
      as [_ Hmiss]; [vm_compute; reflexivity|].
    destruct Hmiss as (w' & Hrun & Hst).
    { apply has_id_b_false. vm_compute; reflexivity. }
    exists w'. split; [exact Hrun | exact Hst].
Defined.

Lemma delete_lesson_removes_one_witness :
  (∃ w', delete_lesson sample_ids lesson_ali_id sample_world = (Ok ok, w') ∧
     length (docs "lesson" w') = 1) ∧
  (∃ w', delete_lesson sample_ids absent_id sample_world
           = (Raise (NotFound "الدرس غير موجود"), w') ∧
     store w' = sample_store).
Proof.
  split.
  - destruct (delete_lesson_removes_one sample_ids lesson_ali_id (sample_oid Byte.x11)
                sample_world) as [Hok _]; [vm_compute; reflexivity|].
    destruct Hok as (w' & Hrun & _ & Hd & _).
    { apply has_id_b_true. vm_compute; reflexivity. }
    exists w'. split; [exact Hrun|]. rewrite Hd. clear. vm_compute. reflexivity.
  - destruct (delete_lesson_removes_one sample_ids absent_id (sample_oid Byte.x09)
                sample_world) as [_ Hmiss]; [vm_compute; reflexivity|].
    destruct Hmiss as (w' & Hrun & Hst).
    { apply has_id_b_false. vm_compute; reflexivity. }
    exists w'. split; [exact Hrun | exact Hst].
Defined.

Lemma mark_read_sets_flag_witness :
  (∃ d w', mark_read sample_clock sample_ids msg_ali_id sample_world = (Ok ok, w') ∧
     docs "message" w' = [d] ∧ field "read" d = Some (VBool true) ∧
     field "text" d = Some (VStr "well done")) ∧
  (∃ w', mark_read sample_clock sample_ids absent_id sample_world
           = (Raise (NotFound "الرسالة غير موجودة"), w') ∧
     store w' = sample_store).
Proof.
  split.
  - destruct (mark_read_sets_flag sample_clock sample_ids msg_ali_id (sample_oid Byte.x41)
                sample_world) as [Hok _]; [vm_compute; reflexivity|].
    destruct Hok as (d & w' & _ & Hrun & Hd & _).
    { apply has_id_b_true. vm_compute; reflexivity. }
    eexists _, w'. split; [exact Hrun|]. rewrite Hd. clear. vm_compute. repeat split.
  - destruct (mark_read_sets_flag sample_clock sample_ids absent_id (sample_oid Byte.x09)
                sample_world) as [_ Hmiss]; [vm_compute; reflexivity|].
    destruct Hmiss as (w' & Hrun & Hst).
    { apply has_id_b_false. vm_compute; reflexivity. }
    exists w'. split; [exact Hrun | exact Hst].
Defined.

Lemma delete_student_twice_witness :
  ∃ w', delete_student sample_ids ali_id sample_world = (Ok ok, w') ∧
    (delete_student sample_ids ali_id w').1 = Raise (NotFound "الطالب غير موجود").
Proof.
  destruct (delete_student_twice sample_ids ali_id (sample_oid Byte.x01) sample_world)
    as (w' & Hrun & _ & Hagain).
  - vm_compute; reflexivity.
  - apply has_id_b_true. vm_compute; reflexivity.
  - unfold unique_ids. vm_compute.
    apply NoDup_cons; split; [|apply NoDup_singleton].
    intros Hin; apply list_elem_of_singleton in Hin; discriminate.
  - exists w'. split; [exact Hrun | exact Hagain].
Defined.

Lemma delete_homework_then_absent_witness :
  ∃ w', delete_homework sample_ids hw_ali_id sample_world = (Ok ok, w') ∧
    (submit_homework sample_isoformat sample_clock sample_ids hw_ali_id ali_id None w').1
      = Raise (NotFound "الواجب غير موجود") ∧
    (update_homework sample_isoformat sample_clock sample_ids hw_ali_id homework_input w').1
      = Raise (NotFound "الواجب غير موجود").
Proof.
  destruct (delete_homework_then_absent sample_isoformat sample_clock sample_ids hw_ali_id
              (sample_oid Byte.x21) sample_world)
    as (w' & Hrun & _ & Hsub & Hupd).
  - vm_compute; reflexivity.
  - apply has_id_b_true. vm_compute; reflexivity.
  - unfold unique_ids. vm_compute.
    apply NoDup_cons; split; [|apply NoDup_singleton].
    intros Hin; apply list_elem_of_singleton in Hin; discriminate.
  - exists w'. split; [exact Hrun|]. split; [apply Hsub | apply Hupd].
Defined.

Lemma delete_student_keeps_the_rest_witness :
  ∃ r w', delete_student sample_ids ali_id sample_world = (r, w') ∧
    sara ∈ docs "student" w' ∧ lesson_sara ∈ docs "lesson" w' ∧
    hw_sara ∈ docs "homework" w' ∧ sub_sara ∈ docs "submission" w'.
Proof.
  destruct (delete_student_keeps_the_rest sample_ids ali_id (sample_oid Byte.x01)
              sample_world)
    as (r & w' & Hrun & Hst & Hl & Hh & _ & Hs); [vm_compute; reflexivity|].
  exists r, w'. split; [exact Hrun|]. split_and!.
  - apply Hst; [|vm_compute; discriminate].
    apply list_elem_of_In. vm_compute. right; left; reflexivity.
  - apply Hl; [|vm_compute; discriminate].
    apply list_elem_of_In. vm_compute. right; left; reflexivity.
  - apply Hh; [|vm_compute; discriminate].
    apply list_elem_of_In. vm_compute. right; left; reflexivity.
  - apply Hs.
    + apply list_elem_of_In. vm_compute. right; left; reflexivity.
    + intros hw Hin%list_elem_of_In Href. vm_compute in Hin.
      destruct Hin as [<-|[<-|[]]]; [vm_compute; discriminate|].
      vm_compute in Href. discriminate Href.
Defined.

Lemma login_matches_stripped_codes_witness :
  login None sample_isoformat "1234" sample_world
    = login None sample_isoformat " 1234  " sample_world ∧
  ∃ d c, d ∈ docs "student" sample_world ∧ refers "code" c d ∧ strip c = c.
Proof.
  destruct (login_matches_stripped_codes None sample_isoformat " 1234  " sample_world)
    as [Heq Hres].
  split; [exact Heq|].
  destruct (Hres (MkLoginResponse student (serialize sample_isoformat (Some ali))))
    as (d & c & Hd & Hc & Hs & _); [vm_compute; reflexivity|].
  exists d, c. split; [exact Hd|]. split; [exact Hc | exact Hs].
Defined.

Lemma add_student_then_login_witness :
  ∃ saved w',
    add_student sample_isoformat sample_clock sample_ids (omar "4321") sample_world
      = (Ok (Some saved), w') ∧
    (login None sample_isoformat " 4321 " w').1
      = Ok (MkLoginResponse student (Some saved)).
Proof.
  destruct (add_student_then_login None sample_isoformat sample_clock sample_ids
              (omar "4321") " 4321 " sample_world) as (saved & w' & Hrun & Hlogin).
  - apply (no_reference_b "code" "4321"). vm_compute; reflexivity.
  - apply has_id_b_false. vm_compute; reflexivity.
  - vm_compute; reflexivity.
  - vm_compute; reflexivity.
  - vm_compute. discriminate.
  - exists saved, w'. split; [exact Hrun | exact Hlogin].
Defined.

Lemma reachable_store_inv_witness :
  reachable None sample_isoformat sample_clock sample_ids
    (serve_all None sample_isoformat sample_clock sample_ids school_requests empty_world) ∧
  store_inv
    (serve_all None sample_isoformat sample_clock sample_ids school_requests empty_world) ∧
  map (λ d, field "code" d)
    (docs "student"
       (serve_all None sample_isoformat sample_clock sample_ids school_requests empty_world))
    = [Some (VStr "1"); Some (VStr "2")] ∧
  map (λ d, field "homework_id" d)
    (docs "submission"
       (serve_all None sample_isoformat sample_clock sample_ids school_requests empty_world))
    = [Some (VStr "ffffffffffffffffffffff02"); Some (VStr "FFFFFFFFFFFFFFFFFFFFFF02")].
Proof.
  assert (Hw : reachable None sample_isoformat sample_clock sample_ids
                 (serve_all None sample_isoformat sample_clock sample_ids school_requests
                    empty_world))
    by apply reachable_serve_all, reachable_start.
  split; [exact Hw|]. split.
  - exact (reachable_store_inv None sample_isoformat sample_clock sample_ids _ Hw).
  - split; vm_compute; reflexivity.
Defined.

Lemma invalid_id_short_circuits_witness :
  parse_ObjectId "not-an-id" = None ∧
  delete_student sample_ids "not-an-id" sample_world
    = (Raise InvalidIdentifier, sample_world) ∧
  mark_read sample_clock sample_ids "not-an-id" sample_world
    = (Raise InvalidIdentifier, sample_world).
Proof.
  split; [vm_compute; reflexivity|].
  destruct (invalid_id_short_circuits sample_isoformat sample_clock sample_ids "not-an-id"
              sample_world) as (_ & Hd & _ & _ & _ & _ & _ & Hm); [vm_compute; reflexivity|].
  split; [exact Hd | exact Hm].
Defined.

Lemma ai_chat_ignores_padding_witness :
  forallb isspace_cp [32; 9]%N = true ∧ forallb isspace_cp [10; 160]%N = true ∧
  ai_chat ([32; 9] ++ utf8 "كيف أحل مسألة ضرب" ++ [10; 160])%N 7
    = ai_chat (utf8 "كيف أحل مسألة ضرب") 7 ∧
  ∃ t, ai_chat [32; 9]%N 7 = Ok (MkAIResponse (reply_prefix ++ default_answer) t).
Proof.
  split; [reflexivity|]. split; [reflexivity|].
  apply (ai_chat_ignores_padding [32; 9]%N (utf8 "كيف أحل مسألة ضرب") [10; 160]%N 7);
    reflexivity.
Defined.

Lemma ai_chat_math_word_wins_witness :
  utf8 "ضرب" ∈ math_words ∧
  ∃ t, ai_chat (utf8 "كيف أحل مسألة " ++ utf8 "ضرب" ++ utf8 " الكسور؟") 7
       = Ok (MkAIResponse (reply_prefix ++ math_answer) t).
Proof.
  assert (H : utf8 "ضرب" ∈ math_words).
  { apply list_elem_of_In. vm_compute. right; right; left; reflexivity. }
  split; [exact H|].
  exact (ai_chat_math_word_wins (utf8 "ضرب") (utf8 "كيف أحل مسألة ") (utf8 " الكسور؟") 7 H).
Defined.
